(** * SuiQuiz gas-station server: the quiz-room session engine

    A shallow embedding of the room engine of the gas-station server
    (class [QuizRoom], the REST routes under [/api/rooms] and the socket
    handlers) together with the submit check of the quiz creation form.

    Conventions of the embedding:
    - a JavaScript [Map] is an insertion-ordered association list
      ([JsMap]); [Map.set] on a present key replaces the value in place;
    - integer-valued numbers are [Z] (scores, points, seconds,
      percentages) or [nat] (question positions: [currentQuestion] starts
      at 0 and is only ever incremented, and the positions sent by clients
      are taken to be non-negative integers); the SUI amount of a quiz and
      the reward amounts computed from it are IEEE 754 binary64 numbers
      ([JsNumber]), multiplied, divided and floored with the rounding of
      JavaScript;
    - [Array.prototype.sort] is stable, so that sorting by descending score
      is [sort_desc];
    - [x || d] on numbers is [js_or x d] (0 is falsy), on strings
      [js_or_str] (the empty string is falsy);
    - objects mutated in place are written back at the place they were
      read from ([JsMap.set] after [JsMap.get], [JsMap.replace_first]
      after [JsMap.find_value]);
    - [io.to(..).emit] / [socket.emit] append to the list [emitted];
      calls to the ledger and storage collaborators append to [ledgerLog],
      and their outcomes are supplied by an environment [Env];
    - every handler runs to completion (awaits are not interleaved);
    - a timer input addresses either a room in the cache or a room that
      has left it: closing a room, or creating a room under its code, does
      not clear its interval, and such a room is kept in [detached].

    The later parts embed further code of the repository: the helpers
    [generateRoomCode] and [getRarityLevel], the room list and lookup
    routes, the percentage slots of the creation form, and the three Move
    modules [challenge::badge], [challenge::quiz] and
    [challenge::quiz_room], whose entry functions return a [MoveOutcome]
    (a failed [assert!] or an arithmetic abort leaves every object as it
    was). *)

From Stdlib Require Import ZArith List String Bool Lia Permutation Sorted.
From Stdlib Require Import SpecFloat.
Import ListNotations.

Local Open Scope string_scope.
Local Open Scope Z_scope.
Local Open Scope list_scope.

(* ------------------------------------------------------------------ *)
(** ** JavaScript helpers                                               *)
(* ------------------------------------------------------------------ *)

(** [x || d] for a number [x]. *)
Definition js_or (x d : Z) : Z := if x =? 0 then d else x.

(** [s || d] for a string [s]. *)
Definition js_or_str (s d : string) : string :=
  if String.eqb s "" then d else s.

(** [arr[i] = v]: assignment into a possibly shorter array leaves holes. *)
Fixpoint array_set {A : Type} (i : nat) (v : A) (arr : list (option A))
  : list (option A) :=
  match i, arr with
  | O, [] => [Some v]
  | O, _ :: t => Some v :: t
  | S i', [] => None :: array_set i' v []
  | S i', h :: t => h :: array_set i' v t
  end.


(** JavaScript numbers: binary64 floating point, rounding to nearest with
    ties to even. *)
Module JsNumber.

Definition prec : Z := 53.
Definition emax : Z := 1024.

Definition number : Type := spec_float.

(** The number denoted by an integer literal. *)
Definition of_Z (z : Z) : number := binary_normalize prec emax z 0 false.

(** [x * y] *)
Definition mul (x y : number) : number := SFmul prec emax x y.

(** [x / y] *)
Definition div (x y : number) : number := SFdiv prec emax x y.

(** [x > y]; false when either side is [NaN]. *)
Definition gtb (x y : number) : bool := SFltb y x.

(** [Math.floor(x)] *)
Definition floor (x : number) : number :=
  match x with
  | S754_finite s m e =>
      if 0 <=? e then x else of_Z (cond_Zopp s (Zpos m) / 2 ^ (- e))
  | _ => x
  end.

(** The normal number of value [n], for [n] below [2 ^ 53]: a mantissa of
    53 bits. *)
Definition canonical (n : positive) : number :=
  S754_finite false
    (Z.to_pos (Zpos n * 2 ^ (prec - Zpos (digits2_pos n))))
    (Zpos (digits2_pos n) - prec).

End JsNumber.

Module JsMap.
Section Ops.
Context {V : Type}.

Definition t := list (string * V).

Fixpoint get (k : string) (m : t) : option V :=
      match m with
      | [] => None
      | (k', v) :: m' => if String.eqb k k' then Some v else get k m'
      end.

Definition has (k : string) (m : t) : bool :=
      match get k m with Some _ => true | None => false end.

Fixpoint set (k : string) (v : V) (m : t) : t :=
      match m with
      | [] => [(k, v)]
      | (k', v') :: m' =>
          if String.eqb k k' then (k, v) :: m' else (k', v') :: set k v m'
      end.

Fixpoint delete (k : string) (m : t) : t :=
      match m with
      | [] => []
      | (k', v') :: m' =>
          if String.eqb k k' then m' else (k', v') :: delete k m'
      end.

Definition values (m : t) : list V := map snd m.
Definition keys (m : t) : list string := map fst m.
Definition size (m : t) : nat := List.length m.
Definition clear (m : t) : t := [].

    (** [Array.from(m.values()).find(p)] *)
Definition find_value (p : V -> bool) (m : t) : option V :=
      find p (values m).

    (** Writing back the object returned by [find_value p]. *)
Fixpoint replace_first (p : V -> bool) (v : V) (m : t) : t :=
      match m with
      | [] => []
      | (k', v') :: m' =>
          if p v' then (k', v) :: m' else (k', v') :: replace_first p v m'
      end.
End Ops.
Arguments t : clear implicits.
End JsMap.

(** [list.sort((a, b) => key(b) - key(a))]: the stable sort by descending
    key.  An element is inserted in front of the first element whose key is
    not greater, so that equal keys keep their original order. *)
Section SortDesc.
Context {A : Type} (key : A -> Z).

Fixpoint insert_desc (x : A) (l : list A) : list A :=
    match l with
    | [] => [x]
    | y :: t => if key x <? key y then y :: insert_desc x t else x :: y :: t
    end.

Definition sort_desc (l : list A) : list A := fold_right insert_desc [] l.

  (** Descending by key. *)
Definition sorted_desc (l : list A) : Prop :=
    StronglySorted (fun a b => key b <= key a) l.
End SortDesc.

(** [arr.map((x, index) => f x index)] *)
Fixpoint mapi_from {A B : Type} (f : A -> nat -> B) (i : nat) (l : list A)
  : list B :=
  match l with
  | [] => []
  | x :: t => f x i :: mapi_from f (S i) t
  end.

Definition mapi {A B : Type} (f : A -> nat -> B) (l : list A) : list B :=
  mapi_from f 0%nat l.

(* ------------------------------------------------------------------ *)
(** ** Data model                                                       *)
(* ------------------------------------------------------------------ *)

Inductive GameState := waiting | playing | finished.

Definition GameState_eqb (a b : GameState) : bool :=
  match a, b with
  | waiting, waiting | playing, playing | finished, finished => true
  | _, _ => false
  end.

Record Question := {
  questionText : string;
  options : list string;
  correctAnswer : Z;
  points : Z
}.

Record RewardInfo := {
  ri_type : string;
  suiAmount : JsNumber.number;
  distribution : string;
  ri_manualPercentages : option (list Z);
  paymentCollected : bool;
  paymentTransactionDigest : option string
}.

(** The quiz definition as posted by the creation form, extended by the
    server with [rewardInfo]. *)
Record QuizData := {
  title : string;
  questions : list Question;
  timePerQuestion : Z;
  maxPlayers : Z;
  rewardType : string;
  suiRewardAmount : JsNumber.number;
  rewardDistribution : string;
  manualPercentages : option (list Z);
  rewardInfo : option RewardInfo
}.

Record Player := {
  p_id : string;
  nickname : string;
  address : string;
  score : Z;
  answers : list (option Z);
  joinedAt : Z;
  isReady : bool
}.

(** An entry of [room.leaderboard]: [{...player, position}]. *)
Record RankedPlayer := {
  rp_player : Player;
  rp_position : nat
}.

(** An entry of a broadcast leaderboard. *)
Record LeaderboardEntry := {
  le_address : string;
  le_nickname : string;
  le_score : Z;
  le_position : nat
}.

(** The [io] captured by the timer closure: the socket route calls
    [startQuiz()] without it. *)
Inductive Io := io_server | io_undefined.

Record QuizRoom := {
  room_id : string;
  roomCode : string;
  quizData : QuizData;
  hostAddress : string;
  players : JsMap.t Player;
  gameState : GameState;
  currentQuestion : nat;
  timeRemaining : Z;
  leaderboard : list RankedPlayer;
  createdAt : Z;
  startTime : option Z;
  finishTime : option Z;
  rewardsDistributed : bool;
  timerInterval : option Io
}.

Record UserBadge := {
  b_id : string;
  badgeType : string;
  b_quizTitle : string;
  b_score : Z;
  totalPossible : Z;
  earnedAt : Z;
  isSealed : bool;
  rarity : string;
  color : string;
  b_position : nat;
  rewardPercentage : Z
}.

Record BadgeResult := {
  br_player : string;
  br_address : string;
  br_badge : UserBadge
}.

Inductive SuiRewards :=
| SuiDistributed (transactionDigest : string) (winners : list string)
    (amounts : list JsNumber.number) (totalAmount : JsNumber.number)
| SuiFailed (error : string)
| SuiNoWinners.

Record RewardResults := {
  suiRewards : option SuiRewards;
  badges : list BadgeResult
}.

(** Entry of the global [players] map: socket id to room membership. *)
Record SocketPlayer := {
  sp_roomId : string;
  sp_nickname : string;
  sp_address : string
}.

(* ------------------------------------------------------------------ *)
(** ** Effects                                                          *)
(* ------------------------------------------------------------------ *)

Inductive Target :=
| ToSocket (socketId : string)
| ToRoom (roomId : string).

(** The payloads, with the fields the handlers compute from the room state.
    ([player-left] sent on a disconnect also repeats the nickname and
    address of the leaving connection.) *)
Inductive Payload :=
| ErrorMsg (message : string)
| PlayerJoined (playerId nick addr : string) (currentPlayers : nat)
| PlayerLeft (playerId : string) (currentPlayers : nat)
| LeaderboardUpdate (lb : list LeaderboardEntry) (totalPlayers : nat)
| RoomState (code quizTitle : string) (gs : GameState)
    (currentPlayers : nat) (lb : list LeaderboardEntry)
    (roomPlayers : option (list Player))
| QuizStarted (questionIndex : nat) (timeLimit : Z) (question : option Question)
| QuizStopped (code : string) (gs : GameState)
| TimerUpdate (remaining : Z) (questionIndex : nat)
| NextQuestion (questionIndex : nat) (remaining : Z) (question : option Question)
| QuizFinished (lb : list Player) (totalQuestions : nat) (totalPlayers : Z)
| RewardsDistributed (success : bool) (results : RewardResults) (code : string)
| AnswerSubmitted (questionIndex : nat) (answer : Z) (isCorrect : bool) (pts : Z)
| HostDisconnected (code : string) (gs : GameState)
| RoomClosed (code : string).

Record Emit := { target : Target; payload : Payload }.

Inductive LedgerCall :=
| DistributeRewards (winners : list string) (amounts : list JsNumber.number)
    (host code : string) (quizId : option string)
| SaveUserBadges (addr : string) (userBadgeList : list UserBadge)
| MintBadge (badge : UserBadge) (addr : string).

Inductive LedgerResult :=
| LedgerOk (digest : string)
| LedgerError (error : string).

(** What the handlers take from outside: the clock, the random badge ids,
    and the outcome of a reward distribution (which may depend on the calls
    made so far).  The outcomes of [saveUserBadges] and
    [mintBadgeOnBlockchain] only select what is written to the console, so
    these two calls are logged and their outcomes are not consulted. *)
Record Env := {
  now : Z;
  newBadgeId : nat -> string;
  distributeRewardsToWinners : list LedgerCall -> LedgerCall -> LedgerResult
}.

(** The part of the server state a room method can touch besides the room. *)
Record Fx := {
  emitted : list Emit;
  ledgerLog : list LedgerCall;
  userBadges : JsMap.t (list UserBadge)
}.

Definition emit (tgt : Target) (p : Payload) (fx : Fx) : Fx :=
  {| emitted := emitted fx ++ [ {| target := tgt; payload := p |} ];
     ledgerLog := ledgerLog fx;
     userBadges := userBadges fx |}.

Definition call_ledger (c : LedgerCall) (fx : Fx) : Fx :=
  {| emitted := emitted fx;
     ledgerLog := ledgerLog fx ++ [c];
     userBadges := userBadges fx |}.

Definition with_userBadges (b : JsMap.t (list UserBadge)) (fx : Fx) : Fx :=
  {| emitted := emitted fx; ledgerLog := ledgerLog fx; userBadges := b |}.

(* ------------------------------------------------------------------ *)
(** ** Field updates of a room ([this.field = v])                       *)
(* ------------------------------------------------------------------ *)

Definition set_players (v : JsMap.t Player) (r : QuizRoom) : QuizRoom :=
  {| room_id := room_id r; roomCode := roomCode r; quizData := quizData r;
     hostAddress := hostAddress r; players := v; gameState := gameState r;
     currentQuestion := currentQuestion r; timeRemaining := timeRemaining r;
     leaderboard := leaderboard r; createdAt := createdAt r;
     startTime := startTime r; finishTime := finishTime r;
     rewardsDistributed := rewardsDistributed r;
     timerInterval := timerInterval r |}.

Definition set_gameState (v : GameState) (r : QuizRoom) : QuizRoom :=
  {| room_id := room_id r; roomCode := roomCode r; quizData := quizData r;
     hostAddress := hostAddress r; players := players r; gameState := v;
     currentQuestion := currentQuestion r; timeRemaining := timeRemaining r;
     leaderboard := leaderboard r; createdAt := createdAt r;
     startTime := startTime r; finishTime := finishTime r;
     rewardsDistributed := rewardsDistributed r;
     timerInterval := timerInterval r |}.

Definition set_currentQuestion (v : nat) (r : QuizRoom) : QuizRoom :=
  {| room_id := room_id r; roomCode := roomCode r; quizData := quizData r;
     hostAddress := hostAddress r; players := players r;
     gameState := gameState r; currentQuestion := v;
     timeRemaining := timeRemaining r; leaderboard := leaderboard r;
     createdAt := createdAt r; startTime := startTime r;
     finishTime := finishTime r; rewardsDistributed := rewardsDistributed r;
     timerInterval := timerInterval r |}.

Definition set_timeRemaining (v : Z) (r : QuizRoom) : QuizRoom :=
  {| room_id := room_id r; roomCode := roomCode r; quizData := quizData r;
     hostAddress := hostAddress r; players := players r;
     gameState := gameState r; currentQuestion := currentQuestion r;
     timeRemaining := v; leaderboard := leaderboard r;
     createdAt := createdAt r; startTime := startTime r;
     finishTime := finishTime r; rewardsDistributed := rewardsDistributed r;
     timerInterval := timerInterval r |}.

Definition set_leaderboard (v : list RankedPlayer) (r : QuizRoom) : QuizRoom :=
  {| room_id := room_id r; roomCode := roomCode r; quizData := quizData r;
     hostAddress := hostAddress r; players := players r;
     gameState := gameState r; currentQuestion := currentQuestion r;
     timeRemaining := timeRemaining r; leaderboard := v;
     createdAt := createdAt r; startTime := startTime r;
     finishTime := finishTime r; rewardsDistributed := rewardsDistributed r;
     timerInterval := timerInterval r |}.

Definition set_startTime (v : option Z) (r : QuizRoom) : QuizRoom :=
  {| room_id := room_id r; roomCode := roomCode r; quizData := quizData r;
     hostAddress := hostAddress r; players := players r;
     gameState := gameState r; currentQuestion := currentQuestion r;
     timeRemaining := timeRemaining r; leaderboard := leaderboard r;
     createdAt := createdAt r; startTime := v;
     finishTime := finishTime r; rewardsDistributed := rewardsDistributed r;
     timerInterval := timerInterval r |}.

Definition set_finishTime (v : option Z) (r : QuizRoom) : QuizRoom :=
  {| room_id := room_id r; roomCode := roomCode r; quizData := quizData r;
     hostAddress := hostAddress r; players := players r;
     gameState := gameState r; currentQuestion := currentQuestion r;
     timeRemaining := timeRemaining r; leaderboard := leaderboard r;
     createdAt := createdAt r; startTime := startTime r;
     finishTime := v; rewardsDistributed := rewardsDistributed r;
     timerInterval := timerInterval r |}.

Definition set_rewardsDistributed (v : bool) (r : QuizRoom) : QuizRoom :=
  {| room_id := room_id r; roomCode := roomCode r; quizData := quizData r;
     hostAddress := hostAddress r; players := players r;
     gameState := gameState r; currentQuestion := currentQuestion r;
     timeRemaining := timeRemaining r; leaderboard := leaderboard r;
     createdAt := createdAt r; startTime := startTime r;
     finishTime := finishTime r; rewardsDistributed := v;
     timerInterval := timerInterval r |}.

Definition set_timerInterval (v : option Io) (r : QuizRoom) : QuizRoom :=
  {| room_id := room_id r; roomCode := roomCode r; quizData := quizData r;
     hostAddress := hostAddress r; players := players r;
     gameState := gameState r; currentQuestion := currentQuestion r;
     timeRemaining := timeRemaining r; leaderboard := leaderboard r;
     createdAt := createdAt r; startTime := startTime r;
     finishTime := finishTime r; rewardsDistributed := rewardsDistributed r;
     timerInterval := v |}.

Definition set_score (v : Z) (p : Player) : Player :=
  {| p_id := p_id p; nickname := nickname p; address := address p;
     score := v; answers := answers p; joinedAt := joinedAt p;
     isReady := isReady p |}.

Definition set_answers (v : list (option Z)) (p : Player) : Player :=
  {| p_id := p_id p; nickname := nickname p; address := address p;
     score := score p; answers := v; joinedAt := joinedAt p;
     isReady := isReady p |}.

(* ------------------------------------------------------------------ *)
(** ** class QuizRoom                                                   *)
(* ------------------------------------------------------------------ *)

(** [constructor(roomCode, quizData, hostAddress)]; the uuid and the
    creation time are supplied by the caller. *)
Definition new_QuizRoom (uuid code : string) (qd : QuizData) (host : string)
    (created : Z) : QuizRoom :=
  {| room_id := uuid; roomCode := code; quizData := qd; hostAddress := host;
     players := []; gameState := waiting; currentQuestion := 0%nat;
     timeRemaining := 0; leaderboard := []; createdAt := created;
     startTime := None; finishTime := None; rewardsDistributed := false;
     timerInterval := None |}.

Definition addPlayer (env : Env) (playerId nick addr : string) (r : QuizRoom)
  : QuizRoom :=
  set_players
    (JsMap.set playerId
       {| p_id := playerId; nickname := nick; address := addr; score := 0;
          answers := []; joinedAt := now env; isReady := false |}
       (players r)) r.

Definition removePlayer (playerId : string) (r : QuizRoom) : QuizRoom :=
  set_players (JsMap.delete playerId (players r)) r.

(** [startTimerSync(io)]: any previous interval is cleared and a new one
    capturing [io] is installed; its callback is [timer_tick] below. *)
Definition startTimerSync (io : Io) (r : QuizRoom) : QuizRoom :=
  set_timerInterval (Some io) r.

Definition clearTimer (r : QuizRoom) : QuizRoom :=
  set_timerInterval None r.

Definition startQuiz (env : Env) (io : Io) (r : QuizRoom) : QuizRoom :=
  startTimerSync io
    (set_startTime (Some (now env))
       (set_timeRemaining (js_or (timePerQuestion (quizData r)) 30)
          (set_currentQuestion 0%nat
             (set_gameState playing r)))).

(** [Array.from(players.values()).filter(p => p.address !== hostAddress)
      .sort((a, b) => b.score - a.score)] *)
Definition ranking (r : QuizRoom) : list Player :=
  sort_desc score
    (filter (fun p => negb (String.eqb (address p) (hostAddress r)))
       (JsMap.values (players r))).

Definition calculateLeaderboard (r : QuizRoom) : QuizRoom :=
  set_leaderboard
    (mapi (fun p index => {| rp_player := p; rp_position := (index + 1)%nat |})
       (ranking r)) r.

(** The leaderboard sent in [leaderboard-update] and [room-state]. *)
Definition broadcastLeaderboard (r : QuizRoom) : list LeaderboardEntry :=
  mapi (fun p index =>
          {| le_address := address p; le_nickname := nickname p;
             le_score := score p; le_position := (index + 1)%nat |})
    (ranking r).

Definition submitAnswer (playerId : string) (questionIndex : nat) (answer : Z)
    (r : QuizRoom) : QuizRoom * bool :=
  match JsMap.get playerId (players r) with
  | None => (r, false)
  | Some player =>
      let player1 :=
        match nth_error (questions (quizData r)) questionIndex with
        | Some question =>
            if answer =? correctAnswer question
            then set_score (score player + js_or (points question) 10) player
            else player
        | None => player
        end in
      let player2 :=
        set_answers (array_set questionIndex answer (answers player1)) player1 in
      (set_players (JsMap.set playerId player2 (players r)) r, true)
  end.

Definition resetQuiz (r : QuizRoom) : QuizRoom :=
  clearTimer
    (set_leaderboard []
       (set_players (JsMap.clear (players r))
          (set_timeRemaining 0
             (set_currentQuestion 0%nat
                (set_gameState waiting r))))).

(** Badge type, rarity and colour by position and score. *)
Definition badge_tier (position : nat) (sc : Z) : string * string * string :=
  if (position =? 1)%nat then ("Quiz Champion", "legendary", "#FFD700")
  else if (position =? 2)%nat then ("Quiz Runner-up", "epic", "#C0C0C0")
  else if (position =? 3)%nat then ("Quiz Bronze", "rare", "#CD7F32")
  else if 80 <=? sc then ("Quiz Expert", "uncommon", "#00FF00")
  else ("Participation", "common", "#808080").

Definition position_percentage (position : nat) : Z :=
  if (position =? 1)%nat then 50
  else if (position =? 2)%nat then 30
  else if (position =? 3)%nat then 20
  else 0.

(** The [userBadge] object built for the player at index [i]. *)
Definition make_userBadge (env : Env) (r : QuizRoom) (i : nat) (player : Player)
  : UserBadge :=
  let position := (i + 1)%nat in
  let '(bt, rar, col) := badge_tier position (score player) in
  {| b_id := newBadgeId env i;
     badgeType := bt;
     b_quizTitle := js_or_str (title (quizData r)) "Quiz Challenge";
     b_score := score player;
     totalPossible := Z.of_nat (List.length (questions (quizData r))) * 10;
     earnedAt := now env;
     isSealed := false;
     rarity := rar;
     color := col;
     b_position := position;
     rewardPercentage := position_percentage position |}.

(** [rewardInfo.suiAmount * 1000000000]: the reward pool in MIST. *)
Definition totalRewardAmount (ri : RewardInfo) : JsNumber.number :=
  JsNumber.mul (suiAmount ri) (JsNumber.of_Z 1000000000).

(** Amount for one percentage: [Math.floor((total * percentage) / 100)]. *)
Definition share (total : JsNumber.number) (percentage : Z) : JsNumber.number :=
  JsNumber.floor
    (JsNumber.div (JsNumber.mul total (JsNumber.of_Z percentage))
       (JsNumber.of_Z 100)).

(** The players paid and their percentages, by distribution rule. *)
Definition winners_with_percentages (ri : RewardInfo) (lb : list Player)
  : list (Player * Z) :=
  if String.eqb (distribution ri) "top3" then
    combine (firstn 3 lb) [50; 30; 20]
  else if String.eqb (distribution ri) "manual" then
    let manual :=
      match ri_manualPercentages ri with
      | Some l => l
      | None => [50; 30; 20]
      end in
    combine (firstn (List.length manual) lb) manual
  else [].

(** Only called when [quizData.rewardInfo] is present. *)
Definition distributeSUIRewards (env : Env) (ri : RewardInfo)
    (lb : list Player) (r : QuizRoom) (fx : Fx) : QuizRoom * Fx * SuiRewards :=
  let total := totalRewardAmount ri in
  let paid := winners_with_percentages ri lb in
  let winners := map (fun wp => address (fst wp)) paid in
  let amounts := map (fun wp => share total (snd wp)) paid in
  match winners with
  | [] => (r, fx, SuiNoWinners)
  | _ :: _ =>
      let call :=
        DistributeRewards winners amounts (hostAddress r) (roomCode r)
          (paymentTransactionDigest ri) in
      match distributeRewardsToWinners env (ledgerLog fx) call with
      | LedgerOk digest =>
          (set_rewardsDistributed true r, call_ledger call fx,
           SuiDistributed digest winners amounts total)
      | LedgerError e => (r, call_ledger call fx, SuiFailed e)
      end
  end.

(** The body of the badge loop, for the player at index [i]. *)
Definition award_badge (env : Env) (r : QuizRoom) (i : nat) (player : Player)
    (fx : Fx) : Fx * BadgeResult :=
  let userBadge := make_userBadge env r i player in
  let existing :=
    match JsMap.get (address player) (userBadges fx) with
    | Some l => l
    | None => []
    end in
  let list' := existing ++ [userBadge] in
  let fx1 := with_userBadges (JsMap.set (address player) list' (userBadges fx)) fx in
  let fx2 := call_ledger (SaveUserBadges (address player) list') fx1 in
  let fx3 := call_ledger (MintBadge userBadge (address player)) fx2 in
  (fx3, {| br_player := nickname player; br_address := address player;
           br_badge := userBadge |}).

Fixpoint award_badges (env : Env) (r : QuizRoom) (i : nat) (lb : list Player)
    (fx : Fx) : Fx * list BadgeResult :=
  match lb with
  | [] => (fx, [])
  | player :: rest =>
      let '(fx1, b) := award_badge env r i player fx in
      let '(fx2, bs) := award_badges env r (S i) rest fx1 in
      (fx2, b :: bs)
  end.

Definition distributeRewardsAndBadges (env : Env) (lb : list Player)
    (r : QuizRoom) (fx : Fx) : QuizRoom * Fx * RewardResults :=
  let '(r1, fx1, sui) :=
    match rewardInfo (quizData r) with
    | Some ri =>
        if JsNumber.gtb (suiAmount ri) (JsNumber.of_Z 0) then
          let '(r', fx', res) := distributeSUIRewards env ri lb r fx in
          (r', fx', Some res)
        else (r, fx, None)
    | None => (r, fx, None)
    end in
  let '(fx2, bs) := award_badges env r1 0%nat lb fx1 in
  (r1, fx2, {| suiRewards := sui; badges := bs |}).

Definition finishQuiz (env : Env) (r : QuizRoom) (fx : Fx) : QuizRoom * Fx :=
  let r1 := clearTimer
              (calculateLeaderboard
                 (set_finishTime (Some (now env))
                    (set_gameState finished r))) in
  let lb := ranking r1 in
  let fx1 :=
    emit (ToRoom (room_id r1))
      (QuizFinished lb (List.length (questions (quizData r1)))
         (Z.of_nat (JsMap.size (players r1)) - 1)) fx in
  let '(r2, fx2, results) := distributeRewardsAndBadges env lb r1 fx1 in
  (r2, emit (ToRoom (room_id r2)) (RewardsDistributed true results (roomCode r2)) fx2).

(** Returns [true] when the quiz is finished. *)
Definition nextQuestion (env : Env) (r : QuizRoom) (fx : Fx)
  : QuizRoom * Fx * bool :=
  let r1 := set_timeRemaining (js_or (timePerQuestion (quizData r)) 30)
              (set_currentQuestion (currentQuestion r + 1)%nat r) in
  if (List.length (questions (quizData r1)) <=? currentQuestion r1)%nat then
    let '(r2, fx2) := finishQuiz env r1 fx in (r2, fx2, true)
  else (r1, fx, false).

Definition handleTimeUp (env : Env) (io : Io) (r : QuizRoom) (fx : Fx)
  : QuizRoom * Fx :=
  if Z.of_nat (currentQuestion r)
       <? Z.of_nat (List.length (questions (quizData r))) - 1 then
    let '(r1, fx1, _) := nextQuestion env r fx in
    let fx2 :=
      emit (ToRoom (room_id r1))
        (NextQuestion (currentQuestion r1) (timeRemaining r1)
           (nth_error (questions (quizData r1)) (currentQuestion r1))) fx1 in
    (startTimerSync io r1, fx2)
  else finishQuiz env r fx.

(** One firing of the interval callback installed by [startTimerSync io].
    With [io] undefined, [io.to] throws right after the decrement; the
    exception is not caught, and what becomes of the process afterwards is
    outside this model. *)
Definition timer_callback (env : Env) (io : Io) (r : QuizRoom) (fx : Fx)
  : QuizRoom * Fx :=
  if GameState_eqb (gameState r) playing && (0 <? timeRemaining r) then
    let r1 := set_timeRemaining (timeRemaining r - 1) r in
    match io with
    | io_undefined => (r1, fx)
    | io_server =>
        let fx1 :=
          emit (ToRoom (room_id r1))
            (TimerUpdate (timeRemaining r1) (currentQuestion r1)) fx in
        if timeRemaining r1 =? 0 then handleTimeUp env io r1 fx1 else (r1, fx1)
    end
  else (r, fx).

(** A tick of the room's timer: nothing runs once the interval is cleared. *)
Definition timer_tick (env : Env) (r : QuizRoom) (fx : Fx) : QuizRoom * Fx :=
  match timerInterval r with
  | Some io => timer_callback env io r fx
  | None => (r, fx)
  end.

(* ------------------------------------------------------------------ *)
(** ** Server state and handlers                                        *)
(* ------------------------------------------------------------------ *)

(** [quizRooms] and the global [players] map (here [socketPlayers], the
    name [players] being taken by the room field), with the effects.
    [detached] holds the room objects that have left [quizRooms] (closed,
    or replaced by a room created under the same code): nothing clears
    their interval, so that their timer may still fire. *)
Record Server := {
  quizRooms : JsMap.t QuizRoom;
  socketPlayers : JsMap.t SocketPlayer;
  detached : list QuizRoom;
  fx : Fx
}.

Inductive HttpResponse :=
| Http (status : nat) (success : bool) (message : string).

Definition has_code (code : string) (r : QuizRoom) : bool :=
  String.eqb (roomCode r) code.

(** [Array.from(quizRooms.values()).find(r => r.roomCode === roomCode)] *)
Definition find_room (code : string) (s : Server) : option QuizRoom :=
  JsMap.find_value (has_code code) (quizRooms s).

Definition put_found_room (code : string) (r : QuizRoom) (f : Fx) (s : Server)
  : Server :=
  {| quizRooms := JsMap.replace_first (has_code code) r (quizRooms s);
     socketPlayers := socketPlayers s;
     detached := detached s;
     fx := f |}.

Definition put_room (key : string) (r : QuizRoom) (f : Fx) (s : Server)
  : Server :=
  {| quizRooms := JsMap.set key r (quizRooms s);
     socketPlayers := socketPlayers s;
     detached := detached s;
     fx := f |}.

Definition with_fx (f : Fx) (s : Server) : Server :=
  {| quizRooms := quizRooms s; socketPlayers := socketPlayers s;
     detached := detached s; fx := f |}.

Definition with_socketPlayers (m : JsMap.t SocketPlayer) (s : Server) : Server :=
  {| quizRooms := quizRooms s; socketPlayers := m;
     detached := detached s; fx := fx s |}.

(** The detached rooms once the entry under [key] leaves [quizRooms]. *)
Definition detach (key : string) (s : Server) : list QuizRoom :=
  match JsMap.get key (quizRooms s) with
  | Some old => detached s ++ [old]
  | None => detached s
  end.

(** [POST /api/rooms] for a body with quiz data and a question list.  The
    room code ([generateRoomCode]) and the uuid are random and supplied by
    the caller; the room is cached whether or not [saveQuizRoom] succeeds,
    in the place of any room cached under the same code. *)
Definition http_create_room (env : Env) (uuid code : string) (qd : QuizData)
    (host : string) (paymentCompleted : bool) (txDigest : option string)
    (s : Server) : Server * HttpResponse :=
  let qd' :=
    {| title := title qd; questions := questions qd;
       timePerQuestion := timePerQuestion qd; maxPlayers := maxPlayers qd;
       rewardType := rewardType qd; suiRewardAmount := suiRewardAmount qd;
       rewardDistribution := rewardDistribution qd;
       manualPercentages := manualPercentages qd;
       rewardInfo :=
         Some {| ri_type := rewardType qd;
                 suiAmount := suiRewardAmount qd;
                 distribution := rewardDistribution qd;
                 ri_manualPercentages := manualPercentages qd;
                 paymentCollected := true;
                 paymentTransactionDigest :=
                   if paymentCompleted then txDigest else None |} |} in
  let room := new_QuizRoom uuid code qd' host (now env) in
  ({| quizRooms := JsMap.set code room (quizRooms s);
      socketPlayers := socketPlayers s;
      detached := detach code s;
      fx := fx s |},
   Http 200 true "Quiz room created successfully").

(** The body of a creation request, as far as the route reads it: the
    route logs [quizData.title] and [quizData.questions.length] before
    anything else, which throws when [quizData] or its question list is
    missing. *)
Inductive CreateBody :=
| NoQuizData
| NoQuestions
| WithQuiz (qd : QuizData).

(** [POST /api/rooms] for any body.  The [catch] of the route answers an
    exception with status 500 and the exception's message (here as Node
    words it); nothing has been stored by then. *)
Definition http_post_rooms (env : Env) (uuid code : string) (body : CreateBody)
    (host : string) (paymentCompleted : bool) (txDigest : option string)
    (s : Server) : Server * HttpResponse :=
  match body with
  | NoQuizData =>
      (s, Http 500 false "Cannot read properties of undefined (reading 'title')")
  | NoQuestions =>
      (s, Http 500 false "Cannot read properties of undefined (reading 'length')")
  | WithQuiz qd => http_create_room env uuid code qd host paymentCompleted txDigest s
  end.

(** [POST /api/rooms/:roomCode/start] *)
Definition http_start (env : Env) (code host : string) (s : Server)
  : Server * HttpResponse :=
  match find_room code s with
  | None => (s, Http 404 false "Room not found")
  | Some room =>
      if negb (String.eqb (hostAddress room) host) then
        (s, Http 403 false "Only the host can start the quiz")
      else if (List.length (questions (quizData room)) =? 0)%nat then
        (s, Http 400 false "Quiz has no questions")
      else
        let room1 := startQuiz env io_server room in
        let fx1 :=
          emit (ToRoom (room_id room1))
            (QuizStarted 0%nat (js_or (timePerQuestion (quizData room1)) 30)
               (nth_error (questions (quizData room1)) 0%nat)) (fx s) in
        (put_found_room code room1 fx1 s, Http 200 true "Quiz started successfully")
  end.

(** [POST /api/rooms/:roomCode/stop] *)
Definition http_stop (code host : string) (s : Server) : Server * HttpResponse :=
  match find_room code s with
  | None => (s, Http 404 false "Room not found")
  | Some room =>
      if negb (String.eqb (hostAddress room) host) then
        (s, Http 403 false "Only the host can stop the quiz")
      else
        let room1 :=
          clearTimer
            (set_timeRemaining 0
               (set_currentQuestion 0%nat
                  (set_gameState waiting room))) in
        let fx1 :=
          emit (ToRoom (room_id room1))
            (QuizStopped (roomCode room1) (gameState room1)) (fx s) in
        (put_found_room code room1 fx1 s, Http 200 true "Quiz stopped successfully")
  end.

(** [DELETE /api/rooms/:roomCode] *)
Definition http_delete (code host : string) (s : Server) : Server * HttpResponse :=
  match find_room code s with
  | None => (s, Http 404 false "Room not found")
  | Some room =>
      if negb (String.eqb (hostAddress room) host) then
        (s, Http 403 false "Only the host can close the room")
      else
        let fx1 := emit (ToRoom (room_id room)) (RoomClosed (roomCode room)) (fx s) in
        ({| quizRooms := JsMap.delete code (quizRooms s);
            socketPlayers := socketPlayers s;
            detached := detach code s;
            fx := fx1 |},
         Http 200 true "Room closed successfully")
  end.

(** [socket.on('join-room')] *)
Definition on_join_room (env : Env) (sid code nick addr : string) (s : Server)
  : Server :=
  match find_room code s with
  | None => with_fx (emit (ToSocket sid) (ErrorMsg "Room not found") (fx s)) s
  | Some room =>
      if negb (GameState_eqb (gameState room) waiting) then
        with_fx (emit (ToSocket sid) (ErrorMsg "Game has already started") (fx s)) s
      else if js_or (maxPlayers (quizData room)) 10
                <=? Z.of_nat (JsMap.size (players room)) then
        with_fx (emit (ToSocket sid) (ErrorMsg "Room is full") (fx s)) s
      else
        let room1 := addPlayer env sid nick addr room in
        let sp :=
          JsMap.set sid
            {| sp_roomId := code; sp_nickname := nick; sp_address := addr |}
            (socketPlayers s) in
        let n := JsMap.size (players room1) in
        let lb := broadcastLeaderboard room1 in
        let fx1 := emit (ToRoom (room_id room1)) (PlayerJoined sid nick addr n) (fx s) in
        let fx2 := emit (ToRoom (room_id room1)) (LeaderboardUpdate lb n) fx1 in
        let fx3 :=
          emit (ToRoom (room_id room1))
            (RoomState (roomCode room1) (title (quizData room1))
               (gameState room1) n lb None) fx2 in
        let fx4 :=
          emit (ToSocket sid)
            (RoomState (roomCode room1) (title (quizData room1))
               (gameState room1) n lb (Some (JsMap.values (players room1)))) fx3 in
        with_socketPlayers sp (put_found_room code room1 fx4 s)
  end.

(** [socket.on('leave-room')] *)
Definition on_leave_room (sid : string) (s : Server) : Server :=
  match JsMap.get sid (socketPlayers s) with
  | None => s
  | Some player =>
      let s1 :=
        match JsMap.get (sp_roomId player) (quizRooms s) with
        | Some room =>
            let room1 := removePlayer sid room in
            put_room (sp_roomId player) room1
              (emit (ToRoom (room_id room1))
                 (PlayerLeft sid (JsMap.size (players room1))) (fx s)) s
        | None => s
        end in
      with_socketPlayers (JsMap.delete sid (socketPlayers s1)) s1
  end.

(** [socket.on('start-quiz')]: [room.startQuiz()] is called without [io]. *)
Definition on_start_quiz (env : Env) (sid : string) (s : Server) : Server :=
  match JsMap.get sid (socketPlayers s) with
  | None => s
  | Some player =>
      match JsMap.get (sp_roomId player) (quizRooms s) with
      | Some room =>
          if String.eqb (hostAddress room) (sp_address player) then
            let room1 := startQuiz env io_undefined room in
            put_room (sp_roomId player) room1
              (emit (ToRoom (room_id room1))
                 (QuizStarted (currentQuestion room1) (timeRemaining room1)
                    (nth_error (questions (quizData room1))
                       (currentQuestion room1))) (fx s)) s
          else
            with_fx (emit (ToSocket sid)
                       (ErrorMsg "Only host can start the quiz") (fx s)) s
      | None =>
          with_fx (emit (ToSocket sid)
                     (ErrorMsg "Only host can start the quiz") (fx s)) s
      end
  end.

(** [socket.on('submit-answer')].  Reading [.correctAnswer] of a missing
    question throws after [submitAnswer] has already recorded the answer;
    the [catch] then reports the failure to the sender. *)
Definition on_submit_answer (sid : string) (questionIndex : nat)
    (answerIndex : Z) (s : Server) : Server :=
  match JsMap.get sid (socketPlayers s) with
  | None => s
  | Some player =>
      match JsMap.get (sp_roomId player) (quizRooms s) with
      | None => s
      | Some room =>
          if negb (GameState_eqb (gameState room) playing) then s
          else
            let '(room1, ok) := submitAnswer sid questionIndex answerIndex room in
            if ok then
              match nth_error (questions (quizData room1)) questionIndex with
              | None =>
                  put_room (sp_roomId player) room1
                    (emit (ToSocket sid)
                       (ErrorMsg "Failed to submit answer") (fx s)) s
              | Some question =>
                  let isCorrect := answerIndex =? correctAnswer question in
                  let pointsEarned :=
                    if isCorrect then js_or (points question) 10 else 0 in
                  let fx1 :=
                    emit (ToSocket sid)
                      (AnswerSubmitted questionIndex answerIndex isCorrect
                         pointsEarned) (fx s) in
                  let fx2 :=
                    emit (ToRoom (room_id room1))
                      (LeaderboardUpdate (broadcastLeaderboard room1)
                         (JsMap.size (players room1))) fx1 in
                  put_room (sp_roomId player) room1 fx2 s
              end
            else s
      end
  end.

(** [socket.on('next-question')] *)
Definition on_next_question (env : Env) (sid : string) (s : Server) : Server :=
  match JsMap.get sid (socketPlayers s) with
  | None => s
  | Some player =>
      match JsMap.get (sp_roomId player) (quizRooms s) with
      | Some room =>
          if String.eqb (hostAddress room) (sp_address player) then
            let '(room1, fx1, isFinished) := nextQuestion env room (fx s) in
            if isFinished || GameState_eqb (gameState room1) finished then
              put_room (sp_roomId player) room1 fx1 s
            else
              let fx2 :=
                emit (ToRoom (room_id room1))
                  (NextQuestion (currentQuestion room1) (timeRemaining room1)
                     (nth_error (questions (quizData room1))
                        (currentQuestion room1))) fx1 in
              put_room (sp_roomId player) (startTimerSync io_server room1) fx2 s
          else
            with_fx (emit (ToSocket sid)
                       (ErrorMsg "Only host can control the quiz") (fx s)) s
      | None =>
          with_fx (emit (ToSocket sid)
                     (ErrorMsg "Only host can control the quiz") (fx s)) s
      end
  end.

(** [socket.on('request-leaderboard')] *)
Definition on_request_leaderboard (sid : string) (s : Server) : Server :=
  match JsMap.get sid (socketPlayers s) with
  | None => s
  | Some player =>
      match JsMap.get (sp_roomId player) (quizRooms s) with
      | None => s
      | Some room =>
          with_fx (emit (ToSocket sid)
                     (LeaderboardUpdate (broadcastLeaderboard room)
                        (JsMap.size (players room))) (fx s)) s
      end
  end.

(** [socket.on('disconnect')] *)
Definition on_disconnect (sid : string) (s : Server) : Server :=
  match JsMap.get sid (socketPlayers s) with
  | None => s
  | Some player =>
      let s1 :=
        match JsMap.get (sp_roomId player) (quizRooms s) with
        | Some room =>
            let room1 := removePlayer sid room in
            if String.eqb (hostAddress room1) (sp_address player) then
              let room2 := resetQuiz room1 in
              put_room (sp_roomId player) room2
                (emit (ToRoom (room_id room2))
                   (HostDisconnected (roomCode room2) (gameState room2)) (fx s)) s
            else
              put_room (sp_roomId player) room1
                (emit (ToRoom (room_id room1))
                   (PlayerLeft sid (JsMap.size (players room1))) (fx s)) s
        | None => s
        end in
      with_socketPlayers (JsMap.delete sid (socketPlayers s1)) s1
  end.

(** The interval of the room cached under [key] fires. *)
Definition on_timer (env : Env) (key : string) (s : Server) : Server :=
  match JsMap.get key (quizRooms s) with
  | None => s
  | Some room =>
      let '(room1, fx1) := timer_tick env room (fx s) in
      put_room key room1 fx1 s
  end.

(** [arr[n] = x] within the array. *)
Fixpoint set_nth {A : Type} (n : nat) (x : A) (l : list A) : list A :=
  match n, l with
  | _, [] => []
  | O, _ :: t => x :: t
  | S n', h :: t => h :: set_nth n' x t
  end.

(** The interval of the [n]-th detached room fires: the callback runs on
    the room object it was installed for. *)
Definition on_detached_timer (env : Env) (n : nat) (s : Server) : Server :=
  match nth_error (detached s) n with
  | None => s
  | Some room =>
      let '(room1, fx1) := timer_tick env room (fx s) in
      {| quizRooms := quizRooms s;
         socketPlayers := socketPlayers s;
         detached := set_nth n room1 (detached s);
         fx := fx1 |}
  end.

(** Everything that can happen to the server.  [CreateRoom] is a creation
    request with quiz data and a question list; one without them changes
    nothing ([http_post_rooms]). *)
Inductive Input :=
| CreateRoom (uuid code : string) (qd : QuizData) (host : string)
    (paymentCompleted : bool) (txDigest : option string)
| HttpStart (code host : string)
| HttpStop (code host : string)
| HttpDelete (code host : string)
| JoinRoom (sid code nick addr : string)
| LeaveRoom (sid : string)
| StartQuiz (sid : string)
| SubmitAnswer (sid : string) (questionIndex : nat) (answerIndex : Z)
| NextQuestionCmd (sid : string)
| RequestLeaderboard (sid : string)
| Disconnect (sid : string)
| TimerFires (key : string)
| DetachedTimerFires (n : nat).

Definition step (env : Env) (i : Input) (s : Server) : Server :=
  match i with
  | CreateRoom uuid code qd host pc tx =>
      fst (http_create_room env uuid code qd host pc tx s)
  | HttpStart code host => fst (http_start env code host s)
  | HttpStop code host => fst (http_stop code host s)
  | HttpDelete code host => fst (http_delete code host s)
  | JoinRoom sid code nick addr => on_join_room env sid code nick addr s
  | LeaveRoom sid => on_leave_room sid s
  | StartQuiz sid => on_start_quiz env sid s
  | SubmitAnswer sid qi ai => on_submit_answer sid qi ai s
  | NextQuestionCmd sid => on_next_question env sid s
  | RequestLeaderboard sid => on_request_leaderboard sid s
  | Disconnect sid => on_disconnect sid s
  | TimerFires key => on_timer env key s
  | DetachedTimerFires n => on_detached_timer env n s
  end.

(** Running a list of inputs, oldest first. *)
Definition run (env : Env) (inputs : list Input) (s : Server) : Server :=
  fold_left (fun st i => step env i st) inputs s.

Definition empty_fx : Fx :=
  {| emitted := []; ledgerLog := []; userBadges := [] |}.

Definition initial_server : Server :=
  {| quizRooms := []; socketPlayers := []; detached := []; fx := empty_fx |}.

(* ------------------------------------------------------------------ *)
(** ** The quiz creation form ([CreateQuiz.createQuiz])                 *)
(* ------------------------------------------------------------------ *)

Record QuizForm := {
  f_title : string;
  f_description : string;
  f_questions : list Question;
  f_rewardType : string;
  f_suiRewardAmount : Z;
  f_rewardDistribution : string;
  f_manualPercentages : list Z
}.

Inductive FormAlert :=
| FillRequiredFields
| InvalidSuiAmount
| PercentagesMustTotal100 (currentTotal : Z)
| PercentagesMustBePositive.

(** What a click on the create button leads to: an alert and nothing else,
    the payment dialog, or the POST to [/api/rooms]. *)
Inductive FormOutcome :=
| Alert (a : FormAlert)
| ShowPaymentModal
| ProceedWithQuizCreation.

(** [arr.reduce((sum, p) => sum + p, 0)] *)
Definition total_percentage (l : list Z) : Z :=
  fold_left (fun sum p => sum + p) l 0.

Definition wants_sui (f : QuizForm) : bool :=
  String.eqb (f_rewardType f) "sui" || String.eqb (f_rewardType f) "both".

Definition createQuiz (f : QuizForm) : FormOutcome :=
  if String.eqb (f_title f) "" || String.eqb (f_description f) ""
     || (List.length (f_questions f) =? 0)%nat then
    Alert FillRequiredFields
  else if wants_sui f && (f_suiRewardAmount f <=? 0) then
    Alert InvalidSuiAmount
  else if String.eqb (f_rewardDistribution f) "manual"
          && negb (total_percentage (f_manualPercentages f) =? 100) then
    Alert (PercentagesMustTotal100 (total_percentage (f_manualPercentages f)))
  else if String.eqb (f_rewardDistribution f) "manual"
          && existsb (fun p => p <? 0) (f_manualPercentages f) then
    Alert PercentagesMustBePositive
  else if wants_sui f && (0 <? f_suiRewardAmount f) then
    ShowPaymentModal
  else ProceedWithQuizCreation.

(* ------------------------------------------------------------------ *)
(** ** Observations used in the statements                              *)
(* ------------------------------------------------------------------ *)

(** The player stored for socket [sid] in the room cached under [key]. *)
Definition player_of (key sid : string) (s : Server) : option Player :=
  match JsMap.get key (quizRooms s) with
  | Some room => JsMap.get sid (players room)
  | None => None
  end.

Definition score_of (key sid : string) (s : Server) : option Z :=
  option_map score (player_of key sid s).




(** What a correct answer to a question is worth: [question.points || 10]. *)
Definition awarded_points (q : Question) : Z := js_or (points q) 10.

(** The score of a player who answers every question correctly once. *)
Definition achievable_maximum (qs : list Question) : Z :=
  fold_right (fun q acc => awarded_points q + acc) 0 qs.

Definition is_distribution (c : LedgerCall) : bool :=
  match c with
  | DistributeRewards _ _ _ _ _ => true
  | _ => false
  end.

Definition is_mint (c : LedgerCall) : bool :=
  match c with
  | MintBadge _ _ => true
  | _ => false
  end.

(** Number of reward distributions / badge mints requested so far. *)
Definition distributions (s : Server) : nat :=
  List.length (filter is_distribution (ledgerLog (fx s))).

Definition mints (s : Server) : nat :=
  List.length (filter is_mint (ledgerLog (fx s))).

Definition is_error (e : Emit) : bool :=
  match payload e with
  | ErrorMsg _ => true
  | _ => false
  end.

(** The players of a room other than its host, in joining order. *)
Definition non_host_players (r : QuizRoom) : list Player :=
  filter (fun p => negb (String.eqb (address p) (hostAddress r)))
    (JsMap.values (players r)).





(* ------------------------------------------------------------------ *)
(** ** Concrete rooms used in the examples                              *)
(* ------------------------------------------------------------------ *)

Module Fixtures.

Definition question (correct pts : Z) : Question :=
    {| questionText := "?"; options := ["A"; "B"; "C"; "D"];
       correctAnswer := correct; points := pts |}.

Definition quiz (qs : list Question) (dist : string)
      (manual : option (list Z)) (sui : Z) : QuizData :=
    {| title := "Quiz"; questions := qs; timePerQuestion := 30;
       maxPlayers := 10; rewardType := "sui";
       suiRewardAmount := JsNumber.of_Z sui;
       rewardDistribution := dist; manualPercentages := manual;
       rewardInfo := None |}.

  (** A ledger that accepts every distribution. *)
Definition env : Env :=
    {| now := 1000;
       newBadgeId := fun _ => "badge";
       distributeRewardsToWinners := fun _ _ => LedgerOk "digest" |}.

  (** Three questions worth 10, 5 and (configured) 0 points; correct
      options 1, 2 and 3. *)
Definition three_questions : list Question :=
    [question 1 10; question 2 5; question 3 0].

  (** Room ABC123 created by 0xhost; the host (socket sH) and alice
      (socket s1, address 0xa) have joined. *)
Definition lobby : Server :=
    run env
      [CreateRoom "uuid-1" "ABC123" (quiz three_questions "top3" None 2)
         "0xhost" false None;
       JoinRoom "sH" "ABC123" "host" "0xhost";
       JoinRoom "s1" "ABC123" "alice" "0xa"]
      initial_server.

  (** The host has started the quiz: playing, question 0. *)
Definition started : Server := step env (HttpStart "ABC123" "0xhost") lobby.

  (** A room whose only participant is its host. *)
Definition host_only : Server :=
    run env
      [CreateRoom "uuid-1" "ABC123" (quiz three_questions "top3" None 2)
         "0xhost" false None;
       JoinRoom "sH" "ABC123" "host" "0xhost"]
      initial_server.

  (** Alice answers question 0 correctly, the host advances to question 1. *)
Definition at_question_1 : Server :=
    run env [SubmitAnswer "s1" 0%nat 1; NextQuestionCmd "sH"] started.

  (** A one-question quiz with a reward pool, played by alice and finished
      by the host's advance. *)
Definition one_question_started : Server :=
    run env
      [CreateRoom "uuid-2" "XYZ789" (quiz [question 1 10] "top3" None 2)
         "0xhost" true (Some "0xpayment");
       JoinRoom "sH" "XYZ789" "host" "0xhost";
       JoinRoom "s1" "XYZ789" "alice" "0xa";
       HttpStart "XYZ789" "0xhost";
       SubmitAnswer "s1" 0%nat 1]
      initial_server.

Definition one_question_finished : Server :=
    step env (NextQuestionCmd "sH") one_question_started.

  (** A creation request with manual percentages 50 and 30. *)
Definition manual_80 : QuizData :=
    quiz [question 1 10] "manual" (Some [50; 30]) 2.

Definition manual_80_form : QuizForm :=
    {| f_title := "Quiz"; f_description := "A quiz";
       f_questions := [question 1 10]; f_rewardType := "sui";
       f_suiRewardAmount := 2; f_rewardDistribution := "manual";
       f_manualPercentages := [50; 30] |}.

  (** A room with questions worth 5 and 15 points. *)
Definition room_5_15 : QuizRoom :=
    new_QuizRoom "uuid-3" "FIVE15" (quiz [question 1 5; question 2 15] "top3" None 0)
      "0xhost" 0.

  (** The room with the given code; [room_5_15] stands in when there is
      none. *)
Definition room_of (code : string) (s : Server) : QuizRoom :=
    match find_room code s with
    | Some r => r
    | None => room_5_15
    end.

Definition alice : Player :=
    {| p_id := "s1"; nickname := "alice"; address := "0xa"; score := 20;
       answers := [Some 1; Some 2]; joinedAt := 0; isReady := false |}.

End Fixtures.

(* ------------------------------------------------------------------ *)
(** ** Further code of the server                                       *)
(* ------------------------------------------------------------------ *)

(** [chars.charAt(i)]: the character at [i], or the empty string. *)
Definition charAt (i : nat) (s : string) : string :=
  match String.get i s with
  | Some c => String c EmptyString
  | None => ""
  end.

Definition room_code_chars : string := "ABCDEFGHIJKLMNOPQRSTUVWXYZ0123456789".

(** [generateRoomCode()]: six characters; [draw i] is the value of
    [Math.floor(Math.random() * chars.length)] in round [i]. *)
Definition generateRoomCode (draw : nat -> nat) : string :=
  fold_left (fun result i => String.append result (charAt (draw i) room_code_chars))
    (seq 0 6) "".

(** [getRarityLevel(rarity)] *)
Definition getRarityLevel (rarity_name : string) : Z :=
  if String.eqb rarity_name "common" then 1
  else if String.eqb rarity_name "uncommon" then 2
  else if String.eqb rarity_name "rare" then 3
  else if String.eqb rarity_name "epic" then 4
  else if String.eqb rarity_name "legendary" then 5
  else 1.

(** The room summary of [GET /api/rooms] and [GET /api/rooms/:roomCode]. *)
Record RoomSummary := {
  rs_id : string;
  rs_roomCode : string;
  rs_title : string;
  rs_hostAddress : string;
  rs_currentPlayers : nat;
  rs_maxPlayers : Z;
  rs_status : GameState;
  rs_createdAt : Z
}.

Definition room_summary (r : QuizRoom) : RoomSummary :=
  {| rs_id := room_id r;
     rs_roomCode := roomCode r;
     rs_title := title (quizData r);
     rs_hostAddress := hostAddress r;
     rs_currentPlayers := JsMap.size (players r);
     rs_maxPlayers := js_or (maxPlayers (quizData r)) 10;
     rs_status := gameState r;
     rs_createdAt := createdAt r |}.

(** [GET /api/rooms] *)
Definition http_list_rooms (s : Server) : list RoomSummary :=
  map room_summary (JsMap.values (quizRooms s)).

(** [GET /api/rooms/:roomCode]: [None] is the 404 answer. *)
Definition http_get_room (code : string) (s : Server) : option RoomSummary :=
  option_map room_summary (find_room code s).

(** [n] firings of a room's interval, one after the other. *)
Fixpoint ticks (env : Env) (n : nat) (r : QuizRoom) (f : Fx) : QuizRoom * Fx :=
  match n with
  | O => (r, f)
  | S k => let '(r1, f1) := timer_tick env r f in ticks env k r1 f1
  end.

(** ** The percentage slots of the creation form *)

(** [addPercentageSlot] *)
Definition addPercentageSlot (l : list Z) : list Z := l ++ [0].

(** [arr.filter((_, i) => i !== index)] *)
Fixpoint remove_index {A : Type} (index : nat) (l : list A) : list A :=
  match l, index with
  | [], _ => []
  | _ :: t, O => t
  | x :: t, S i => x :: remove_index i t
  end.

(** [removePercentageSlot(index)] *)
Definition removePercentageSlot (index : nat) (l : list Z) : list Z :=
  if (1 <? List.length l)%nat then remove_index index l else l.

Inductive SlotEdit :=
| AddSlot
| RemoveSlot (index : nat).

Definition edit_slots (l : list Z) (e : SlotEdit) : list Z :=
  match e with
  | AddSlot => addPercentageSlot l
  | RemoveSlot i => removePercentageSlot i l
  end.

(** The initial state of the form. *)
Definition initial_percentages : list Z := [50; 30; 20].

(* ------------------------------------------------------------------ *)
(** ** The badge module on chain ([challenge::badge])                   *)
(* ------------------------------------------------------------------ *)

(** Move values of type [u64] are integers from 0 to [u64_max]; an
    operation leaving the range, or a division by zero, aborts the
    transaction, as does a failed [assert!]. *)
Definition u64_max : Z := 18446744073709551615.

Inductive MoveOutcome (A : Type) :=
| Executed (a : A)
| AssertFailed (code : Z)
| ArithmeticAbort.

Arguments Executed {A} a.
Arguments AssertFailed {A} code.
Arguments ArithmeticAbort {A}.

Record BadgeRarity := {
  rarity_level : Z;
  rarity_color : string
}.

Record BadgeType := {
  bt_name : string;
  bt_description : string;
  bt_rarity : BadgeRarity;
  required_score_percentage : Z
}.

Record BadgeNFT := {
  nft_id : string;
  nft_badge_type : BadgeType;
  nft_quiz_id : string;
  nft_quiz_title : string;
  nft_winner : string;
  nft_score : Z;
  nft_total_possible : Z;
  nft_completion_time : Z;
  nft_earned_at : Z;
  nft_is_sealed : bool;
  nft_sealed_by : string;
  nft_sealed_at : Z;
  nft_media_id : string;
  nft_sui_reward_amount : Z;
  nft_position : Z;
  nft_reward_percentage : Z
}.

(** What a transaction context supplies: the sender, the clock and the id
    of the next object. *)
Record TxContext := {
  tx_sender : string;
  epoch_timestamp_ms : Z;
  tx_fresh_id : string
}.

Inductive BadgeEvent :=
| BadgeMinted (badge_id badge_type_name quiz_id winner : string)
    (score total_possible timestamp : Z)
| BadgeSealed (badge_id quiz_id winner sealed_by : string) (timestamp : Z).

(** [mint_winner_badge]: the new badge (transferred to [winner]) and the
    event. *)
Definition mint_winner_badge (badge_type : BadgeType)
    (quiz_id quiz_title winner : string)
    (score total_possible completion_time : Z) (media_id : string)
    (sui_reward_amount position reward_percentage : Z) (ctx : TxContext)
  : MoveOutcome (BadgeNFT * BadgeEvent) :=
  if u64_max <? score * 100 then ArithmeticAbort
  else if total_possible =? 0 then ArithmeticAbort
  else
    let score_percentage := (score * 100) / total_possible in
    if score_percentage <? required_score_percentage badge_type then
      AssertFailed 0
    else
      Executed
        ({| nft_id := tx_fresh_id ctx;
            nft_badge_type := badge_type;
            nft_quiz_id := quiz_id;
            nft_quiz_title := quiz_title;
            nft_winner := winner;
            nft_score := score;
            nft_total_possible := total_possible;
            nft_completion_time := completion_time;
            nft_earned_at := epoch_timestamp_ms ctx;
            nft_is_sealed := false;
            nft_sealed_by := "0x0";
            nft_sealed_at := 0;
            nft_media_id := media_id;
            nft_sui_reward_amount := sui_reward_amount;
            nft_position := position;
            nft_reward_percentage := reward_percentage |},
         BadgeMinted (tx_fresh_id ctx) (bt_name badge_type) quiz_id winner
           score total_possible (epoch_timestamp_ms ctx)).

(** [seal_badge] *)
Definition seal_badge (badge : BadgeNFT) (quiz_creator : string)
    (ctx : TxContext) : MoveOutcome (BadgeNFT * BadgeEvent) :=
  if nft_is_sealed badge then AssertFailed 1
  else
    Executed
      ({| nft_id := nft_id badge;
          nft_badge_type := nft_badge_type badge;
          nft_quiz_id := nft_quiz_id badge;
          nft_quiz_title := nft_quiz_title badge;
          nft_winner := nft_winner badge;
          nft_score := nft_score badge;
          nft_total_possible := nft_total_possible badge;
          nft_completion_time := nft_completion_time badge;
          nft_earned_at := nft_earned_at badge;
          nft_is_sealed := true;
          nft_sealed_by := quiz_creator;
          nft_sealed_at := epoch_timestamp_ms ctx;
          nft_media_id := nft_media_id badge;
          nft_sui_reward_amount := nft_sui_reward_amount badge;
          nft_position := nft_position badge;
          nft_reward_percentage := nft_reward_percentage badge |},
       BadgeSealed (nft_id badge) (nft_quiz_id badge) (nft_winner badge)
         quiz_creator (epoch_timestamp_ms ctx)).

(* ------------------------------------------------------------------ *)
(** ** Further observations                                             *)
(* ------------------------------------------------------------------ *)

(** The capacity of a room as the join handler reads it. *)
Definition capacity (r : QuizRoom) : Z := js_or (maxPlayers (quizData r)) 10.

Definition within_capacity (r : QuizRoom) : Prop :=
  Z.of_nat (JsMap.size (players r)) <= Z.max 0 (capacity r).

(** Every cached room is stored under its own room code, and no key
    occurs twice. *)
Definition well_keyed (s : Server) : Prop :=
  NoDup (JsMap.keys (quizRooms s))
  /\ Forall (fun kr => roomCode (snd kr) = fst kr) (quizRooms s).

(** The badges stored for an address ([userBadges.get(address) || []]). *)
Definition badges_of (addr : string) (f : Fx) : list UserBadge :=
  match JsMap.get addr (userBadges f) with
  | Some l => l
  | None => []
  end.

(** Sum of a list of amounts. *)
Definition sum_Z (l : list Z) : Z := fold_right Z.add 0 l.

(** The winners and amounts handed to the ledger for a leaderboard. *)
(** The winners and amounts handed to the ledger for a leaderboard. *)
Definition payout (ri : RewardInfo) (lb : list Player)
  : list string * list JsNumber.number :=
  let paid := winners_with_percentages ri lb in
  (map (fun wp => address (fst wp)) paid,
   map (fun wp => share (totalRewardAmount ri) (snd wp)) paid).

(** What the transitions of a room leave alone. *)
Definition same_room (r r' : QuizRoom) : Prop :=
  roomCode r' = roomCode r
  /\ quizData r' = quizData r
  /\ hostAddress r' = hostAddress r
  /\ players r' = players r.

Definition rooms_within_capacity (s : Server) : Prop :=
  Forall within_capacity (JsMap.values (quizRooms s)).

(* ------------------------------------------------------------------ *)
(** ** The quiz module on chain ([challenge::quiz])                     *)
(* ------------------------------------------------------------------ *)

(** A transaction that aborts leaves every object as it was; a function
    that runs to the end returns the objects it changed and the events it
    emitted.  Coins are represented by their value, addresses and object
    ids by strings. *)
Module MoveQuiz.

Record Question := {
  question_text : string;
  options : list string;
  correct_answer_hash : list Z;
  points : Z;
  question_media_id : string
}.

Record RewardType := { reward_type_code : Z }.

Record RewardDistribution := {
  distribution_type : Z;
  percentages : list Z
}.

Record QuizNFT := {
  id : string;
  title : string;
  description : string;
  creator : string;
  media_id : string;
  questions : list Question;
  total_questions : Z;
  time_per_question : Z;
  created_at : Z;
  reward_type : RewardType;
  sui_reward_amount : Z;
  reward_distribution : RewardDistribution;
  manual_percentages : list Z;
  reward_pool_amount : Z;
  is_payment_collected : bool;
  is_rewards_distributed : bool
}.

Inductive Event :=
| QuizCreated (quiz_id quiz_title quiz_creator : string)
    (questions_count timestamp : Z)
| QuizCompleted (quiz_id player : string) (score total_possible timestamp : Z)
| PaymentCollected (quiz_id quiz_creator : string) (amount timestamp : Z)
| RewardsDistributed (quiz_id : string)
    (total_amount winners_count timestamp : Z).

(** [create_quiz]; [payment] is the value of the coin paid in.  The
    metadata object that is created and frozen alongside is left out. *)
Definition create_quiz (_title _description : string)
    (qs : list Question) (_time_per_question : Z) (_media_id : string)
    (_reward_type : RewardType) (_sui_reward_amount : Z)
    (_reward_distribution : RewardDistribution)
    (_manual_percentages : list Z) (payment : Z) (ctx : TxContext)
  : MoveOutcome (QuizNFT * list Event) :=
  let questions_count := Z.of_nat (List.length qs) in
  let payment_amount := payment in
  if payment_amount <? _sui_reward_amount then AssertFailed 0
  else
    let quiz :=
      {| id := tx_fresh_id ctx;
         title := _title;
         description := _description;
         creator := tx_sender ctx;
         media_id := _media_id;
         questions := qs;
         total_questions := questions_count;
         time_per_question := _time_per_question;
         created_at := epoch_timestamp_ms ctx;
         reward_type := _reward_type;
         sui_reward_amount := _sui_reward_amount;
         reward_distribution := _reward_distribution;
         manual_percentages := _manual_percentages;
         reward_pool_amount := payment_amount;
         is_payment_collected := true;
         is_rewards_distributed := false |} in
    Executed
      (quiz,
       [QuizCreated (id quiz) (title quiz) (tx_sender ctx) questions_count
          (epoch_timestamp_ms ctx);
        PaymentCollected (id quiz) (tx_sender ctx) payment_amount
          (epoch_timestamp_ms ctx)]).

(** The scoring loop of [submit_quiz_answers], from position [i] on:
    it runs while there is both a question and an answer. *)
Fixpoint score_answers (qs : list Question) (answers : list Z)
    (score total_possible : Z) : MoveOutcome (Z * Z) :=
  match qs, answers with
  | question :: qs', answer_index :: answers' =>
      if u64_max <? total_possible + points question then ArithmeticAbort
      else
        let total_possible1 := total_possible + points question in
        if 255 <? Z.of_nat (List.length (options question)) then
          ArithmeticAbort
        else if (answer_index <? Z.of_nat (List.length (options question)))
                && (answer_index =? 0) then
          if u64_max <? score + points question then ArithmeticAbort
          else score_answers qs' answers' (score + points question)
                 total_possible1
        else score_answers qs' answers' score total_possible1
  | _, _ => Executed (score, total_possible)
  end.

(** [submit_quiz_answers]: the quiz object is consumed. *)
Definition submit_quiz_answers (quiz : QuizNFT) (answers : list Z)
    (ctx : TxContext) : MoveOutcome (list Event) :=
  match score_answers (questions quiz) answers 0 0 with
  | Executed (score, total_possible) =>
      Executed [QuizCompleted (id quiz) (tx_sender ctx) score total_possible
                  (epoch_timestamp_ms ctx)]
  | AssertFailed code => AssertFailed code
  | ArithmeticAbort => ArithmeticAbort
  end.

(** The summing loop of [distribute_rewards]. *)
Fixpoint total_of (amounts : list Z) (total_distributed : Z) : option Z :=
  match amounts with
  | [] => Some total_distributed
  | amount :: rest =>
      if u64_max <? total_distributed + amount then None
      else total_of rest (total_distributed + amount)
  end.

Definition set_distributed (pool : Z) (quiz : QuizNFT) : QuizNFT :=
  {| id := id quiz; title := title quiz; description := description quiz;
     creator := creator quiz; media_id := media_id quiz;
     questions := questions quiz; total_questions := total_questions quiz;
     time_per_question := time_per_question quiz;
     created_at := created_at quiz; reward_type := reward_type quiz;
     sui_reward_amount := sui_reward_amount quiz;
     reward_distribution := reward_distribution quiz;
     manual_percentages := manual_percentages quiz;
     reward_pool_amount := pool;
     is_payment_collected := is_payment_collected quiz;
     is_rewards_distributed := true |}.

Definition set_reward_pool_amount (pool : Z) (quiz : QuizNFT) : QuizNFT :=
  {| id := id quiz; title := title quiz; description := description quiz;
     creator := creator quiz; media_id := media_id quiz;
     questions := questions quiz; total_questions := total_questions quiz;
     time_per_question := time_per_question quiz;
     created_at := created_at quiz; reward_type := reward_type quiz;
     sui_reward_amount := sui_reward_amount quiz;
     reward_distribution := reward_distribution quiz;
     manual_percentages := manual_percentages quiz;
     reward_pool_amount := pool;
     is_payment_collected := is_payment_collected quiz;
     is_rewards_distributed := is_rewards_distributed quiz |}.

(** [distribute_rewards] *)
Definition distribute_rewards (quiz : QuizNFT) (winners : list string)
    (amounts : list Z) (ctx : TxContext) : MoveOutcome (QuizNFT * list Event) :=
  if negb (String.eqb (creator quiz) (tx_sender ctx)) then AssertFailed 1
  else if is_rewards_distributed quiz then AssertFailed 2
  else if negb (is_payment_collected quiz) then AssertFailed 3
  else
    let winners_count := List.length winners in
    let amounts_count := List.length amounts in
    if negb (winners_count =? amounts_count)%nat then AssertFailed 4
    else
      match total_of amounts 0 with
      | None => ArithmeticAbort
      | Some total_distributed =>
          if reward_pool_amount quiz <? total_distributed then AssertFailed 5
          else
            let quiz1 :=
              set_distributed (reward_pool_amount quiz - total_distributed)
                quiz in
            Executed
              (quiz1,
               [RewardsDistributed (id quiz1) total_distributed
                  (Z.of_nat winners_count) (epoch_timestamp_ms ctx)])
      end.

(** [refund_remaining_rewards] *)
Definition refund_remaining_rewards (quiz : QuizNFT) (ctx : TxContext)
  : MoveOutcome (QuizNFT * list Event) :=
  if negb (String.eqb (creator quiz) (tx_sender ctx)) then AssertFailed 1
  else if negb (is_rewards_distributed quiz) then AssertFailed 5
  else
    let remaining_amount := reward_pool_amount quiz in
    if 0 <? remaining_amount then
      let quiz1 := set_reward_pool_amount 0 quiz in
      Executed
        (quiz1,
         [RewardsDistributed (id quiz1) remaining_amount 1
            (epoch_timestamp_ms ctx)])
    else Executed (quiz, []).

(** The transactions that take a quiz by reference. *)
Inductive Tx :=
| Distribute (winners : list string) (amounts : list Z) (ctx : TxContext)
| Refund (ctx : TxContext).

Definition call (tx : Tx) (quiz : QuizNFT)
  : MoveOutcome (QuizNFT * list Event) :=
  match tx with
  | Distribute winners amounts ctx => distribute_rewards quiz winners amounts ctx
  | Refund ctx => refund_remaining_rewards quiz ctx
  end.

(** The quiz and the events so far after one more transaction. *)
Definition apply (st : QuizNFT * list Event) (tx : Tx)
  : QuizNFT * list Event :=
  match call tx (fst st) with
  | Executed (quiz1, events) => (quiz1, snd st ++ events)
  | _ => st
  end.

Definition execute (txs : list Tx) (st : QuizNFT * list Event)
  : QuizNFT * list Event :=
  fold_left apply txs st.

(** The amount carried by a [RewardsDistributed] event. *)
Definition paid_out_by (e : Event) : Z :=
  match e with
  | RewardsDistributed _ total_amount _ _ => total_amount
  | _ => 0
  end.

Definition paid_out (events : list Event) : Z :=
  fold_right (fun e acc => paid_out_by e + acc) 0 events.

Definition is_u64 (x : Z) : Prop := 0 <= x <= u64_max.

Definition well_typed (tx : Tx) : Prop :=
  match tx with
  | Distribute _ amounts _ => Forall is_u64 amounts
  | Refund _ => True
  end.

End MoveQuiz.

(* ------------------------------------------------------------------ *)
(** ** The quiz room module on chain ([challenge::quiz_room])           *)
(* ------------------------------------------------------------------ *)

Module MoveQuizRoom.

Record Player := {
  address : string;
  nickname : string;
  score : Z;
  answers : list Z;
  joined_at : Z;
  is_ready : bool
}.

Record LeaderboardEntry := {
  player_address : string;
  entry_nickname : string;
  entry_score : Z;
  position : Z
}.

Record GameState := {
  status : Z;
  question_start_time : Z;
  leaderboard : list LeaderboardEntry
}.

Record QuizRoom := {
  id : string;
  quiz : MoveQuiz.QuizNFT;
  room_code : string;
  host : string;
  max_players : Z;
  current_players : Z;
  players : list Player;
  game_state : GameState;
  current_question : Z;
  time_remaining : Z;
  created_at : Z;
  started_at : Z
}.

Inductive Event :=
| QuizRoomCreated (room_id code room_host quiz_title : string)
    (capacity timestamp : Z)
| PlayerJoined (room_id player nick : string) (players_now timestamp : Z)
| PlayerLeft (room_id player : string) (players_now timestamp : Z)
| QuizStarted (room_id room_host : string) (total_players timestamp : Z)
| QuestionAnswered (room_id player : string)
    (question_index answer timestamp : Z)
| QuizCompleted (room_id winner : string)
    (winner_score total_players timestamp : Z).

(** [generate_room_code] *)
Definition generate_room_code : string := "123456".

(** [create_quiz_room] *)
Definition create_quiz_room (q : MoveQuiz.QuizNFT) (capacity : Z)
    (ctx : TxContext) : QuizRoom * list Event :=
  let quiz_room :=
    {| id := tx_fresh_id ctx;
       quiz := q;
       room_code := generate_room_code;
       host := tx_sender ctx;
       max_players := capacity;
       current_players := 0;
       players := [];
       game_state := {| status := 0; question_start_time := 0;
                        leaderboard := [] |};
       current_question := 0;
       time_remaining := 0;
       created_at := epoch_timestamp_ms ctx;
       started_at := 0 |} in
  (quiz_room,
   [QuizRoomCreated (id quiz_room) (room_code quiz_room) (tx_sender ctx)
      (MoveQuiz.title (quiz quiz_room)) capacity (epoch_timestamp_ms ctx)]).

Definition with_players (ps : list Player) (n : Z) (room : QuizRoom)
  : QuizRoom :=
  {| id := id room; quiz := quiz room; room_code := room_code room;
     host := host room; max_players := max_players room;
     current_players := n; players := ps; game_state := game_state room;
     current_question := current_question room;
     time_remaining := time_remaining room; created_at := created_at room;
     started_at := started_at room |}.

Definition with_progress (gs : GameState) (question remaining started : Z)
    (room : QuizRoom) : QuizRoom :=
  {| id := id room; quiz := quiz room; room_code := room_code room;
     host := host room; max_players := max_players room;
     current_players := current_players room; players := players room;
     game_state := gs; current_question := question;
     time_remaining := remaining; created_at := created_at room;
     started_at := started |}.

Definition is_sender (ctx : TxContext) (p : Player) : bool :=
  String.eqb (address p) (tx_sender ctx).

(** [join_quiz_room] *)
Definition join_quiz_room (room : QuizRoom) (nick : string) (ctx : TxContext)
  : MoveOutcome (QuizRoom * list Event) :=
  if negb (current_players room <? max_players room) then AssertFailed 0
  else if negb (status (game_state room) =? 0) then AssertFailed 1
  else if existsb (is_sender ctx) (players room) then AssertFailed 2
  else
    let new_player :=
      {| address := tx_sender ctx; nickname := nick; score := 0;
         answers := []; joined_at := epoch_timestamp_ms ctx;
         is_ready := false |} in
    if u64_max <? current_players room + 1 then ArithmeticAbort
    else
      let room1 :=
        with_players (players room ++ [new_player])
          (current_players room + 1) room in
      Executed
        (room1,
         [PlayerJoined (id room1) (tx_sender ctx) nick
            (current_players room1) (epoch_timestamp_ms ctx)]).

(** The search loop of [leave_quiz_room]: the players without the first
    one whose address is the sender's, if there is one. *)
Fixpoint remove_sender (ctx : TxContext) (ps : list Player)
  : option (list Player) :=
  match ps with
  | [] => None
  | player :: rest =>
      if is_sender ctx player then Some rest
      else option_map (cons player) (remove_sender ctx rest)
  end.

(** [leave_quiz_room] *)
Definition leave_quiz_room (room : QuizRoom) (ctx : TxContext)
  : MoveOutcome (QuizRoom * list Event) :=
  match remove_sender ctx (players room) with
  | Some rest =>
      if current_players room <? 1 then ArithmeticAbort
      else
        let room1 := with_players rest (current_players room - 1) room in
        Executed
          (room1,
           [PlayerLeft (id room1) (tx_sender ctx) (current_players room1)
              (epoch_timestamp_ms ctx)])
  | None => AssertFailed 3
  end.

(** [start_quiz] *)
Definition start_quiz (room : QuizRoom) (ctx : TxContext)
  : MoveOutcome (QuizRoom * list Event) :=
  if negb (String.eqb (host room) (tx_sender ctx)) then AssertFailed 4
  else if negb (0 <? current_players room) then AssertFailed 5
  else if negb (status (game_state room) =? 0) then AssertFailed 6
  else
    let room1 :=
      with_progress
        {| status := 1; question_start_time := epoch_timestamp_ms ctx;
           leaderboard := leaderboard (game_state room) |}
        0 (MoveQuiz.time_per_question (quiz room)) (epoch_timestamp_ms ctx)
        room in
    Executed
      (room1,
       [QuizStarted (id room1) (tx_sender ctx) (current_players room1)
          (epoch_timestamp_ms ctx)]).

Definition push_answer (answer : Z) (p : Player) : Player :=
  {| address := address p; nickname := nickname p; score := score p;
     answers := answers p ++ [answer]; joined_at := joined_at p;
     is_ready := is_ready p |}.

(** The search loop of [submit_answer]: the answer is pushed onto the
    answers of the first player whose address is the sender's. *)
Fixpoint record_answer (ctx : TxContext) (answer : Z) (ps : list Player)
  : option (list Player) :=
  match ps with
  | [] => None
  | player :: rest =>
      if is_sender ctx player then Some (push_answer answer player :: rest)
      else option_map (cons player) (record_answer ctx answer rest)
  end.

(** [submit_answer] *)
Definition submit_answer (room : QuizRoom) (question_index answer : Z)
    (ctx : TxContext) : MoveOutcome (QuizRoom * list Event) :=
  if negb (status (game_state room) =? 1) then AssertFailed 7
  else if negb (question_index =? current_question room) then AssertFailed 8
  else
    match record_answer ctx answer (players room) with
    | None => AssertFailed 9
    | Some ps =>
        let room1 := with_players ps (current_players room) room in
        Executed
          (room1,
           [QuestionAnswered (id room1) (tx_sender ctx) question_index answer
              (epoch_timestamp_ms ctx)])
    end.

Definition entry_of (p : Player) : LeaderboardEntry :=
  {| player_address := address p; entry_nickname := nickname p;
     entry_score := score p; position := 0 |}.

(** [vector::insert(v, e, i)] *)
Definition insert_at {A : Type} (i : nat) (e : A) (v : list A) : list A :=
  firstn i v ++ e :: skipn i v.

(** The body of the inner sorting loop of [finish_quiz] for the indexes
    [j] and [k]: a higher-scoring entry at [k] is moved to [j]. *)
Definition sort_step (j k : nat) (lb : list LeaderboardEntry)
  : list LeaderboardEntry :=
  match nth_error lb j, nth_error lb k with
  | Some entry_j, Some entry_k =>
      if entry_score entry_j <? entry_score entry_k
      then insert_at j entry_k (remove_index k lb)
      else lb
  | _, _ => lb
  end.

(** The inner loop, [k] from [j + 1] to the end, and the outer loop, [j]
    from 0 to the end; the length of the vector does not change. *)
Definition sort_inner (lb : list LeaderboardEntry) (j : nat)
  : list LeaderboardEntry :=
  fold_left (fun l k => sort_step j k l)
    (seq (j + 1) (List.length lb - (j + 1))) lb.

Definition sort_leaderboard (lb : list LeaderboardEntry)
  : list LeaderboardEntry :=
  fold_left sort_inner (seq 0 (List.length lb)) lb.

Definition set_position (n : Z) (e : LeaderboardEntry) : LeaderboardEntry :=
  {| player_address := player_address e; entry_nickname := entry_nickname e;
     entry_score := entry_score e; position := n |}.

Definition number_positions (lb : list LeaderboardEntry)
  : list LeaderboardEntry :=
  mapi (fun e i => set_position (Z.of_nat i + 1) e) lb.

(** [finish_quiz] *)
Definition finish_quiz (room : QuizRoom) (ctx : TxContext)
  : QuizRoom * list Event :=
  let entries := leaderboard (game_state room) ++ map entry_of (players room) in
  let ranked := number_positions (sort_leaderboard entries) in
  let room1 :=
    with_progress
      {| status := 2;
         question_start_time := question_start_time (game_state room);
         leaderboard := ranked |}
      (current_question room) (time_remaining room) (started_at room) room in
  let '(winner_address, winner_score) :=
    match ranked with
    | winner_entry :: _ => (player_address winner_entry, entry_score winner_entry)
    | [] => ("0x0", 0)
    end in
  (room1,
   [QuizCompleted (id room1) winner_address winner_score
      (current_players room1) (epoch_timestamp_ms ctx)]).

(** [next_question] *)
Definition next_question (room : QuizRoom) (ctx : TxContext)
  : MoveOutcome (QuizRoom * list Event) :=
  if negb (String.eqb (host room) (tx_sender ctx)) then AssertFailed 10
  else if negb (status (game_state room) =? 1) then AssertFailed 11
  else if u64_max <? current_question room + 1 then ArithmeticAbort
  else
    let room1 :=
      with_progress
        {| status := status (game_state room);
           question_start_time := epoch_timestamp_ms ctx;
           leaderboard := leaderboard (game_state room) |}
        (current_question room + 1)
        (MoveQuiz.time_per_question (quiz room)) (started_at room) room in
    if MoveQuiz.total_questions (quiz room1) <=? current_question room1
    then Executed (finish_quiz room1 ctx)
    else Executed (room1, []).

(** The entry functions that take a room by reference. *)
Inductive Tx :=
| Join (nick : string) (ctx : TxContext)
| Leave (ctx : TxContext)
| Start (ctx : TxContext)
| Submit (question_index answer : Z) (ctx : TxContext)
| Next (ctx : TxContext)
| Finish (ctx : TxContext).

Definition call (tx : Tx) (room : QuizRoom)
  : MoveOutcome (QuizRoom * list Event) :=
  match tx with
  | Join nick ctx => join_quiz_room room nick ctx
  | Leave ctx => leave_quiz_room room ctx
  | Start ctx => start_quiz room ctx
  | Submit question_index answer ctx =>
      submit_answer room question_index answer ctx
  | Next ctx => next_question room ctx
  | Finish ctx => Executed (finish_quiz room ctx)
  end.

(** The room and the events so far after one more transaction; an aborted
    transaction changes nothing. *)
Definition apply (st : QuizRoom * list Event) (tx : Tx)
  : QuizRoom * list Event :=
  match call tx (fst st) with
  | Executed (room1, events) => (room1, snd st ++ events)
  | _ => st
  end.

Definition execute (txs : list Tx) (st : QuizRoom * list Event)
  : QuizRoom * list Event :=
  fold_left apply txs st.

(** What holds of a room on chain at all times. *)
Definition consistent (room : QuizRoom) : Prop :=
  current_players room = Z.of_nat (List.length (players room))
  /\ NoDup (map address (players room))
  /\ current_players room <= Z.max 0 (max_players room)
  /\ Forall (fun p => score p = 0) (players room)
  /\ (status (game_state room) = 0 \/ status (game_state room) = 1
      \/ status (game_state room) = 2)
  /\ (status (game_state room) <> 2 -> leaderboard (game_state room) = []).

Definition descending_entries (lb : list LeaderboardEntry) : Prop :=
  StronglySorted (fun a b => entry_score b <= entry_score a) lb.

(** What the inner loop does to the part of the vector from [j] on, seen
    as the entry [h] at [j], the entries [passed] already compared with it
    and the entries [rest] still to come: a higher-scoring entry takes the
    place of [h], which moves behind it. *)
Fixpoint select (h : LeaderboardEntry) (passed rest : list LeaderboardEntry)
  : list LeaderboardEntry :=
  match rest with
  | [] => h :: passed
  | y :: t =>
      if entry_score h <? entry_score y then select y (h :: passed) t
      else select h (passed ++ [y]) t
  end.

(** Selection of the first highest-scoring entry, [n] times. *)
Fixpoint selection_sort (n : nat) (l : list LeaderboardEntry)
  : list LeaderboardEntry :=
  match n, l with
  | S n', h :: t =>
      match select h [] t with
      | m :: others => m :: selection_sort n' others
      | [] => []
      end
  | _, _ => l
  end.

End MoveQuizRoom.

(** Objects on chain used in the examples. *)
Module ChainFixtures.

Definition creator_ctx : TxContext :=
  {| tx_sender := "0xhost"; epoch_timestamp_ms := 1000;
     tx_fresh_id := "0xq1" |}.

Definition alice_ctx : TxContext :=
  {| tx_sender := "0xa"; epoch_timestamp_ms := 2000; tx_fresh_id := "0xa1" |}.

Definition question (pts : Z) : MoveQuiz.Question :=
  {| MoveQuiz.question_text := "Q"; MoveQuiz.options := ["A"; "B"; "C"; "D"];
     MoveQuiz.correct_answer_hash := []; MoveQuiz.points := pts;
     MoveQuiz.question_media_id := "" |}.

(** A quiz with two questions and a reward pool of 100, not yet
    distributed. *)
Definition paid_quiz : MoveQuiz.QuizNFT :=
  {| MoveQuiz.id := "0xq1"; MoveQuiz.title := "Quiz";
     MoveQuiz.description := "A quiz"; MoveQuiz.creator := "0xhost";
     MoveQuiz.media_id := "";
     MoveQuiz.questions := [question 10; question 5];
     MoveQuiz.total_questions := 2; MoveQuiz.time_per_question := 30;
     MoveQuiz.created_at := 1000;
     MoveQuiz.reward_type := {| MoveQuiz.reward_type_code := 1 |};
     MoveQuiz.sui_reward_amount := 100;
     MoveQuiz.reward_distribution :=
       {| MoveQuiz.distribution_type := 0; MoveQuiz.percentages := [] |};
     MoveQuiz.manual_percentages := [];
     MoveQuiz.reward_pool_amount := 100;
     MoveQuiz.is_payment_collected := true;
     MoveQuiz.is_rewards_distributed := false |}.

(** A room for [paid_quiz] with room for four players, just created. *)
Definition new_room : MoveQuizRoom.QuizRoom :=
  fst (MoveQuizRoom.create_quiz_room paid_quiz 4 creator_ctx).

Definition entry (addr : string) (sc : Z) : MoveQuizRoom.LeaderboardEntry :=
  {| MoveQuizRoom.player_address := addr;
     MoveQuizRoom.entry_nickname := addr;
     MoveQuizRoom.entry_score := sc; MoveQuizRoom.position := 0 |}.

Definition bob_ctx : TxContext :=
  {| tx_sender := "0xb"; epoch_timestamp_ms := 3000; tx_fresh_id := "0xb1" |}.

(** The room after alice and then bob have joined. *)
Definition two_players : MoveQuizRoom.QuizRoom :=
  fst (MoveQuizRoom.execute
         [MoveQuizRoom.Join "alice" alice_ctx; MoveQuizRoom.Join "bob" bob_ctx]
         (MoveQuizRoom.create_quiz_room paid_quiz 4 creator_ctx)).

End ChainFixtures.

(* ================================================================== *)
(** * Properties                                                        *)
(* ================================================================== *)

(** ** The map operations *)

Module JsMapFacts.
Section Facts.
Context {V : Type}.
Implicit Types (m : JsMap.t V) (k : string) (v : V).

Lemma get_set_same k v m : JsMap.get k (JsMap.set k v m) = Some v.
    Proof.
      induction m as [|[k' v'] m IH]; simpl.
      - now rewrite String.eqb_refl.
      - destruct (String.eqb k k') eqn:E; simpl; rewrite ?String.eqb_refl, ?E; auto.
    Qed.

Lemma get_set_other k k' v m :
      k' <> k -> JsMap.get k' (JsMap.set k v m) = JsMap.get k' m.
    Proof.
      intros Hne. apply String.eqb_neq in Hne.
      induction m as [|[k0 v0] m IH]; simpl.
      - now rewrite Hne.
      - destruct (String.eqb k k0) eqn:E; simpl.
        + apply String.eqb_eq in E; subst k0. now rewrite Hne.
        + now rewrite IH.
    Qed.

    (** Storing back what is already there changes nothing. *)
Lemma set_get_id k v m : JsMap.get k m = Some v -> JsMap.set k v m = m.
    Proof.
      induction m as [|[k0 v0] m IH]; simpl; [discriminate|].
      destruct (String.eqb k k0) eqn:E.
      - apply String.eqb_eq in E; subst. now intros [= ->].
      - intros H. now rewrite IH.
    Qed.

    (** Replacing the value of a present key keeps the number of entries. *)
Lemma size_set_present k v v0 m :
      JsMap.get k m = Some v0 -> JsMap.size (JsMap.set k v m) = JsMap.size m.
    Proof.
      unfold JsMap.size.
      induction m as [|[k1 v1] m IH]; simpl; [discriminate|].
      destruct (String.eqb k k1); simpl; auto.
    Qed.

Lemma size_set_absent k v m :
      JsMap.get k m = None -> JsMap.size (JsMap.set k v m) = S (JsMap.size m).
    Proof.
      unfold JsMap.size.
      induction m as [|[k1 v1] m IH]; simpl; auto.
      destruct (String.eqb k k1); simpl; [discriminate|auto].
    Qed.

Lemma find_replace_first (p : V -> bool) v v' m :
      JsMap.find_value p m = Some v -> p v' = true ->
      JsMap.find_value p (JsMap.replace_first p v' m) = Some v'.
    Proof.
      unfold JsMap.find_value, JsMap.values.
      induction m as [|[k1 v1] m IH]; simpl; [discriminate|].
      destruct (p v1) eqn:E; simpl; intros H Hp.
      - now rewrite Hp.
      - rewrite E. auto.
    Qed.

Lemma in_values_replace_first (p : V -> bool) v v' m :
      JsMap.find_value p m = Some v ->
      In v' (JsMap.values (JsMap.replace_first p v' m)).
    Proof.
      unfold JsMap.find_value, JsMap.values.
      induction m as [|[k1 v1] m IH]; simpl; [discriminate|].
      destruct (p v1) eqn:E; simpl; auto.
    Qed.

Lemma in_values_set k v m : In v (JsMap.values (JsMap.set k v m)).
    Proof.
      unfold JsMap.values.
      induction m as [|[k1 v1] m IH]; simpl; auto.
      destruct (String.eqb k k1); simpl; auto.
    Qed.

End Facts.
End JsMapFacts.

(** ** The stable descending sort *)

Section SortFacts.
Context {A : Type} (key : A -> Z).

Lemma insert_desc_perm x l : Permutation (x :: l) (insert_desc key x l).
  Proof.
    induction l as [|y t IH]; simpl; auto.
    destruct (key x <? key y); auto.
    rewrite perm_swap. now constructor.
  Qed.

Lemma sort_desc_perm l : Permutation l (sort_desc key l).
  Proof.
    induction l as [|x t IH]; simpl; auto.
    rewrite <- insert_desc_perm. now constructor.
  Qed.

Lemma sort_desc_length l : List.length (sort_desc key l) = List.length l.
  Proof. symmetry. apply Permutation_length, sort_desc_perm. Qed.

Lemma sort_desc_in x l : In x (sort_desc key l) <-> In x l.
  Proof.
    split; apply Permutation_in; [symmetry|]; apply sort_desc_perm.
  Qed.

Lemma insert_desc_sorted x l : sorted_desc key l -> sorted_desc key (insert_desc key x l).
  Proof.
    unfold sorted_desc.
    induction 1 as [|y t Hs IH Hall]; simpl.
    - repeat constructor.
    - destruct (key x <? key y) eqn:E.
      + apply Z.ltb_lt in E. constructor; auto.
        rewrite Forall_forall in *. intros z Hz.
        apply (Permutation_in _ (Permutation_sym (insert_desc_perm x t))) in Hz.
        destruct Hz as [<-|Hz]; [lia|auto].
      + apply Z.ltb_ge in E. constructor.
        * now constructor.
        * constructor; auto.
          rewrite Forall_forall in *. intros z Hz. specialize (Hall z Hz). lia.
  Qed.

Lemma sort_desc_sorted l : sorted_desc key (sort_desc key l).
  Proof.
    induction l; simpl; [constructor|now apply insert_desc_sorted].
  Qed.

  (** Stability: the elements with any given key keep their order. *)
Lemma insert_desc_stable k x l :
    sorted_desc key l ->
    filter (fun a => key a =? k) (insert_desc key x l)
    = filter (fun a => key a =? k) (x :: l).
  Proof.
    unfold sorted_desc.
    induction 1 as [|y t Hs IH Hall]; auto.
    simpl insert_desc. destruct (key x <? key y) eqn:E; auto.
    apply Z.ltb_lt in E.
    change (filter (fun a => key a =? k) (y :: insert_desc key x t))
      with (if key y =? k then y :: filter (fun a => key a =? k) (insert_desc key x t)
            else filter (fun a => key a =? k) (insert_desc key x t)).
    rewrite IH. simpl.
    destruct (key y =? k) eqn:Ey, (key x =? k) eqn:Ex; auto.
    apply Z.eqb_eq in Ey, Ex. lia.
  Qed.

Lemma sort_desc_stable k l :
    filter (fun a => key a =? k) (sort_desc key l)
    = filter (fun a => key a =? k) l.
  Proof.
    induction l as [|x t IH]; auto.
    simpl sort_desc. rewrite insert_desc_stable by apply sort_desc_sorted.
    simpl. now rewrite IH.
  Qed.

End SortFacts.

(** ** Indexed maps *)

Lemma mapi_from_length {A B} (f : A -> nat -> B) i l :
  List.length (mapi_from f i l) = List.length l.
Proof. revert i; induction l; simpl; auto. Qed.

Lemma mapi_from_map {A B C} (f : A -> nat -> B) (g : B -> C) (h : A -> C) i l :
  (forall a n, g (f a n) = h a) -> map g (mapi_from f i l) = map h l.
Proof. intros H. revert i; induction l; simpl; intros; f_equal; auto. Qed.



(** ** Rankings *)

Lemma ranking_perm (r : QuizRoom) :
  Permutation (ranking r)
    (filter (fun p => negb (String.eqb (address p) (hostAddress r)))
       (JsMap.values (players r))).
Proof. symmetry. apply sort_desc_perm. Qed.



(** Ties keep the order in which the players joined. *)
Lemma ranking_stable (r : QuizRoom) (k : Z) :
  filter (fun p => score p =? k) (ranking r)
  = filter (fun p => score p =? k)
      (filter (fun p => negb (String.eqb (address p) (hostAddress r)))
         (JsMap.values (players r))).
Proof. apply sort_desc_stable. Qed.

Lemma ranking_ext (r r' : QuizRoom) :
  players r' = players r -> hostAddress r' = hostAddress r ->
  ranking r' = ranking r.
Proof. unfold ranking. now intros -> ->. Qed.



Lemma calculateLeaderboard_players (r : QuizRoom) :
  map rp_player (leaderboard (calculateLeaderboard r)) = ranking r.
Proof.
  unfold calculateLeaderboard, mapi. simpl.
  rewrite mapi_from_map with (h := fun p => p) by reflexivity.
  apply map_id.
Qed.

(** ** The dispatch pass and the finish transition *)

Lemma set_rewardsDistributed_same (r : QuizRoom) :
  set_rewardsDistributed (rewardsDistributed r) r = r.
Proof. now destruct r. Qed.

Lemma award_badges_emitted env r i lb f :
  emitted (fst (award_badges env r i lb f)) = emitted f.
Proof.
  revert i f. induction lb as [|p t IH]; intros i f; simpl; auto.
  destruct (award_badges env r (S i) t _) as [f2 bs] eqn:E. simpl.
  change f2 with (fst (f2, bs)). rewrite <- E, IH. reflexivity.
Qed.

(** The dispatch pass changes nothing of the room but the flag, and emits
    nothing itself. *)
Lemma distributeRewardsAndBadges_room env lb r f :
  let '(r', f', _) := distributeRewardsAndBadges env lb r f in
  r' = set_rewardsDistributed (rewardsDistributed r') r
  /\ (rewardsDistributed r = true -> rewardsDistributed r' = true)
  /\ emitted f' = emitted f.
Proof.
  unfold distributeRewardsAndBadges.
  assert (Hsui : forall ri,
    let '(r', f', _) := distributeSUIRewards env ri lb r f in
    r' = set_rewardsDistributed (rewardsDistributed r') r
    /\ (rewardsDistributed r = true -> rewardsDistributed r' = true)
    /\ emitted f' = emitted f).
  { intros ri. unfold distributeSUIRewards.
    destruct (map _ (winners_with_percentages ri lb)) as [|w ws].
    - now rewrite set_rewardsDistributed_same.
    - destruct (distributeRewardsToWinners env _ _); simpl; auto.
      now rewrite set_rewardsDistributed_same. }
  destruct (rewardInfo (quizData r)) as [ri|].
  - destruct (JsNumber.gtb (suiAmount ri) (JsNumber.of_Z 0)).
    + specialize (Hsui ri).
      destruct (distributeSUIRewards env ri lb r f) as [[r1 f1] res].
      destruct Hsui as (H1 & H2 & H3).
      destruct (award_badges env r1 0 lb f1) as [f2 bs] eqn:E.
      repeat split; auto.
      change f2 with (fst (f2, bs)). now rewrite <- E, award_badges_emitted.
    + destruct (award_badges env r 0 lb f) as [f2 bs] eqn:E.
      rewrite set_rewardsDistributed_same. repeat split; auto.
      change f2 with (fst (f2, bs)). now rewrite <- E, award_badges_emitted.
  - destruct (award_badges env r 0 lb f) as [f2 bs] eqn:E.
    rewrite set_rewardsDistributed_same. repeat split; auto.
    change f2 with (fst (f2, bs)). now rewrite <- E, award_badges_emitted.
Qed.

(** What [finishQuiz] leaves behind. *)
Lemma finishQuiz_spec env r f :
  let '(r', f') := finishQuiz env r f in
  gameState r' = finished
  /\ timerInterval r' = None
  /\ currentQuestion r' = currentQuestion r
  /\ timeRemaining r' = timeRemaining r
  /\ players r' = players r
  /\ hostAddress r' = hostAddress r
  /\ quizData r' = quizData r
  /\ roomCode r' = roomCode r
  /\ room_id r' = room_id r
  /\ leaderboard r' = leaderboard (calculateLeaderboard r')
  /\ (rewardsDistributed r = true -> rewardsDistributed r' = true)
  /\ exists results,
       emitted f'
       = emitted f
         ++ [ {| target := ToRoom (room_id r);
                 payload := QuizFinished (ranking r')
                              (List.length (questions (quizData r)))
                              (Z.of_nat (JsMap.size (players r)) - 1) |};
              {| target := ToRoom (room_id r);
                 payload := RewardsDistributed true results (roomCode r) |} ].
Proof.
  unfold finishQuiz.
  set (r1 := clearTimer _).
  set (f1 := emit _ _ f).
  pose proof (distributeRewardsAndBadges_room env (ranking r1) r1 f1) as H.
  destruct (distributeRewardsAndBadges env (ranking r1) r1 f1) as [[r2 f2] res].
  destruct H as (H1 & H2 & H3).
  rewrite H1. simpl. repeat split; auto.
  exists res. rewrite H3. unfold f1, emit. simpl.
  rewrite <- app_assoc. reflexivity.
Qed.

(** ** Answer submission *)


(** Outside the playing state a submission changes nothing and is not
    answered. *)
Lemma submit_answer_not_playing
    (s : Server) (sid : string) (questionIndex : nat) (answerIndex : Z)
    (conn : SocketPlayer) (room : QuizRoom) :
  JsMap.get sid (socketPlayers s) = Some conn ->
  JsMap.get (sp_roomId conn) (quizRooms s) = Some room ->
  gameState room <> playing ->
  on_submit_answer sid questionIndex answerIndex s = s.
Proof.
  intros Hc Hr Hg. unfold on_submit_answer. rewrite Hc, Hr.
  destruct (gameState room); simpl; auto. now elim Hg.
Qed.




(** ** Reward dispatch on a repeated finish *)

(** C2.  A one-question quiz with a reward pool is finished by the host's
    advance: the rewards are distributed, alice's badge is minted and the
    flag is set.  The host's next advance is not refused; it runs the
    finish transition again, and with it a second distribution and a
    second badge for alice, although [rewardsDistributed] is already
    true. *)
Theorem C2_second_finish_dispatches_again :
  let finished_once := Fixtures.one_question_finished in
  let finished_twice :=
    step Fixtures.env (NextQuestionCmd "sH") finished_once in
  option_map gameState (JsMap.get "XYZ789" (quizRooms finished_once))
    = Some finished
  /\ option_map rewardsDistributed (JsMap.get "XYZ789" (quizRooms finished_once))
    = Some true
  /\ distributions finished_once = 1%nat
  /\ mints finished_once = 1%nat
  /\ option_map rewardsDistributed (JsMap.get "XYZ789" (quizRooms finished_twice))
    = Some true
  /\ distributions finished_twice = 2%nat
  /\ mints finished_twice = 2%nat
  /\ option_map (@List.length UserBadge)
       (JsMap.get "0xa" (userBadges (fx finished_twice)))
     = Some 2%nat.
Proof. vm_compute. repeat split. Qed.

(** The flag itself is never cleared by a room transition. *)
Lemma rewardsDistributed_kept_by_finish env r f :
  rewardsDistributed r = true ->
  rewardsDistributed (fst (finishQuiz env r f)) = true.
Proof.
  intros H. pose proof (finishQuiz_spec env r f) as Hs.
  destruct (finishQuiz env r f) as [r' f']. simpl.
  now apply Hs.
Qed.

(** ** Start *)

Lemma find_room_has_code code s room :
  find_room code s = Some room -> roomCode room = code.
Proof.
  unfold find_room, JsMap.find_value. intros H.
  apply find_some in H as [_ H]. now apply String.eqb_eq in H.
Qed.

Lemma find_room_put_found code s room room' f :
  find_room code s = Some room -> roomCode room' = code ->
  find_room code (put_found_room code room' f s) = Some room'.
Proof.
  intros H Hc. unfold find_room, put_found_room. simpl.
  apply (JsMapFacts.find_replace_first _ room); auto.
  unfold has_code. rewrite Hc. apply String.eqb_refl.
Qed.

(** C3, as the code has it.  The REST start command succeeds exactly when
    a room has the code, the caller is its host and the quiz has at least
    one question; neither the players nor the game state are looked at.  A
    successful start puts the room in the playing state at question 0 with
    a full timer, so a start on a playing room restarts the quiz.  The
    socket start command changes a room only for the host. *)
Theorem C3_start_conditions (env : Env) (code host : string) (s : Server) :
  (snd (http_start env code host s) = Http 200 true "Quiz started successfully"
   <-> exists room, find_room code s = Some room
                    /\ hostAddress room = host
                    /\ questions (quizData room) <> [])
  /\ (forall room,
        find_room code s = Some room -> hostAddress room = host ->
        questions (quizData room) <> [] ->
        exists room',
          find_room code (fst (http_start env code host s)) = Some room'
          /\ gameState room' = playing
          /\ currentQuestion room' = 0%nat
          /\ timeRemaining room' = js_or (timePerQuestion (quizData room)) 30
          /\ timerInterval room' = Some io_server
          /\ players room' = players room)
  /\ (forall sid,
        quizRooms (on_start_quiz env sid s) <> quizRooms s ->
        exists conn room,
          JsMap.get sid (socketPlayers s) = Some conn
          /\ JsMap.get (sp_roomId conn) (quizRooms s) = Some room
          /\ hostAddress room = sp_address conn).
Proof.
  split; [|split].
  - unfold http_start. destruct (find_room code s) as [room|] eqn:Hf.
    + destruct (String.eqb (hostAddress room) host) eqn:Hh; simpl.
      * apply String.eqb_eq in Hh.
        destruct (questions (quizData room)) as [|q qs] eqn:Hq; simpl.
        -- split; [discriminate|]. intros (r & [= <-] & _ & Hne).
           now rewrite Hq in Hne.
        -- split; auto. intros _. exists room. rewrite Hq. repeat split; auto.
           discriminate.
      * apply String.eqb_neq in Hh. split; [discriminate|].
        intros (r & [= <-] & Hr & _). contradiction.
    + split; [discriminate|]. intros (r & Hr & _). discriminate.
  - intros room Hf Hh Hq. unfold http_start. rewrite Hf.
    apply String.eqb_eq in Hh. rewrite Hh. simpl.
    destruct (questions (quizData room)) as [|q qs] eqn:E; [contradiction|]. simpl.
    exists (startQuiz env io_server room). split.
    + apply (find_room_put_found code s room); auto.
      simpl. now apply (find_room_has_code code s).
    + simpl. auto.
  - intros sid. unfold on_start_quiz.
    destruct (JsMap.get sid (socketPlayers s)) as [conn|];
      [|intros H; elim H; reflexivity].
    destruct (JsMap.get (sp_roomId conn) (quizRooms s)) as [room|] eqn:Hr;
      [|intros H; elim H; reflexivity].
    destruct (String.eqb (hostAddress room) (sp_address conn)) eqn:Hh;
      [|intros H; elim H; reflexivity].
    apply String.eqb_eq in Hh. intros _. now exists conn, room.
Qed.

(** C3 as stated fails: a host alone in the room starts the quiz, and a
    start on a room that is playing at question 1 is accepted and takes the
    room back to question 0. *)
Lemma C3_counterexample :
  option_map (fun r => map address (JsMap.values (players r)))
    (find_room "ABC123" Fixtures.host_only) = Some ["0xhost"]
  /\ snd (http_start Fixtures.env "ABC123" "0xhost" Fixtures.host_only)
     = Http 200 true "Quiz started successfully"
  /\ option_map gameState
       (find_room "ABC123"
          (fst (http_start Fixtures.env "ABC123" "0xhost" Fixtures.host_only)))
     = Some playing
  /\ option_map (fun r => (gameState r, currentQuestion r))
       (find_room "ABC123" Fixtures.at_question_1) = Some (playing, 1%nat)
  /\ snd (http_start Fixtures.env "ABC123" "0xhost" Fixtures.at_question_1)
     = Http 200 true "Quiz started successfully"
  /\ option_map (fun r => (gameState r, currentQuestion r))
       (find_room "ABC123"
          (fst (http_start Fixtures.env "ABC123" "0xhost" Fixtures.at_question_1)))
     = Some (playing, 0%nat).
Proof. vm_compute. repeat split. Qed.

(** ** Join *)

(** C4, as the code has it.  A join is refused with "Room not found" when
    no room has the code, with "Game has already started" whenever the room
    is not waiting (full or not), and with "Room is full" when a waiting
    room holds [maxPlayers || 10] players or more; a refusal changes
    nothing else.  Otherwise the join succeeds, also for a connection or an
    address that is already in the room: the connection's entry is set to a
    fresh player with score 0, which replaces the entry of a connection
    already present and adds one otherwise, and no error is emitted. *)
Theorem C4_join_outcomes
    (env : Env) (sid code nick addr : string) (s : Server) :
  let s' := on_join_room env sid code nick addr s in
  let refused message :=
    s' = with_fx (emit (ToSocket sid) (ErrorMsg message) (fx s)) s in
  match find_room code s with
  | None => refused "Room not found"
  | Some room =>
      let limit := js_or (maxPlayers (quizData room)) 10 in
      let count := Z.of_nat (JsMap.size (players room)) in
      (gameState room <> waiting -> refused "Game has already started")
      /\ (gameState room = waiting -> limit <= count -> refused "Room is full")
      /\ (gameState room = waiting -> count < limit ->
          exists room',
            find_room code s' = Some room'
            /\ gameState room' = waiting
            /\ JsMap.get sid (players room')
               = Some {| p_id := sid; nickname := nick; address := addr;
                         score := 0; answers := []; joinedAt := now env;
                         isReady := false |}
            /\ (forall other, other <> sid ->
                  JsMap.get other (players room') = JsMap.get other (players room))
            /\ (forall old, JsMap.get sid (players room) = Some old ->
                  JsMap.size (players room') = JsMap.size (players room))
            /\ (JsMap.get sid (players room) = None ->
                  JsMap.size (players room') = S (JsMap.size (players room)))
            /\ filter is_error (emitted (fx s'))
               = filter is_error (emitted (fx s)))
  end.
Proof.
  cbv zeta. unfold on_join_room.
  destruct (find_room code s) as [room|] eqn:Hf; [|reflexivity].
  split; [|split].
  - intros Hg. destruct (gameState room); simpl; auto. now elim Hg.
  - intros -> Hfull. simpl. apply Z.leb_le in Hfull. now rewrite Hfull.
  - intros Hg Hroom. rewrite Hg. simpl.
    apply Z.leb_gt in Hroom. rewrite Hroom.
    exists (addPlayer env sid nick addr room). split; [|split; [|split; [|split; [|split; [|split]]]]].
    + unfold with_socketPlayers, find_room. simpl.
      apply (JsMapFacts.find_replace_first _ room); auto.
      unfold has_code. simpl. rewrite (find_room_has_code code s room Hf).
      apply String.eqb_refl.
    + exact Hg.
    + simpl. apply JsMapFacts.get_set_same.
    + intros other Hne. simpl. now apply JsMapFacts.get_set_other.
    + intros old Hold. simpl. now apply (JsMapFacts.size_set_present _ _ old).
    + intros Hnone. simpl. now apply JsMapFacts.size_set_absent.
    + simpl. rewrite <- !app_assoc. rewrite filter_app. simpl.
      now rewrite app_nil_r.
Qed.

(** C4 as stated fails.  Alice (socket s1, address 0xa) is in the waiting
    room; a second join from her socket is accepted, and so is a join from
    another socket with her address, after which two players carry it. *)
Lemma C4_counterexample :
  option_map address (player_of "ABC123" "s1" Fixtures.lobby) = Some "0xa"
  /\ (let again :=
        on_join_room Fixtures.env "s1" "ABC123" "alice" "0xa" Fixtures.lobby in
      filter is_error (emitted (fx again)) = []
      /\ In (PlayerJoined "s1" "alice" "0xa" 2%nat)
           (map payload (emitted (fx again))))
  /\ (let twice :=
        on_join_room Fixtures.env "s9" "ABC123" "alice2" "0xa" Fixtures.lobby in
      filter is_error (emitted (fx twice)) = []
      /\ option_map (fun r => map address (JsMap.values (players r)))
           (find_room "ABC123" twice) = Some ["0xhost"; "0xa"; "0xa"]).
Proof.
  vm_compute. repeat split. do 8 right. left. reflexivity.
Qed.

(** ** The broadcast leaderboards *)



Lemma get_in_values {V} k (v : V) m :
  JsMap.get k m = Some v -> In v (JsMap.values m).
Proof.
  unfold JsMap.values.
  induction m as [|[k1 v1] m IH]; simpl; [discriminate|].
  destruct (String.eqb k k1); [intros [= ->]|]; auto.
Qed.




(** ** Stop and host disconnect *)

(** What the stop route does to the room it finds, in any game state. *)
Lemma http_stop_found (code host : string) (s : Server) (room : QuizRoom) :
  find_room code s = Some room -> hostAddress room = host ->
  snd (http_stop code host s) = Http 200 true "Quiz stopped successfully"
  /\ exists room',
       find_room code (fst (http_stop code host s)) = Some room'
       /\ gameState room' = waiting
       /\ currentQuestion room' = 0%nat
       /\ timeRemaining room' = 0
       /\ timerInterval room' = None
       /\ players room' = players room.
Proof.
  intros Hf Hh. unfold http_stop. rewrite Hf.
  apply String.eqb_eq in Hh. rewrite Hh. simpl. split; auto.
  eexists. split.
  - apply (find_room_put_found code s room); auto.
    simpl. now apply (find_room_has_code code s).
  - simpl. auto.
Qed.

(** What a disconnect of a host connection does to its room. *)
Lemma on_disconnect_host (sid : string) (s : Server) (conn : SocketPlayer)
    (room : QuizRoom) :
  JsMap.get sid (socketPlayers s) = Some conn ->
  JsMap.get (sp_roomId conn) (quizRooms s) = Some room ->
  hostAddress room = sp_address conn ->
  exists room',
    JsMap.get (sp_roomId conn) (quizRooms (on_disconnect sid s)) = Some room'
    /\ gameState room' = waiting
    /\ currentQuestion room' = 0%nat
    /\ timeRemaining room' = 0
    /\ timerInterval room' = None
    /\ players room' = []
    /\ leaderboard room' = []
    /\ In {| target := ToRoom (room_id room);
             payload := HostDisconnected (roomCode room) waiting |}
         (emitted (fx (on_disconnect sid s))).
Proof.
  intros Hc Hr Hh. unfold on_disconnect. rewrite Hc, Hr. simpl.
  apply String.eqb_eq in Hh. rewrite Hh. simpl.
  rewrite JsMapFacts.get_set_same. eexists. split; [reflexivity|].
  simpl. repeat split; auto. rewrite in_app_iff. simpl. auto.
Qed.

(** C6.  The host's stop command puts a playing room back to waiting at
    question 0 with no time remaining and no timer, and leaves the player
    map as it is, so every player keeps score and answers. *)
Theorem C6_stop_keeps_players
    (code host : string) (s : Server) (room : QuizRoom) :
  find_room code s = Some room ->
  hostAddress room = host ->
  gameState room = playing ->
  snd (http_stop code host s) = Http 200 true "Quiz stopped successfully"
  /\ exists room',
       find_room code (fst (http_stop code host s)) = Some room'
       /\ gameState room' = waiting
       /\ currentQuestion room' = 0%nat
       /\ timeRemaining room' = 0
       /\ timerInterval room' = None
       /\ players room' = players room
       /\ (forall sid p,
             JsMap.get sid (players room) = Some p ->
             exists p',
               JsMap.get sid (players room') = Some p'
               /\ score p' = score p /\ answers p' = answers p).
Proof.
  intros Hf Hh _.
  destruct (http_stop_found code host s room Hf Hh)
    as (Hresp & room' & H1 & H2 & H3 & H4 & H5 & H6).
  split; auto. exists room'. repeat split; auto.
  intros sid p Hp. exists p. rewrite H6. auto.
Qed.

Lemma C6_stop_keeps_players_witness :
  let room := Fixtures.room_of "ABC123" Fixtures.at_question_1 in
  (find_room "ABC123" Fixtures.at_question_1 = Some room
   /\ hostAddress room = "0xhost"
   /\ gameState room = playing
   /\ currentQuestion room = 1%nat
   /\ score_of "ABC123" "s1" Fixtures.at_question_1 = Some 10)
  /\ snd (http_stop "ABC123" "0xhost" Fixtures.at_question_1)
     = Http 200 true "Quiz stopped successfully"
  /\ exists room',
       find_room "ABC123"
         (fst (http_stop "ABC123" "0xhost" Fixtures.at_question_1))
       = Some room'
       /\ gameState room' = waiting
       /\ currentQuestion room' = 0%nat
       /\ timeRemaining room' = 0
       /\ timerInterval room' = None
       /\ players room' = players room
       /\ (forall sid p,
             JsMap.get sid (players room) = Some p ->
             exists p',
               JsMap.get sid (players room') = Some p'
               /\ score p' = score p /\ answers p' = answers p).
Proof.
  cbv zeta. split; [vm_compute; repeat split|].
  apply (C6_stop_keeps_players "ABC123" "0xhost" Fixtures.at_question_1
           (Fixtures.room_of "ABC123" Fixtures.at_question_1));
    vm_compute; reflexivity.
Defined.

(** A disconnect touches no room but the one its connection is registered
    for. *)
Lemma on_disconnect_other (sid key : string) (s : Server) (conn : SocketPlayer) :
  JsMap.get sid (socketPlayers s) = Some conn ->
  key <> sp_roomId conn ->
  JsMap.get key (quizRooms (on_disconnect sid s)) = JsMap.get key (quizRooms s).
Proof.
  intros Hc Hne. unfold on_disconnect. rewrite Hc.
  destruct (JsMap.get (sp_roomId conn) (quizRooms s)) as [room|]; [|reflexivity].
  destruct (String.eqb _ _); simpl; now apply JsMapFacts.get_set_other.
Qed.

(** C7, as the code has it.  A disconnecting connection acts on the room
    it is registered for, which is the room of its latest join.  When that
    room's host address is the connection's address, the room is reset:
    waiting, question 0, no time remaining, no timer, no players (hence no
    scores or answers) and an empty leaderboard, and the room is told so.
    Every other room is left as it is, also a room whose host is behind
    the connection.  The stop command, by contrast, keeps the player
    map. *)
Theorem C7_host_disconnect_resets
    (sid : string) (s : Server) (conn : SocketPlayer) :
  JsMap.get sid (socketPlayers s) = Some conn ->
  (forall room,
      JsMap.get (sp_roomId conn) (quizRooms s) = Some room ->
      hostAddress room = sp_address conn ->
      exists room',
        JsMap.get (sp_roomId conn) (quizRooms (on_disconnect sid s)) = Some room'
        /\ gameState room' = waiting
        /\ currentQuestion room' = 0%nat
        /\ timeRemaining room' = 0
        /\ timerInterval room' = None
        /\ players room' = []
        /\ leaderboard room' = []
        /\ In {| target := ToRoom (room_id room);
                 payload := HostDisconnected (roomCode room) waiting |}
             (emitted (fx (on_disconnect sid s))))
  /\ (forall key,
        key <> sp_roomId conn ->
        JsMap.get key (quizRooms (on_disconnect sid s))
        = JsMap.get key (quizRooms s))
  /\ (forall code stopped,
        find_room code s = Some stopped ->
        exists stopped',
          find_room code (fst (http_stop code (hostAddress stopped) s))
          = Some stopped'
          /\ gameState stopped' = waiting
          /\ players stopped' = players stopped).
Proof.
  intros Hc. split; [|split].
  - intros room Hr Hh. now apply on_disconnect_host.
  - intros key Hne. now apply (on_disconnect_other sid key s conn).
  - intros code stopped Hf.
    destruct (http_stop_found code (hostAddress stopped) s stopped Hf eq_refl)
      as (_ & r' & H1 & H2 & _ & _ & _ & H6).
    now exists r'.
Qed.

Lemma C7_host_disconnect_resets_witness :
  let conn := {| sp_roomId := "ABC123"; sp_nickname := "host";
                 sp_address := "0xhost" |} in
  let room := Fixtures.room_of "ABC123" Fixtures.at_question_1 in
  (JsMap.get "sH" (socketPlayers Fixtures.at_question_1) = Some conn
   /\ JsMap.get "ABC123" (quizRooms Fixtures.at_question_1) = Some room
   /\ hostAddress room = "0xhost"
   /\ gameState room = playing
   /\ score_of "ABC123" "s1" Fixtures.at_question_1 = Some 10)
  /\ exists room',
       JsMap.get "ABC123" (quizRooms (on_disconnect "sH" Fixtures.at_question_1))
       = Some room'
       /\ gameState room' = waiting
       /\ currentQuestion room' = 0%nat
       /\ timeRemaining room' = 0
       /\ players room' = [].
Proof.
  cbv zeta. split; [vm_compute; repeat split|].
  assert (Hc : JsMap.get "sH" (socketPlayers Fixtures.at_question_1)
               = Some {| sp_roomId := "ABC123"; sp_nickname := "host";
                         sp_address := "0xhost" |})
    by (vm_compute; reflexivity).
  assert (Hr : JsMap.get "ABC123" (quizRooms Fixtures.at_question_1)
               = Some (Fixtures.room_of "ABC123" Fixtures.at_question_1))
    by (vm_compute; reflexivity).
  assert (Hh : hostAddress (Fixtures.room_of "ABC123" Fixtures.at_question_1)
               = "0xhost")
    by (vm_compute; reflexivity).
  pose proof (C7_host_disconnect_resets "sH" Fixtures.at_question_1 _ Hc) as H.
  destruct H as (H & _).
  destruct (H _ Hr Hh) as (room' & H1 & H2 & H3 & H4 & _ & H6 & _).
  exists room'. repeat split; assumption.
Defined.

(** C7 as stated fails.  Room ABC123 is playing at question 1 and alice
    has 10 points; its host's connection sH then joins the waiting room
    XYZ789 of another host, which registers it there, and disconnects.
    Room ABC123 is not reset: it is still playing at question 1 with its
    timer, the host's and alice's entries and alice's 10 points, and the
    room is told that a player has left room XYZ789, not that its host is
    gone. *)
Lemma C7_counterexample :
  let s :=
    run Fixtures.env
      [CreateRoom "uuid-9" "XYZ789"
         (Fixtures.quiz Fixtures.three_questions "top3" None 2)
         "0xother" false None;
       JoinRoom "sH" "XYZ789" "host" "0xhost"]
      Fixtures.at_question_1 in
  let s' := on_disconnect "sH" s in
  option_map hostAddress (JsMap.get "ABC123" (quizRooms s)) = Some "0xhost"
  /\ JsMap.get "sH" (socketPlayers s)
     = Some {| sp_roomId := "XYZ789"; sp_nickname := "host";
               sp_address := "0xhost" |}
  /\ option_map gameState (JsMap.get "ABC123" (quizRooms s')) = Some playing
  /\ option_map currentQuestion (JsMap.get "ABC123" (quizRooms s')) = Some 1%nat
  /\ option_map timerInterval (JsMap.get "ABC123" (quizRooms s'))
     = Some (Some io_server)
  /\ option_map (fun r => JsMap.keys (players r))
       (JsMap.get "ABC123" (quizRooms s'))
     = Some ["sH"; "s1"]
  /\ score_of "ABC123" "s1" s' = Some 10
  /\ skipn (List.length (emitted (fx s))) (emitted (fx s'))
     = [ {| target := ToRoom "uuid-9"; payload := PlayerLeft "sH" 0 |} ].
Proof. vm_compute. repeat split. Qed.

(** ** After the finish *)

Lemma put_room_same key room s :
  JsMap.get key (quizRooms s) = Some room -> put_room key room (fx s) s = s.
Proof.
  intros H. unfold put_room. rewrite (JsMapFacts.set_get_id _ _ _ H).
  now destruct s.
Qed.

Lemma timer_tick_not_playing env room f :
  gameState room <> playing -> timer_tick env room f = (room, f).
Proof.
  intros Hg. unfold timer_tick, timer_callback.
  destruct (timerInterval room); auto.
  destruct (gameState room); simpl; auto. now elim Hg.
Qed.

Lemma nextQuestion_index env r f :
  let '(r', _, fin) := nextQuestion env r f in
  currentQuestion r' = S (currentQuestion r)
  /\ quizData r' = quizData r
  /\ (fin = true -> gameState r' = finished).
Proof.
  unfold nextQuestion. simpl.
  destruct (_ <=? _)%nat.
  - set (r1 := set_timeRemaining _ _).
    pose proof (finishQuiz_spec env r1 f) as H.
    destruct (finishQuiz env r1 f) as [r' f'].
    destruct H as (Hg & _ & Hc & _ & _ & _ & Hq & _).
    rewrite Hc, Hq. simpl. repeat split; auto. lia.
  - simpl. repeat split; auto; [lia|discriminate].
Qed.

Lemma handleTimeUp_index env io r f :
  (currentQuestion r < List.length (questions (quizData r)))%nat ->
  let '(r', _) := handleTimeUp env io r f in
  (currentQuestion r' <= List.length (questions (quizData r)))%nat.
Proof.
  intros Hlt. unfold handleTimeUp. destruct (_ <? _).
  - pose proof (nextQuestion_index env r f) as H.
    destruct (nextQuestion env r f) as [[r1 f1] fin].
    destruct H as (Hc & _ & _). simpl. lia.
  - pose proof (finishQuiz_spec env r f) as H.
    destruct (finishQuiz env r f) as [r' f'].
    destruct H as (_ & _ & Hc & _). lia.
Qed.

Lemma timer_tick_index env r f :
  (currentQuestion r < List.length (questions (quizData r)))%nat ->
  let '(r', _) := timer_tick env r f in
  (currentQuestion r' <= List.length (questions (quizData r)))%nat.
Proof.
  intros Hlt. unfold timer_tick, timer_callback.
  destruct (timerInterval r) as [io|]; [|lia].
  destruct (_ && _); [|lia].
  destruct io; [|simpl; lia].
  destruct (_ =? 0); [|simpl; lia].
  apply (handleTimeUp_index env io_server (set_timeRemaining (timeRemaining r - 1) r)).
  exact Hlt.
Qed.

(** C5, as the code has it.  A room that is finished has no timer, and a
    timer event leaves the whole server as it is, so the timer never moves
    [currentQuestion] or [timeRemaining] of a finished room.  A finish
    keeps both values, and a room whose question index is below the number
    of questions is never taken beyond that number, by the timer or by the
    host's advance.  The stop command still resets both values of a
    finished room to 0. *)
Theorem C5_finished_room
    (env : Env) (key : string) (s : Server) (room : QuizRoom) :
  JsMap.get key (quizRooms s) = Some room ->
  let n := List.length (questions (quizData room)) in
  (gameState room = finished -> on_timer env key s = s)
  /\ (forall f, let '(r', _) := finishQuiz env room f in
                gameState r' = finished
                /\ timerInterval r' = None
                /\ currentQuestion r' = currentQuestion room
                /\ timeRemaining r' = timeRemaining room)
  /\ ((currentQuestion room < n)%nat ->
      forall f,
        (let '(r', _, fin) := nextQuestion env room f in
         (currentQuestion r' <= n)%nat
         /\ (fin = true -> gameState r' = finished))
        /\ (let '(r', _) := timer_tick env room f in
            (currentQuestion r' <= n)%nat))
  /\ (gameState room = finished ->
      forall code, find_room code s = Some room ->
        exists room',
          find_room code (fst (http_stop code (hostAddress room) s)) = Some room'
          /\ gameState room' = waiting
          /\ currentQuestion room' = 0%nat
          /\ timeRemaining room' = 0).
Proof.
  intros Hr n. split; [|split; [|split]].
  - intros Hg. unfold on_timer. rewrite Hr.
    rewrite timer_tick_not_playing by (rewrite Hg; discriminate).
    now apply put_room_same.
  - intros f. pose proof (finishQuiz_spec env room f) as H.
    destruct (finishQuiz env room f) as [r' f']. tauto.
  - intros Hlt f. split.
    + pose proof (nextQuestion_index env room f) as H.
      destruct (nextQuestion env room f) as [[r' f'] fin].
      destruct H as (Hc & _ & Hfin). split; auto. unfold n. lia.
    + now apply timer_tick_index.
  - intros _ code Hf.
    destruct (http_stop_found code (hostAddress room) s room Hf eq_refl)
      as (_ & r' & H1 & H2 & H3 & H4 & _).
    now exists r'.
Qed.

Lemma C5_finished_room_witness :
  let s := Fixtures.one_question_finished in
  let room := Fixtures.room_of "XYZ789" s in
  (JsMap.get "XYZ789" (quizRooms s) = Some room /\ gameState room = finished)
  /\ on_timer Fixtures.env "XYZ789" s = s.
Proof.
  cbv zeta.
  assert (Hr : JsMap.get "XYZ789" (quizRooms Fixtures.one_question_finished)
               = Some (Fixtures.room_of "XYZ789" Fixtures.one_question_finished))
    by (vm_compute; reflexivity).
  assert (Hg : gameState (Fixtures.room_of "XYZ789" Fixtures.one_question_finished)
               = finished)
    by (vm_compute; reflexivity).
  split; [split; assumption|].
  exact (proj1 (C5_finished_room Fixtures.env "XYZ789"
                  Fixtures.one_question_finished _ Hr) Hg).
Defined.

(** C5 as stated fails.  The one-question quiz is finished at question
    index 1 with 30 seconds on the clock.  The host's next advance is not
    answered with an error and moves the index to 2, beyond the single
    question; the host's stop takes index and clock to 0. *)
Lemma C5_counterexample :
  let s := Fixtures.one_question_finished in
  option_map (fun r => (gameState r, currentQuestion r, timeRemaining r,
                        List.length (questions (quizData r))))
    (JsMap.get "XYZ789" (quizRooms s)) = Some (finished, 1%nat, 30, 1%nat)
  /\ (let advanced := on_next_question Fixtures.env "sH" s in
      filter is_error (emitted (fx advanced)) = []
      /\ option_map (fun r => (gameState r, currentQuestion r))
           (JsMap.get "XYZ789" (quizRooms advanced)) = Some (finished, 2%nat))
  /\ option_map (fun r => (gameState r, currentQuestion r, timeRemaining r))
       (JsMap.get "XYZ789" (quizRooms (fst (http_stop "XYZ789" "0xhost" s))))
     = Some (waiting, 0%nat, 0).
Proof. vm_compute. repeat split. Qed.

(** ** Room creation *)

(** C8, as the code has it.  The percentage check lives in the creation
    form: with the manual rule and a total other than 100, a click on the
    create button ends in an alert, so neither the payment dialog nor the
    request to the server follows.  The server's creation route does not
    look at the percentages: a request with quiz data and a question list
    is answered with success and its room is cached under the new code, in
    the waiting state, with the distribution rule and the percentages it
    was sent; a request without quiz data or without a question list is
    answered with status 500 and leaves the server as it was. *)
Theorem C8_percentages_checked_by_form_only :
  (forall f : QuizForm,
      f_rewardDistribution f = "manual" ->
      total_percentage (f_manualPercentages f) <> 100 ->
      exists a, createQuiz f = Alert a)
  /\ (forall (env : Env) (uuid code : string) (body : CreateBody) (host : string)
             (paid : bool) (tx : option string) (s : Server),
        let answer := http_post_rooms env uuid code body host paid tx s in
        match body with
        | WithQuiz qd =>
            snd answer = Http 200 true "Quiz room created successfully"
            /\ exists room ri,
                 JsMap.get code (quizRooms (fst answer)) = Some room
                 /\ roomCode room = code
                 /\ hostAddress room = host
                 /\ gameState room = waiting
                 /\ players room = []
                 /\ rewardInfo (quizData room) = Some ri
                 /\ distribution ri = rewardDistribution qd
                 /\ ri_manualPercentages ri = manualPercentages qd
        | NoQuizData | NoQuestions =>
            (exists message, snd answer = Http 500 false message)
            /\ fst answer = s
        end).
Proof.
  split.
  - intros f Hm Ht. unfold createQuiz.
    destruct (_ || _); [eauto|].
    destruct (_ && _); [eauto|].
    rewrite Hm. simpl.
    apply Z.eqb_neq in Ht. rewrite Ht. simpl. eauto.
  - intros. cbv zeta. destruct body as [| |qd]; cbn [http_post_rooms fst snd].
    + split; [eexists; reflexivity|reflexivity].
    + split; [eexists; reflexivity|reflexivity].
    + split; [reflexivity|].
      unfold http_create_room. simpl.
      rewrite JsMapFacts.get_set_same. do 2 eexists. repeat split.
Qed.

(** C8 as stated fails: a creation request with the manual rule and the
    percentages 50 and 30 is answered with success, and its room is in the
    cache. *)
Lemma C8_counterexample :
  rewardDistribution Fixtures.manual_80 = "manual"
  /\ manualPercentages Fixtures.manual_80 = Some [50; 30]
  /\ total_percentage [50; 30] = 80
  /\ (let created :=
        http_create_room Fixtures.env "uuid-4" "MAN080" Fixtures.manual_80
          "0xhost" false None initial_server in
      snd created = Http 200 true "Quiz room created successfully"
      /\ option_map
           (fun r => option_map ri_manualPercentages (rewardInfo (quizData r)))
           (find_room "MAN080" (fst created))
         = Some (Some (Some [50; 30])))
  /\ createQuiz Fixtures.manual_80_form = Alert (PercentagesMustTotal100 80).
Proof. vm_compute. repeat split. Qed.

(** ** Badges *)

Lemma award_badge_totalPossible env r i p f :
  totalPossible (br_badge (snd (award_badge env r i p f)))
  = 10 * Z.of_nat (List.length (questions (quizData r))).
Proof.
  unfold award_badge, make_userBadge.
  destruct (badge_tier _ _) as [[bt rar] col].
  cbn [snd br_badge totalPossible]. lia.
Qed.

Lemma award_badges_totalPossible env r i lb f :
  List.length (snd (award_badges env r i lb f)) = List.length lb
  /\ Forall (fun b => totalPossible (br_badge b)
                      = 10 * Z.of_nat (List.length (questions (quizData r))))
       (snd (award_badges env r i lb f)).
Proof.
  revert i f. induction lb as [|p t IH]; intros i f; cbn [award_badges].
  - split; [reflexivity|constructor].
  - pose proof (award_badge_totalPossible env r i p f) as Hb.
    destruct (award_badge env r i p f) as [f1 b].
    destruct (IH (S i) f1) as [Hl Hf].
    destruct (award_badges env r (S i) t f1) as [f2 bs].
    cbn [snd List.length] in *. split; [now rewrite Hl|].
    constructor; assumption.
Qed.

Lemma achievable_maximum_app qs1 qs2 :
  achievable_maximum (qs1 ++ qs2)
  = achievable_maximum qs1 + achievable_maximum qs2.
Proof.
  unfold achievable_maximum. induction qs1 as [|q t IH]; simpl; auto. rewrite IH. lia.
Qed.

Lemma achievable_maximum_all_ten qs :
  Forall (fun q => awarded_points q = 10) qs ->
  achievable_maximum qs = 10 * Z.of_nat (List.length qs).
Proof.
  unfold achievable_maximum. induction 1 as [|q t Hq _ IH]; simpl List.length; simpl fold_right.
  - reflexivity.
  - rewrite IH, Hq. lia.
Qed.

(** C10, as the code has it.  Each player of the final leaderboard gets one
    badge, and its [totalPossible] is 10 times the number of questions,
    whatever the questions are worth.  The recorded maximum is therefore
    right exactly when the awarded points of the questions add up to 10
    per question, and it is wrong in particular when exactly one question
    awards something other than 10. *)
Theorem C10_totalPossible_ten_per_question
    (env : Env) (lb : list Player) (r : QuizRoom) (f : Fx) :
  let qs := questions (quizData r) in
  let results := snd (distributeRewardsAndBadges env lb r f) in
  List.length (badges results) = List.length lb
  /\ Forall (fun b => totalPossible (br_badge b) = 10 * Z.of_nat (List.length qs))
       (badges results)
  /\ Forall (fun b => totalPossible (br_badge b) = achievable_maximum qs
                      <-> achievable_maximum qs = 10 * Z.of_nat (List.length qs))
       (badges results)
  /\ (forall before q after,
        qs = before ++ q :: after ->
        Forall (fun q' => awarded_points q' = 10) (before ++ after) ->
        awarded_points q <> 10 ->
        Forall (fun b => totalPossible (br_badge b) <> achievable_maximum qs)
          (badges results)).
Proof.
  cbv zeta.
  assert (H : List.length (badges (snd (distributeRewardsAndBadges env lb r f)))
              = List.length lb
              /\ Forall (fun b => totalPossible (br_badge b)
                                  = 10 * Z.of_nat (List.length (questions (quizData r))))
                   (badges (snd (distributeRewardsAndBadges env lb r f)))).
  { unfold distributeRewardsAndBadges.
    pose proof (distributeRewardsAndBadges_room env lb r f) as Hroom.
    unfold distributeRewardsAndBadges in Hroom.
    destruct (match rewardInfo (quizData r) with
              | Some ri => _
              | None => _
              end) as [[r1 f1] sui].
    pose proof (award_badges_totalPossible env r1 0 lb f1) as Hb.
    destruct (award_badges env r1 0 lb f1) as [f2 bs].
    destruct Hroom as (Hr1 & _). simpl in *.
    rewrite Hr1 in Hb. simpl in Hb. exact Hb. }
  destruct H as [Hlen Hall]. split; [exact Hlen|]. split; [exact Hall|]. split.
  - eapply Forall_impl; [|exact Hall]. intros b Hb. cbv beta in *. rewrite Hb.
    split; intros E; now rewrite E.
  - intros before q after Hqs Hten Hq.
    eapply Forall_impl; [|exact Hall]. intros b Hb. cbv beta in *.
    rewrite Hb, Hqs.
    apply Forall_app in Hten as [H1 H2].
    rewrite achievable_maximum_app. simpl achievable_maximum at 1.
    change (achievable_maximum (q :: after))
      with (awarded_points q + achievable_maximum after).
    rewrite (achievable_maximum_all_ten _ H1), (achievable_maximum_all_ten _ H2).
    rewrite length_app. simpl List.length. lia.
Qed.

(** C10 as stated fails: with questions worth 5 and 15 points, both
    different from 10, alice's badge records 20 as the maximum, which is
    what the two questions are worth together. *)
Lemma C10_counterexample :
  map points (questions (quizData Fixtures.room_5_15)) = [5; 15]
  /\ map (fun b => totalPossible (br_badge b))
       (badges (snd (distributeRewardsAndBadges Fixtures.env [Fixtures.alice]
                       Fixtures.room_5_15 empty_fx)))
     = [20]
  /\ achievable_maximum (questions (quizData Fixtures.room_5_15)) = 20.
Proof. vm_compute. repeat split. Qed.

(* ================================================================== *)
(** * Further properties of the server                                  *)
(* ================================================================== *)

(** ** Invariants of the room cache *)

Lemma run_invariant (P : Server -> Prop) (env : Env) :
  (forall i s, P s -> P (step env i s)) ->
  forall inputs s, P s -> P (run env inputs s).
Proof.
  intros Hstep inputs. unfold run.
  induction inputs as [|i rest IH]; intros s Hs; simpl; auto.
Qed.

Lemma Forall_values_set {V} (P : V -> Prop) k v (m : JsMap.t V) :
  Forall P (JsMap.values m) -> P v -> Forall P (JsMap.values (JsMap.set k v m)).
Proof.
  unfold JsMap.values. intros Hm Hv.
  induction m as [|[k1 v1] m IH]; simpl in *.
  - now constructor.
  - inversion Hm; subst. destruct (String.eqb k k1); simpl; constructor; auto.
Qed.

Lemma Forall_values_replace_first {V} (P : V -> Prop) (p : V -> bool) v
    (m : JsMap.t V) :
  Forall P (JsMap.values m) -> P v ->
  Forall P (JsMap.values (JsMap.replace_first p v m)).
Proof.
  unfold JsMap.values. intros Hm Hv.
  induction m as [|[k1 v1] m IH]; simpl in *; auto.
  inversion Hm; subst. destruct (p v1); simpl; constructor; auto.
Qed.

Lemma Forall_values_delete {V} (P : V -> Prop) k (m : JsMap.t V) :
  Forall P (JsMap.values m) -> Forall P (JsMap.values (JsMap.delete k m)).
Proof.
  unfold JsMap.values. intros Hm.
  induction m as [|[k1 v1] m IH]; simpl in *; auto.
  inversion Hm; subst. destruct (String.eqb k k1); simpl; auto.
Qed.

Lemma find_room_in code s room :
  find_room code s = Some room -> In room (JsMap.values (quizRooms s)).
Proof.
  unfold find_room, JsMap.find_value. intros H. now apply find_some in H.
Qed.

Lemma size_delete_le {V} k (m : JsMap.t V) :
  (JsMap.size (JsMap.delete k m) <= JsMap.size m)%nat.
Proof.
  unfold JsMap.size. induction m as [|[k1 v1] m IH]; simpl; auto.
  destruct (String.eqb k k1); simpl; lia.
Qed.

Lemma same_room_refl r : same_room r r.
Proof. now repeat split. Qed.

Lemma same_room_trans r1 r2 r3 :
  same_room r1 r2 -> same_room r2 r3 -> same_room r1 r3.
Proof.
  unfold same_room. intros (A1 & A2 & A3 & A4) (B1 & B2 & B3 & B4).
  repeat split; congruence.
Qed.

Lemma finishQuiz_same env r f : same_room r (fst (finishQuiz env r f)).
Proof.
  pose proof (finishQuiz_spec env r f) as H.
  destruct (finishQuiz env r f) as [r' f']. simpl.
  unfold same_room. tauto.
Qed.

Lemma nextQuestion_same env r f :
  same_room r (fst (fst (nextQuestion env r f))).
Proof.
  unfold nextQuestion. destruct (_ <=? _)%nat.
  - set (r1 := set_timeRemaining _ _).
    pose proof (finishQuiz_same env r1 f) as H.
    destruct (finishQuiz env r1 f) as [r' f'].
    apply (same_room_trans _ r1); [now repeat split|exact H].
  - simpl. now repeat split.
Qed.

Lemma handleTimeUp_same env io r f :
  same_room r (fst (handleTimeUp env io r f)).
Proof.
  unfold handleTimeUp. destruct (_ <? _).
  - pose proof (nextQuestion_same env r f) as H.
    destruct (nextQuestion env r f) as [[r1 f1] b]. simpl in *.
    apply (same_room_trans _ r1); [exact H|now repeat split].
  - apply finishQuiz_same.
Qed.

Lemma timer_tick_same env r f : same_room r (fst (timer_tick env r f)).
Proof.
  unfold timer_tick, timer_callback.
  destruct (timerInterval r) as [io|]; [|apply same_room_refl].
  destruct (_ && _); [|apply same_room_refl].
  destruct io; [|simpl; now repeat split].
  destruct (_ =? 0); [|simpl; now repeat split].
  apply (same_room_trans _ (set_timeRemaining (timeRemaining r - 1) r)).
  - now repeat split.
  - apply handleTimeUp_same.
Qed.

Lemma submitAnswer_frame sid qi ai r :
  roomCode (fst (submitAnswer sid qi ai r)) = roomCode r
  /\ quizData (fst (submitAnswer sid qi ai r)) = quizData r
  /\ hostAddress (fst (submitAnswer sid qi ai r)) = hostAddress r
  /\ JsMap.size (players (fst (submitAnswer sid qi ai r))) = JsMap.size (players r).
Proof.
  unfold submitAnswer. destruct (JsMap.get sid (players r)) as [p|] eqn:Hp; simpl; auto.
  repeat split. now apply (JsMapFacts.size_set_present _ _ p).
Qed.

Lemma within_capacity_same r r' :
  same_room r r' -> within_capacity r -> within_capacity r'.
Proof.
  unfold same_room, within_capacity, capacity. intros (_ & Hq & _ & Hp).
  now rewrite Hq, Hp.
Qed.

Lemma within_capacity_shrunk r r' :
  quizData r' = quizData r ->
  (JsMap.size (players r') <= JsMap.size (players r))%nat ->
  within_capacity r -> within_capacity r'.
Proof.
  unfold within_capacity, capacity. intros Hq Hs H. rewrite Hq. lia.
Qed.

Lemma step_within_capacity env i s :
  rooms_within_capacity s -> rooms_within_capacity (step env i s).
Proof.
  unfold rooms_within_capacity. intros Hs.
  assert (Hin : forall r, In r (JsMap.values (quizRooms s)) -> within_capacity r)
    by (now apply Forall_forall).
  destruct i; simpl.
  - (* create *)
    apply Forall_values_set; auto.
    unfold within_capacity. simpl. lia.
  - (* start *)
    unfold http_start. destruct (find_room code s) as [room|] eqn:Hf; auto.
    destruct (negb _); auto. destruct (_ =? _)%nat; auto. simpl.
    apply Forall_values_replace_first; auto.
    apply (within_capacity_same room); [now repeat split|].
    apply Hin. now apply (find_room_in code).
  - (* stop *)
    unfold http_stop. destruct (find_room code s) as [room|] eqn:Hf; auto.
    destruct (negb _); auto. simpl.
    apply Forall_values_replace_first; auto.
    apply (within_capacity_same room); [now repeat split|].
    apply Hin. now apply (find_room_in code).
  - (* delete *)
    unfold http_delete. destruct (find_room code s) as [room|] eqn:Hf; auto.
    destruct (negb _); auto. simpl. now apply Forall_values_delete.
  - (* join *)
    unfold on_join_room. destruct (find_room code s) as [room|] eqn:Hf; auto.
    destruct (negb _); auto.
    destruct (_ <=? _) eqn:Hfull; auto. simpl.
    apply Forall_values_replace_first; auto.
    apply Z.leb_gt in Hfull.
    unfold within_capacity, capacity. simpl.
    destruct (JsMap.get sid (players room)) as [old|] eqn:Hold.
    + rewrite (JsMapFacts.size_set_present _ _ old _ Hold). lia.
    + rewrite (JsMapFacts.size_set_absent _ _ _ Hold). lia.
  - (* leave *)
    unfold on_leave_room. destruct (JsMap.get sid (socketPlayers s)) as [pl|]; auto.
    destruct (JsMap.get (sp_roomId pl) (quizRooms s)) as [room|] eqn:Hr; auto.
    simpl. apply Forall_values_set; auto.
    apply (within_capacity_shrunk room); auto.
    + apply size_delete_le.
    + apply Hin. now apply (get_in_values (sp_roomId pl)).
  - (* start-quiz *)
    unfold on_start_quiz. destruct (JsMap.get sid (socketPlayers s)) as [pl|]; auto.
    destruct (JsMap.get (sp_roomId pl) (quizRooms s)) as [room|] eqn:Hr; auto.
    destruct (String.eqb _ _); auto. simpl.
    apply Forall_values_set; auto.
    apply (within_capacity_same room); [now repeat split|].
    apply Hin. now apply (get_in_values (sp_roomId pl)).
  - (* submit-answer *)
    unfold on_submit_answer. destruct (JsMap.get sid (socketPlayers s)) as [pl|]; auto.
    destruct (JsMap.get (sp_roomId pl) (quizRooms s)) as [room|] eqn:Hr; auto.
    destruct (negb _); auto.
    pose proof (submitAnswer_frame sid questionIndex answerIndex room) as (_ & Hq & _ & Hsz).
    destruct (submitAnswer sid questionIndex answerIndex room) as [room1 ok].
    simpl in Hq, Hsz. destruct ok; auto.
    assert (Hw : within_capacity room1).
    { apply (within_capacity_shrunk room); auto; [lia|].
      apply Hin. now apply (get_in_values (sp_roomId pl)). }
    destruct (nth_error _ _); simpl; apply Forall_values_set; auto.
  - (* next-question *)
    unfold on_next_question. destruct (JsMap.get sid (socketPlayers s)) as [pl|]; auto.
    destruct (JsMap.get (sp_roomId pl) (quizRooms s)) as [room|] eqn:Hr; auto.
    destruct (String.eqb _ _); auto.
    pose proof (nextQuestion_same env room (fx s)) as Hsame.
    destruct (nextQuestion env room (fx s)) as [[room1 fx1] fin]. simpl in Hsame.
    assert (Hw : within_capacity room1).
    { apply (within_capacity_same room); auto.
      apply Hin. now apply (get_in_values (sp_roomId pl)). }
    destruct (fin || _); simpl; apply Forall_values_set; auto.
  - (* request-leaderboard *)
    unfold on_request_leaderboard.
    destruct (JsMap.get sid (socketPlayers s)) as [pl|]; auto.
    destruct (JsMap.get (sp_roomId pl) (quizRooms s)) as [room|]; auto.
  - (* disconnect *)
    unfold on_disconnect. destruct (JsMap.get sid (socketPlayers s)) as [pl|]; auto.
    destruct (JsMap.get (sp_roomId pl) (quizRooms s)) as [room|] eqn:Hr; auto.
    destruct (String.eqb _ _); simpl; apply Forall_values_set; auto.
    + unfold within_capacity. simpl. lia.
    + apply (within_capacity_shrunk room); auto.
      * apply size_delete_le.
      * apply Hin. now apply (get_in_values (sp_roomId pl)).
  - (* timer *)
    unfold on_timer. destruct (JsMap.get key (quizRooms s)) as [room|] eqn:Hr; auto.
    pose proof (timer_tick_same env room (fx s)) as Hsame.
    destruct (timer_tick env room (fx s)) as [room1 fx1]. simpl in *.
    apply Forall_values_set; auto.
    apply (within_capacity_same room); auto.
    apply Hin. now apply (get_in_values key).
  - (* timer of a detached room *)
    unfold on_detached_timer. destruct (nth_error (detached s) n) as [room|]; auto.
    now destruct (timer_tick env room (fx s)) as [room1 fx1].
Qed.

(** X1.  Whatever requests, socket events and timer events the server
    processes from its start, no room ever holds more players than its
    capacity [maxPlayers || 10] (no players at all when that number is
    negative). *)
Theorem X1_rooms_never_exceed_capacity (env : Env) (inputs : list Input) :
  rooms_within_capacity (run env inputs initial_server).
Proof.
  apply run_invariant.
  - intros i s. apply step_within_capacity.
  - constructor.
Qed.

Lemma in_keys_set {V} x k v (m : JsMap.t V) :
  In x (JsMap.keys (JsMap.set k v m)) <-> x = k \/ In x (JsMap.keys m).
Proof.
  unfold JsMap.keys. induction m as [|[k1 v1] m IH]; simpl.
  - intuition.
  - destruct (String.eqb k k1) eqn:E; simpl.
    + apply String.eqb_eq in E. subst. intuition.
    + rewrite IH. intuition.
Qed.

Lemma NoDup_keys_set {V} k v (m : JsMap.t V) :
  NoDup (JsMap.keys m) -> NoDup (JsMap.keys (JsMap.set k v m)).
Proof.
  induction m as [|[k1 v1] m IH]; simpl; intros H.
  - repeat constructor. intros [].
  - inversion H as [|? ? Hn Hd]; subst.
    destruct (String.eqb k k1) eqn:E; simpl.
    + apply String.eqb_eq in E. subst. now constructor.
    + apply String.eqb_neq in E. constructor; auto.
      change (~ In k1 (JsMap.keys (JsMap.set k v m))).
      rewrite in_keys_set. intros [Hk|Hk]; [now apply E|now apply Hn].
Qed.

Lemma keys_replace_first {V} (p : V -> bool) v (m : JsMap.t V) :
  JsMap.keys (JsMap.replace_first p v m) = JsMap.keys m.
Proof.
  unfold JsMap.keys. induction m as [|[k1 v1] m IH]; simpl; auto.
  destruct (p v1); simpl; congruence.
Qed.

Lemma in_keys_delete {V} x k (m : JsMap.t V) :
  In x (JsMap.keys (JsMap.delete k m)) -> In x (JsMap.keys m).
Proof.
  unfold JsMap.keys. induction m as [|[k1 v1] m IH]; simpl; auto.
  destruct (String.eqb k k1); simpl; intuition.
Qed.

Lemma NoDup_keys_delete {V} k (m : JsMap.t V) :
  NoDup (JsMap.keys m) -> NoDup (JsMap.keys (JsMap.delete k m)).
Proof.
  induction m as [|[k1 v1] m IH]; simpl; intros H; auto.
  inversion H as [|? ? Hn Hd]; subst.
  destruct (String.eqb k k1); simpl; auto.
  constructor; auto. intros Hin. apply Hn. now apply (in_keys_delete _ k).
Qed.

Lemma get_delete_same {V} k (m : JsMap.t V) :
  NoDup (JsMap.keys m) -> JsMap.get k (JsMap.delete k m) = None.
Proof.
  induction m as [|[k1 v1] m IH]; simpl; intros H; auto.
  inversion H as [|? ? Hn Hd]; subst.
  destruct (String.eqb k k1) eqn:E; simpl.
  - apply String.eqb_eq in E. subst.
    destruct (JsMap.get k1 m) eqn:G; auto.
    elim Hn. clear - G. unfold JsMap.keys.
    induction m as [|[k2 v2] m IH]; simpl in *; [discriminate|].
    destruct (String.eqb k1 k2) eqn:E; auto.
    apply String.eqb_eq in E. now left.
  - rewrite E. auto.
Qed.

Lemma get_delete_other {V} k k' (m : JsMap.t V) :
  k' <> k -> JsMap.get k' (JsMap.delete k m) = JsMap.get k' m.
Proof.
  intros Hne. induction m as [|[k1 v1] m IH]; simpl; auto.
  destruct (String.eqb k k1) eqn:E; simpl.
  - apply String.eqb_eq in E. subst.
    apply String.eqb_neq in Hne. now rewrite Hne.
  - now rewrite IH.
Qed.

Lemma get_keyed key room (m : JsMap.t QuizRoom) :
  Forall (fun kr => roomCode (snd kr) = fst kr) m ->
  JsMap.get key m = Some room -> roomCode room = key.
Proof.
  induction 1 as [|[k1 v1] m Hk _ IH]; simpl; [discriminate|].
  destruct (String.eqb key k1) eqn:E; auto.
  apply String.eqb_eq in E. intros [= <-]. now subst.
Qed.

Lemma well_keyed_find_get code s :
  well_keyed s -> find_room code s = JsMap.get code (quizRooms s).
Proof.
  intros [_ H]. unfold find_room, JsMap.find_value, JsMap.values, has_code.
  induction H as [|[k1 v1] m Hk _ IH]; simpl in *; auto.
  rewrite Hk, String.eqb_sym. destruct (String.eqb code k1); auto.
Qed.

Lemma Forall_set {V} (Q : string * V -> Prop) k v (m : JsMap.t V) :
  Forall Q m -> Q (k, v) -> Forall Q (JsMap.set k v m).
Proof.
  intros Hm Hv. induction Hm as [|[k1 v1] m Hk1 Hm IH]; simpl.
  - now constructor.
  - destruct (String.eqb k k1); constructor; auto.
Qed.

Lemma well_keyed_put_room key room room' f s :
  well_keyed s -> JsMap.get key (quizRooms s) = Some room ->
  roomCode room' = roomCode room -> well_keyed (put_room key room' f s).
Proof.
  intros [Hn Hk] Hg Hc. pose proof (get_keyed _ _ _ Hk Hg) as Hkey.
  split; simpl.
  - now apply NoDup_keys_set.
  - apply Forall_set; auto. simpl. congruence.
Qed.

Lemma well_keyed_put_found code room room' f s :
  well_keyed s -> find_room code s = Some room ->
  roomCode room' = roomCode room -> well_keyed (put_found_room code room' f s).
Proof.
  intros [Hn Hk] Hf Hc. pose proof (find_room_has_code _ _ _ Hf) as Hcode.
  split; simpl.
  - now rewrite keys_replace_first.
  - clear Hn Hf. induction Hk as [|[k1 v1] m Hk1 Hm IH]; simpl; auto.
    destruct (has_code code v1) eqn:E; constructor; auto.
    simpl in *. apply String.eqb_eq in E. congruence.
Qed.

Lemma well_keyed_ext s s' :
  quizRooms s' = quizRooms s -> well_keyed s -> well_keyed s'.
Proof. unfold well_keyed. now intros ->. Qed.

Lemma step_well_keyed env i s : well_keyed s -> well_keyed (step env i s).
Proof.
  intros Hs. destruct i; simpl.
  - (* create *)
    destruct Hs as [Hn Hk]. split; simpl.
    + now apply NoDup_keys_set.
    + now apply Forall_set.
  - (* start *)
    unfold http_start. destruct (find_room code s) as [room|] eqn:Hf; auto.
    destruct (negb _); auto. destruct (_ =? _)%nat; auto. simpl.
    now apply (well_keyed_put_found code room).
  - (* stop *)
    unfold http_stop. destruct (find_room code s) as [room|] eqn:Hf; auto.
    destruct (negb _); auto. simpl.
    now apply (well_keyed_put_found code room).
  - (* delete *)
    unfold http_delete. destruct (find_room code s) as [room|] eqn:Hf; auto.
    destruct (negb _); auto. simpl.
    destruct Hs as [Hn Hk]. split; simpl.
    + now apply NoDup_keys_delete.
    + clear Hn Hf. induction Hk as [|[k1 v1] m Hk1 Hm IH]; simpl; auto.
      destruct (String.eqb code k1); auto.
  - (* join *)
    unfold on_join_room. destruct (find_room code s) as [room|] eqn:Hf; auto.
    destruct (negb _); auto. destruct (_ <=? _); auto.
    apply (well_keyed_ext
             (put_found_room code (addPlayer env sid nick addr room) (fx s) s));
      [reflexivity|].
    now apply (well_keyed_put_found code room).
  - (* leave *)
    unfold on_leave_room. destruct (JsMap.get sid (socketPlayers s)) as [pl|]; auto.
    destruct (JsMap.get (sp_roomId pl) (quizRooms s)) as [room|] eqn:Hr; auto.
    apply (well_keyed_ext
             (put_room (sp_roomId pl) (removePlayer sid room) (fx s) s));
      [reflexivity|].
    now apply (well_keyed_put_room (sp_roomId pl) room).
  - (* start-quiz *)
    unfold on_start_quiz. destruct (JsMap.get sid (socketPlayers s)) as [pl|]; auto.
    destruct (JsMap.get (sp_roomId pl) (quizRooms s)) as [room|] eqn:Hr; auto.
    destruct (String.eqb _ _); auto.
    now apply (well_keyed_put_room (sp_roomId pl) room).
  - (* submit-answer *)
    unfold on_submit_answer. destruct (JsMap.get sid (socketPlayers s)) as [pl|]; auto.
    destruct (JsMap.get (sp_roomId pl) (quizRooms s)) as [room|] eqn:Hr; auto.
    destruct (negb _); auto.
    pose proof (submitAnswer_frame sid questionIndex answerIndex room) as (Hc & _).
    destruct (submitAnswer sid questionIndex answerIndex room) as [room1 ok].
    simpl in Hc. destruct ok; auto.
    destruct (nth_error _ _); now apply (well_keyed_put_room (sp_roomId pl) room).
  - (* next-question *)
    unfold on_next_question. destruct (JsMap.get sid (socketPlayers s)) as [pl|]; auto.
    destruct (JsMap.get (sp_roomId pl) (quizRooms s)) as [room|] eqn:Hr; auto.
    destruct (String.eqb _ _); auto.
    pose proof (nextQuestion_same env room (fx s)) as (Hc & _).
    destruct (nextQuestion env room (fx s)) as [[room1 fx1] fin]. simpl in Hc.
    destruct (fin || _); now apply (well_keyed_put_room (sp_roomId pl) room).
  - (* request-leaderboard *)
    unfold on_request_leaderboard.
    destruct (JsMap.get sid (socketPlayers s)) as [pl|]; auto.
    destruct (JsMap.get (sp_roomId pl) (quizRooms s)) as [room|]; auto.
  - (* disconnect *)
    unfold on_disconnect. destruct (JsMap.get sid (socketPlayers s)) as [pl|]; auto.
    destruct (JsMap.get (sp_roomId pl) (quizRooms s)) as [room|] eqn:Hr; auto.
    destruct (String.eqb _ _).
    + apply (well_keyed_ext
               (put_room (sp_roomId pl) (resetQuiz (removePlayer sid room)) (fx s) s));
        [reflexivity|].
      now apply (well_keyed_put_room (sp_roomId pl) room).
    + apply (well_keyed_ext
               (put_room (sp_roomId pl) (removePlayer sid room) (fx s) s));
        [reflexivity|].
      now apply (well_keyed_put_room (sp_roomId pl) room).
  - (* timer *)
    unfold on_timer. destruct (JsMap.get key (quizRooms s)) as [room|] eqn:Hr; auto.
    pose proof (timer_tick_same env room (fx s)) as (Hc & _).
    destruct (timer_tick env room (fx s)) as [room1 fx1]. simpl in Hc.
    now apply (well_keyed_put_room key room).
  - (* timer of a detached room *)
    unfold on_detached_timer. destruct (nth_error (detached s) n) as [room|]; auto.
    destruct (timer_tick env room (fx s)) as [room1 fx1].
    now apply (well_keyed_ext s).
Qed.

(** X2.  In every state the server reaches, each room is cached under its
    own room code and no code is cached twice; so the search by room code
    of the REST routes and of the join handler and the lookup by key of the
    other socket handlers always find the same room. *)
Theorem X2_rooms_cached_under_their_code (env : Env) (inputs : list Input) :
  well_keyed (run env inputs initial_server)
  /\ forall code,
       find_room code (run env inputs initial_server)
       = JsMap.get code (quizRooms (run env inputs initial_server)).
Proof.
  assert (H : well_keyed (run env inputs initial_server)).
  { apply run_invariant.
    - intros i s. apply step_well_keyed.
    - split; constructor. }
  split; [exact H|]. intros code. now apply well_keyed_find_get.
Qed.

Lemma reachable_well_keyed (env : Env) (inputs : list Input) :
  well_keyed (run env inputs initial_server).
Proof.
  apply run_invariant.
  - intros i s. apply step_well_keyed.
  - split; constructor.
Qed.

(** ** Closing a room *)

Lemma well_keyed_delete code s d f :
  well_keyed s ->
  well_keyed {| quizRooms := JsMap.delete code (quizRooms s);
                socketPlayers := socketPlayers s; detached := d; fx := f |}.
Proof.
  intros [Hn Hk]. split; simpl.
  - now apply NoDup_keys_delete.
  - clear Hn. induction Hk as [|[k1 v1] m Hk1 Hm IH]; simpl; auto.
    destruct (String.eqb code k1); auto.
Qed.

(** X3.  When the host closes a room, the room is told so and leaves the
    cache: its code is no longer found, every other room stays as it is,
    and the connections registered for it are kept but an answer they
    submit afterwards changes nothing. *)
Theorem X3_delete_removes_room
    (code host : string) (s : Server) (room : QuizRoom) :
  well_keyed s ->
  find_room code s = Some room ->
  hostAddress room = host ->
  let s' := fst (http_delete code host s) in
  snd (http_delete code host s) = Http 200 true "Room closed successfully"
  /\ find_room code s' = None
  /\ (forall other, other <> code -> find_room other s' = find_room other s)
  /\ emitted (fx s')
     = emitted (fx s)
       ++ [ {| target := ToRoom (room_id room); payload := RoomClosed code |} ]
  /\ socketPlayers s' = socketPlayers s
  /\ (forall sid conn questionIndex answerIndex,
        JsMap.get sid (socketPlayers s') = Some conn ->
        sp_roomId conn = code ->
        on_submit_answer sid questionIndex answerIndex s' = s').
Proof.
  intros Hw Hf Hh. cbv zeta. unfold http_delete. rewrite Hf.
  apply String.eqb_eq in Hh. rewrite Hh. simpl.
  set (s' := {| quizRooms := JsMap.delete code (quizRooms s);
                socketPlayers := socketPlayers s;
                detached := detach code s;
                fx := emit (ToRoom (room_id room)) (RoomClosed (roomCode room)) (fx s) |}).
  assert (Hw' : well_keyed s') by (now apply well_keyed_delete).
  assert (Hnone : JsMap.get code (quizRooms s') = None).
  { simpl. apply get_delete_same. apply Hw. }
  split; [reflexivity|]. split; [|split; [|split; [|split]]].
  - now rewrite (well_keyed_find_get code s' Hw').
  - intros other Hne.
    rewrite (well_keyed_find_get other s' Hw'), (well_keyed_find_get other s Hw).
    simpl. now apply get_delete_other.
  - simpl. now rewrite (find_room_has_code code s room Hf).
  - reflexivity.
  - intros sid conn qi ai Hc Hcode. unfold on_submit_answer.
    subst s'. simpl in *. rewrite Hc, Hcode, Hnone. reflexivity.
Qed.

Lemma X3_delete_removes_room_witness :
  let room := Fixtures.room_of "ABC123" Fixtures.lobby in
  (well_keyed Fixtures.lobby
   /\ find_room "ABC123" Fixtures.lobby = Some room
   /\ hostAddress room = "0xhost")
  /\ find_room "ABC123" (fst (http_delete "ABC123" "0xhost" Fixtures.lobby)) = None.
Proof.
  cbv zeta.
  assert (Hw : well_keyed Fixtures.lobby) by apply reachable_well_keyed.
  assert (Hf : find_room "ABC123" Fixtures.lobby
               = Some (Fixtures.room_of "ABC123" Fixtures.lobby))
    by (vm_compute; reflexivity).
  assert (Hh : hostAddress (Fixtures.room_of "ABC123" Fixtures.lobby) = "0xhost")
    by (vm_compute; reflexivity).
  split; [split; [exact Hw|split; [exact Hf|exact Hh]]|].
  exact (proj1 (proj2 (X3_delete_removes_room "ABC123" "0xhost" Fixtures.lobby
                         _ Hw Hf Hh))).
Defined.

(** X4.  Only the host commands a room.  A start, stop or close request
    for an unknown code is answered 404 and one by a caller who is not the
    room's host 403, and a start or advance sent over the socket by a
    connection whose address is not the host's gets an error message; in
    all these cases no room, no registration and no ledger or badge data
    changes. *)
Theorem X4_commands_are_host_only (env : Env) (s : Server) :
  (forall code caller,
      find_room code s = None ->
      http_start env code caller s = (s, Http 404 false "Room not found")
      /\ http_stop code caller s = (s, Http 404 false "Room not found")
      /\ http_delete code caller s = (s, Http 404 false "Room not found"))
  /\ (forall code caller room,
        find_room code s = Some room -> hostAddress room <> caller ->
        http_start env code caller s
        = (s, Http 403 false "Only the host can start the quiz")
        /\ http_stop code caller s
           = (s, Http 403 false "Only the host can stop the quiz")
        /\ http_delete code caller s
           = (s, Http 403 false "Only the host can close the room"))
  /\ (forall sid conn room,
        JsMap.get sid (socketPlayers s) = Some conn ->
        JsMap.get (sp_roomId conn) (quizRooms s) = Some room ->
        hostAddress room <> sp_address conn ->
        on_start_quiz env sid s
        = with_fx (emit (ToSocket sid)
                     (ErrorMsg "Only host can start the quiz") (fx s)) s
        /\ on_next_question env sid s
           = with_fx (emit (ToSocket sid)
                        (ErrorMsg "Only host can control the quiz") (fx s)) s).
Proof.
  split; [|split].
  - intros code caller Hf. unfold http_start, http_stop, http_delete.
    now rewrite Hf.
  - intros code caller room Hf Hh. apply String.eqb_neq in Hh.
    unfold http_start, http_stop, http_delete. now rewrite Hf, Hh.
  - intros sid conn room Hc Hr Hh. apply String.eqb_neq in Hh.
    unfold on_start_quiz, on_next_question. now rewrite Hc, Hr, Hh.
Qed.

(** *** The timer of a closed room

    Closing a room does not clear its interval: the room object stays
    among the detached rooms, and its timer runs on. *)

Lemma http_delete_detaches (code host : string) (s : Server) (room : QuizRoom) :
  well_keyed s ->
  find_room code s = Some room ->
  hostAddress room = host ->
  detached (fst (http_delete code host s)) = detached s ++ [room].
Proof.
  intros Hw Hf Hh. unfold http_delete. rewrite Hf.
  apply String.eqb_eq in Hh. rewrite Hh. cbn [negb fst detached].
  unfold detach. rewrite <- (well_keyed_find_get code s Hw), Hf. reflexivity.
Qed.

Lemma on_detached_timer_ticks (env : Env) (n : nat) (s : Server) (room : QuizRoom) :
  nth_error (detached s) n = Some room ->
  quizRooms (on_detached_timer env n s) = quizRooms s
  /\ nth_error (detached (on_detached_timer env n s)) n
     = Some (fst (timer_tick env room (fx s)))
  /\ fx (on_detached_timer env n s) = snd (timer_tick env room (fx s)).
Proof.
  intros Hn. unfold on_detached_timer. rewrite Hn.
  destruct (timer_tick env room (fx s)) as [room1 fx1]. cbn [quizRooms detached fx fst snd].
  split; [reflexivity|]. split; [|reflexivity].
  revert n Hn. induction (detached s) as [|h t IH]; intros [|n] Hn;
    try discriminate; simpl; auto.
Qed.

(** The one-question quiz of room XYZ789 is running with 30 seconds on the
    clock when its host closes the room.  The room has left the cache, but
    30 ticks of its timer later it has finished: the quiz-finished and
    rewards-distributed broadcasts have gone out, the ledger has been
    asked to pay alice and to mint her badge, and the badge is stored. *)
Lemma closed_room_finishes :
  let closed :=
    step Fixtures.env (HttpDelete "XYZ789" "0xhost") Fixtures.one_question_started in
  let s := run Fixtures.env (repeat (DetachedTimerFires 0) 30) closed in
  find_room "XYZ789" closed = None
  /\ map gameState (detached closed) = [playing]
  /\ map gameState (detached s) = [finished]
  /\ filter (fun e => match payload e with
                      | QuizFinished _ _ _ | RewardsDistributed _ _ _ => true
                      | _ => false
                      end) (emitted (fx closed)) = []
  /\ map target
       (filter (fun e => match payload e with
                         | QuizFinished _ _ _ | RewardsDistributed _ _ _ => true
                         | _ => false
                         end) (emitted (fx s)))
     = [ToRoom "uuid-2"; ToRoom "uuid-2"]
  /\ List.length (filter is_distribution (ledgerLog (fx s))) = 1%nat
  /\ List.length (filter is_mint (ledgerLog (fx s))) = 1%nat
  /\ List.length (badges_of "0xa" (fx s)) = 1%nat.
Proof. vm_compute. repeat split. Qed.

(** ** Leaving a room *)

(** X5.  A connection that leaves a room is taken out of its player map
    and the room is told the new player count; the room's game state,
    question, clock and timer and all other players with their scores and
    answers stay as they are, also when the leaving connection is the
    host's. *)
Theorem X5_leave_keeps_the_room
    (sid : string) (s : Server) (conn : SocketPlayer) (room : QuizRoom) :
  JsMap.get sid (socketPlayers s) = Some conn ->
  JsMap.get (sp_roomId conn) (quizRooms s) = Some room ->
  NoDup (JsMap.keys (players room)) ->
  exists room',
    JsMap.get (sp_roomId conn) (quizRooms (on_leave_room sid s)) = Some room'
    /\ gameState room' = gameState room
    /\ currentQuestion room' = currentQuestion room
    /\ timeRemaining room' = timeRemaining room
    /\ timerInterval room' = timerInterval room
    /\ JsMap.get sid (players room') = None
    /\ (forall other, other <> sid ->
          JsMap.get other (players room') = JsMap.get other (players room))
    /\ emitted (fx (on_leave_room sid s))
       = emitted (fx s)
         ++ [ {| target := ToRoom (room_id room);
                 payload := PlayerLeft sid (JsMap.size (players room')) |} ].
Proof.
  intros Hc Hr Hn. unfold on_leave_room. rewrite Hc, Hr. simpl.
  rewrite JsMapFacts.get_set_same. eexists. split; [reflexivity|]. simpl.
  repeat split; auto.
  - now apply get_delete_same.
  - intros other Hne. now apply get_delete_other.
Qed.

Lemma X5_leave_keeps_the_room_witness :
  let conn := {| sp_roomId := "ABC123"; sp_nickname := "host";
                 sp_address := "0xhost" |} in
  let room := Fixtures.room_of "ABC123" Fixtures.at_question_1 in
  (JsMap.get "sH" (socketPlayers Fixtures.at_question_1) = Some conn
   /\ JsMap.get "ABC123" (quizRooms Fixtures.at_question_1) = Some room
   /\ NoDup (JsMap.keys (players room))
   /\ hostAddress room = "0xhost")
  /\ exists room',
       JsMap.get "ABC123" (quizRooms (on_leave_room "sH" Fixtures.at_question_1))
       = Some room'
       /\ gameState room' = gameState room
       /\ currentQuestion room' = currentQuestion room.
Proof.
  cbv zeta.
  assert (Hc : JsMap.get "sH" (socketPlayers Fixtures.at_question_1)
               = Some {| sp_roomId := "ABC123"; sp_nickname := "host";
                         sp_address := "0xhost" |})
    by (vm_compute; reflexivity).
  assert (Hr : JsMap.get "ABC123" (quizRooms Fixtures.at_question_1)
               = Some (Fixtures.room_of "ABC123" Fixtures.at_question_1))
    by (vm_compute; reflexivity).
  assert (Hn : NoDup (JsMap.keys
                        (players (Fixtures.room_of "ABC123" Fixtures.at_question_1)))).
  { vm_compute. repeat constructor; simpl; intuition discriminate. }
  split; [split; [exact Hc|split; [exact Hr|split; [exact Hn|vm_compute; reflexivity]]]|].
  destruct (X5_leave_keeps_the_room "sH" Fixtures.at_question_1 _ _ Hc Hr Hn)
    as (room' & H1 & H2 & H3 & _).
  exists room'. repeat split; assumption.
Defined.

(** ** The countdown *)

Lemma timer_tick_counts env r f :
  gameState r = playing -> timerInterval r = Some io_server ->
  1 < timeRemaining r ->
  timer_tick env r f
  = (set_timeRemaining (timeRemaining r - 1) r,
     emit (ToRoom (room_id r))
       (TimerUpdate (timeRemaining r - 1) (currentQuestion r)) f).
Proof.
  intros Hg Ht Hr. unfold timer_tick, timer_callback. rewrite Ht, Hg. simpl.
  destruct (0 <? timeRemaining r) eqn:E; [|apply Z.ltb_ge in E; lia].
  destruct (timeRemaining r - 1 =? 0) eqn:E0; [apply Z.eqb_eq in E0; lia|].
  reflexivity.
Qed.

Lemma ticks_countdown env j : forall r f,
  gameState r = playing -> timerInterval r = Some io_server ->
  Z.of_nat j < timeRemaining r ->
  let '(r', f') := ticks env j r f in
  gameState r' = playing
  /\ timerInterval r' = Some io_server
  /\ currentQuestion r' = currentQuestion r
  /\ timeRemaining r' = timeRemaining r - Z.of_nat j
  /\ same_room r r'
  /\ room_id r' = room_id r
  /\ List.length (emitted f') = (List.length (emitted f) + j)%nat.
Proof.
  induction j as [|j IH]; intros r f Hg Ht Hr.
  - simpl. repeat split; auto. lia.
  - cbn [ticks]. rewrite timer_tick_counts by (auto; lia).
    set (r1 := set_timeRemaining _ r). set (f1 := emit _ _ f).
    specialize (IH r1 f1 Hg Ht). simpl in IH.
    assert (Hlt : Z.of_nat j < timeRemaining r - 1) by lia.
    specialize (IH Hlt).
    destruct (ticks env j r1 f1) as [r' f'].
    destruct IH as (H1 & H2 & H3 & H4 & H5 & H6 & H7).
    repeat split; auto; try (apply H5).
    + lia.
    + rewrite H7. unfold f1, emit. simpl. rewrite length_app. simpl. lia.
Qed.

Lemma ticks_S env k : forall r f,
  ticks env (S k) r f
  = let '(r1, f1) := ticks env k r f in timer_tick env r1 f1.
Proof.
  induction k as [|k IH]; intros r f.
  - simpl. now destruct (timer_tick env r f).
  - cbn [ticks]. destruct (timer_tick env r f) as [r1 f1].
    rewrite <- IH. reflexivity.
Qed.

(** The tick that takes the clock to 0. *)
Lemma timer_tick_expires env r f :
  gameState r = playing -> timerInterval r = Some io_server ->
  timeRemaining r = 1 ->
  let '(r', _) := timer_tick env r f in
  if (S (currentQuestion r) <? List.length (questions (quizData r)))%nat then
    gameState r' = playing
    /\ currentQuestion r' = S (currentQuestion r)
    /\ timeRemaining r' = js_or (timePerQuestion (quizData r)) 30
    /\ timerInterval r' = Some io_server
    /\ players r' = players r
  else
    gameState r' = finished
    /\ currentQuestion r' = currentQuestion r
    /\ timeRemaining r' = 0
    /\ timerInterval r' = None
    /\ players r' = players r.
Proof.
  intros Hg Ht Hr. unfold timer_tick, timer_callback. rewrite Ht, Hg, Hr. simpl.
  unfold handleTimeUp. simpl.
  destruct (S (currentQuestion r) <? List.length (questions (quizData r)))%nat eqn:E.
  - apply Nat.ltb_lt in E.
    destruct (Z.of_nat (currentQuestion r)
              <? Z.of_nat (List.length (questions (quizData r))) - 1) eqn:Ez;
      [|apply Z.ltb_ge in Ez; lia].
    unfold nextQuestion. simpl.
    destruct (List.length (questions (quizData r)) <=? currentQuestion r + 1)%nat eqn:El;
      [apply Nat.leb_le in El; lia|].
    simpl. repeat split; auto. lia.
  - apply Nat.ltb_ge in E.
    destruct (Z.of_nat (currentQuestion r)
              <? Z.of_nat (List.length (questions (quizData r))) - 1) eqn:Ez;
      [apply Z.ltb_lt in Ez; lia|].
    set (r1 := set_timeRemaining 0 r).
    pose proof (finishQuiz_spec env r1
                  (emit (ToRoom (room_id r1))
                     (TimerUpdate (timeRemaining r1) (currentQuestion r1)) f)) as H.
    destruct (finishQuiz env r1 _) as [r' f'].
    destruct H as (H1 & H2 & H3 & H4 & H5 & _). auto.
Qed.

(** X6.  A question lasts exactly the seconds on its clock.  In a playing
    room whose timer shows k+1 seconds, the first k ticks only count down,
    each with one timer update, and change neither the question nor the
    game state; tick k+1 moves the room to the next question with a full
    clock ([timePerQuestion || 30]) when there is one, and finishes the
    quiz and cancels the timer when the question was the last. *)
Theorem X6_question_lasts_its_seconds
    (env : Env) (r : QuizRoom) (f : Fx) (k : nat) :
  gameState r = playing ->
  timerInterval r = Some io_server ->
  timeRemaining r = Z.of_nat (S k) ->
  (forall j, (j <= k)%nat ->
     let '(r', f') := ticks env j r f in
     gameState r' = playing
     /\ currentQuestion r' = currentQuestion r
     /\ timeRemaining r' = Z.of_nat (S k) - Z.of_nat j
     /\ List.length (emitted f') = (List.length (emitted f) + j)%nat)
  /\ (let '(r', _) := ticks env (S k) r f in
      if (S (currentQuestion r) <? List.length (questions (quizData r)))%nat then
        gameState r' = playing
        /\ currentQuestion r' = S (currentQuestion r)
        /\ timeRemaining r' = js_or (timePerQuestion (quizData r)) 30
        /\ timerInterval r' = Some io_server
        /\ players r' = players r
      else
        gameState r' = finished
        /\ currentQuestion r' = currentQuestion r
        /\ timeRemaining r' = 0
        /\ timerInterval r' = None
        /\ players r' = players r).
Proof.
  intros Hg Ht Hr. split.
  - intros j Hj.
    pose proof (ticks_countdown env j r f Hg Ht) as H.
    assert (Hlt : Z.of_nat j < timeRemaining r) by lia.
    specialize (H Hlt). destruct (ticks env j r f) as [r' f'].
    destruct H as (H1 & _ & H3 & H4 & _ & _ & H7). rewrite <- Hr. auto.
  - rewrite ticks_S.
    pose proof (ticks_countdown env k r f Hg Ht) as H.
    assert (Hlt : Z.of_nat k < timeRemaining r) by lia.
    specialize (H Hlt). destruct (ticks env k r f) as [r1 f1].
    destruct H as (H1 & H2 & H3 & H4 & (_ & Hq & _ & Hp) & _).
    assert (H41 : timeRemaining r1 = 1) by lia.
    pose proof (timer_tick_expires env r1 f1 H1 H2 H41) as He.
    destruct (timer_tick env r1 f1) as [r' f'].
    rewrite H3, Hq, Hp in He. exact He.
Qed.

Lemma X6_question_lasts_its_seconds_witness :
  (gameState (Fixtures.room_of "ABC123" Fixtures.started) = playing
   /\ timerInterval (Fixtures.room_of "ABC123" Fixtures.started) = Some io_server
   /\ timeRemaining (Fixtures.room_of "ABC123" Fixtures.started) = Z.of_nat 30)
  /\ (let '(r', _) :=
        ticks Fixtures.env 30 (Fixtures.room_of "ABC123" Fixtures.started)
          empty_fx in
      if (S (currentQuestion (Fixtures.room_of "ABC123" Fixtures.started))
          <? List.length
               (questions (quizData (Fixtures.room_of "ABC123" Fixtures.started))))%nat
      then
        gameState r' = playing
        /\ currentQuestion r'
           = S (currentQuestion (Fixtures.room_of "ABC123" Fixtures.started))
        /\ timeRemaining r'
           = js_or (timePerQuestion
                      (quizData (Fixtures.room_of "ABC123" Fixtures.started))) 30
        /\ timerInterval r' = Some io_server
        /\ players r' = players (Fixtures.room_of "ABC123" Fixtures.started)
      else
        gameState r' = finished
        /\ currentQuestion r'
           = currentQuestion (Fixtures.room_of "ABC123" Fixtures.started)
        /\ timeRemaining r' = 0
        /\ timerInterval r' = None
        /\ players r' = players (Fixtures.room_of "ABC123" Fixtures.started)).
Proof.
  assert (Hg : gameState (Fixtures.room_of "ABC123" Fixtures.started) = playing)
    by (vm_compute; reflexivity).
  assert (Ht : timerInterval (Fixtures.room_of "ABC123" Fixtures.started)
               = Some io_server) by (vm_compute; reflexivity).
  assert (Hr : timeRemaining (Fixtures.room_of "ABC123" Fixtures.started)
               = Z.of_nat 30) by (vm_compute; reflexivity).
  split; [split; [exact Hg|split; [exact Ht|exact Hr]]|].
  pose proof (X6_question_lasts_its_seconds Fixtures.env
                (Fixtures.room_of "ABC123" Fixtures.started) empty_fx 29
                Hg Ht Hr) as H.
  destruct H as [_ H]. exact H.
Defined.

(** ** The reward split *)

Lemma map_fst_combine {A B} (l1 : list A) (l2 : list B) :
  map fst (combine l1 l2) = firstn (List.length l2) l1.
Proof.
  revert l2. induction l1 as [|a t IH]; intros [|b u]; simpl; auto.
  now rewrite IH.
Qed.

Lemma map_snd_combine {A B} (l1 : list A) (l2 : list B) :
  map snd (combine l1 l2) = firstn (List.length l1) l2.
Proof.
  revert l2. induction l1 as [|a t IH]; intros [|b u]; simpl; auto.
  now rewrite IH.
Qed.

Lemma firstn_min_length {A} n (l : list A) :
  firstn (Nat.min (List.length l) n) l = firstn n l.
Proof.
  destruct (Nat.le_ge_cases (List.length l) n) as [H|H].
  - rewrite Nat.min_l by exact H. rewrite firstn_all. symmetry. now apply firstn_all2.
  - now rewrite Nat.min_r by exact H.
Qed.

(** *** Exact arithmetic on JavaScript numbers

    Products and quotients of non-negative integers are computed without
    rounding as long as the integers involved stay below [2 ^ 53]. *)

Lemma digits2_bounds (p : positive) :
  2 ^ (Zpos (digits2_pos p) - 1) <= Zpos p < 2 ^ Zpos (digits2_pos p).
Proof.
  induction p as [p IH | p IH |]; cbn [digits2_pos].
  - rewrite Pos2Z.inj_succ.
    replace (Z.succ (Zpos (digits2_pos p)) - 1) with (Z.succ (Zpos (digits2_pos p) - 1)) by lia.
    rewrite !Z.pow_succ_r by lia. lia.
  - rewrite Pos2Z.inj_succ.
    replace (Z.succ (Zpos (digits2_pos p)) - 1) with (Z.succ (Zpos (digits2_pos p) - 1)) by lia.
    rewrite !Z.pow_succ_r by lia. lia.
  - simpl. lia.
Qed.

Lemma digits2_unique (p : positive) (d : Z) :
  2 ^ (d - 1) <= Zpos p < 2 ^ d -> Zpos (digits2_pos p) = d.
Proof.
  intros [H1 H2]. pose proof (digits2_bounds p) as [B1 B2].
  assert (0 < d).
  { destruct (Z_lt_le_dec 0 d) as [|Hd]; [assumption|].
    assert (2 ^ d <= 2 ^ 0) by (destruct (Z_lt_le_dec d 0);
      [rewrite Z.pow_neg_r by assumption; simpl; lia | apply Z.pow_le_mono_r; lia]).
    simpl in *. lia. }
  destruct (Z_lt_le_dec (Zpos (digits2_pos p)) d) as [Hlt|Hge].
  - assert (2 ^ Zpos (digits2_pos p) <= 2 ^ (d - 1)) by (apply Z.pow_le_mono_r; lia). lia.
  - destruct (Z_lt_le_dec d (Zpos (digits2_pos p))) as [Hlt|Hle]; [|lia].
    assert (2 ^ d <= 2 ^ (Zpos (digits2_pos p) - 1)) by (apply Z.pow_le_mono_r; lia). lia.
Qed.

Lemma digits2_shift (p q : positive) (k : Z) :
  0 <= k -> Zpos q = Zpos p * 2 ^ k ->
  Zpos (digits2_pos q) = Zpos (digits2_pos p) + k.
Proof.
  intros Hk Hq. apply digits2_unique. rewrite Hq.
  pose proof (digits2_bounds p) as [B1 B2].
  replace (Zpos (digits2_pos p) + k - 1) with ((Zpos (digits2_pos p) - 1) + k) by lia.
  rewrite !Z.pow_add_r by lia.
  assert (0 < 2 ^ k) by (apply Z.pow_pos_nonneg; lia).
  split; [apply Z.mul_le_mono_nonneg_r; lia | apply Z.mul_lt_mono_pos_r; lia].
Qed.

Lemma digits2_le (p : positive) (d : Z) :
  Zpos p < 2 ^ d -> Zpos (digits2_pos p) <= d.
Proof.
  intros H. pose proof (digits2_bounds p) as [B1 _].
  destruct (Z_lt_le_dec d (Zpos (digits2_pos p))) as [Hlt|]; [|assumption].
  destruct (Z_lt_le_dec d 0) as [Hn|Hn].
  - rewrite Z.pow_neg_r in H by assumption. lia.
  - assert (2 ^ d <= 2 ^ (Zpos (digits2_pos p) - 1)) by (apply Z.pow_le_mono_r; lia). lia.
Qed.

Lemma shr_1_double (m : Z) :
  shr_1 {| shr_m := 2 * m; shr_r := false; shr_s := false |}
  = {| shr_m := m; shr_r := false; shr_s := false |}.
Proof. destruct m as [|p|p]; reflexivity. Qed.

Lemma iter_shr_1 (k : positive) : forall m : Z,
  iter_pos shr_1 k {| shr_m := m * 2 ^ Zpos k; shr_r := false; shr_s := false |}
  = {| shr_m := m; shr_r := false; shr_s := false |}.
Proof.
  induction k as [k IH | k IH |]; intros m; cbn [iter_pos].
  - replace (m * 2 ^ Zpos k~1) with (2 * ((m * 2 ^ Zpos k) * 2 ^ Zpos k)).
    + now rewrite shr_1_double, !IH.
    + replace (Zpos k~1) with (Zpos k + Zpos k + 1) by lia.
      rewrite !Z.pow_add_r, Z.pow_1_r by lia. ring.
  - replace (m * 2 ^ Zpos k~0) with ((m * 2 ^ Zpos k) * 2 ^ Zpos k).
    + now rewrite !IH.
    + replace (Zpos k~0) with (Zpos k + Zpos k) by lia.
      rewrite Z.pow_add_r by lia. ring.
  - change (2 ^ 1) with 2. rewrite Z.mul_comm. apply shr_1_double.
Qed.

Lemma round_exact (sx : bool) (m : positive) (k e : Z) :
  0 <= k -> Zpos (digits2_pos m) = JsNumber.prec -> -1074 <= e <= 971 ->
  binary_round_aux JsNumber.prec JsNumber.emax sx (Zpos m * 2 ^ k) (e - k) loc_Exact
  = S754_finite sx m e.
Proof.
  intros Hk Hd He.
  assert (Hp : 0 < Zpos m * 2 ^ k) by (apply Z.mul_pos_pos; [lia | apply Z.pow_pos_nonneg; lia]).
  destruct (Zpos m * 2 ^ k) as [|q|q] eqn:Eq; try lia.
  pose proof (digits2_shift m q k Hk (eq_sym Eq)) as Hdq.
  assert (Hfirst : shr_fexp JsNumber.prec JsNumber.emax (Zpos q) (e - k) loc_Exact
                   = ({| shr_m := Zpos m; shr_r := false; shr_s := false |}, e)).
  { unfold shr_fexp, fexp, emin, Zdigits2. rewrite Hdq, Hd.
    unfold JsNumber.prec, JsNumber.emax.
    replace (Z.max (53 + k + (e - k) - 53) (3 - 1024 - 53) - (e - k)) with k by lia.
    cbn [shr_record_of_loc]. unfold shr.
    destruct k as [|pk|pk]; try lia.
    - f_equal; [|lia]. f_equal. rewrite Z.pow_0_r in Eq. lia.
    - rewrite <- Eq, iter_shr_1. f_equal. lia. }
  assert (Hsecond : shr_fexp JsNumber.prec JsNumber.emax (Zpos m) e loc_Exact
                   = ({| shr_m := Zpos m; shr_r := false; shr_s := false |}, e)).
  { unfold shr_fexp, fexp, emin, Zdigits2. rewrite Hd.
    unfold JsNumber.prec, JsNumber.emax.
    replace (Z.max (53 + e - 53) (3 - 1024 - 53) - e) with 0 by lia.
    reflexivity. }
  unfold binary_round_aux. rewrite Hfirst.
  cbn [shr_m loc_of_shr_record round_nearest_even]. rewrite Hsecond.
  cbn [shr_m]. unfold JsNumber.prec, JsNumber.emax.
  destruct (Z.leb_spec e (1024 - 53)); [reflexivity | lia].
Qed.

Lemma canonical_mantissa_pos (n : positive) :
  Zpos (digits2_pos n) <= JsNumber.prec ->
  0 < Zpos n * 2 ^ (JsNumber.prec - Zpos (digits2_pos n)).
Proof. intros H. apply Z.mul_pos_pos; [lia | apply Z.pow_pos_nonneg; lia]. Qed.

Lemma canonical_digits (n : positive) :
  Zpos (digits2_pos n) <= JsNumber.prec ->
  Zpos (digits2_pos (Z.to_pos (Zpos n * 2 ^ (JsNumber.prec - Zpos (digits2_pos n)))))
  = JsNumber.prec.
Proof.
  intros H. pose proof (canonical_mantissa_pos n H) as Hp.
  rewrite (digits2_shift n _ (JsNumber.prec - Zpos (digits2_pos n))); [lia | lia |].
  now rewrite Z2Pos.id.
Qed.

Lemma iter_xO (c : positive) : forall n : positive,
  Zpos (Pos.iter xO n c) = Zpos n * 2 ^ Zpos c.
Proof.
  induction c as [|c IH] using Pos.peano_ind; intros n.
  - simpl. lia.
  - rewrite Pos.iter_succ, Pos2Z.inj_succ, Z.pow_succ_r by lia.
    change (Zpos (Pos.iter xO n c)~0) with (2 * Zpos (Pos.iter xO n c)).
    rewrite IH. ring.
Qed.

Lemma of_Z_pos (n : positive) :
  Zpos (digits2_pos n) <= JsNumber.prec ->
  JsNumber.of_Z (Zpos n) = JsNumber.canonical n.
Proof.
  intros H. unfold JsNumber.of_Z, binary_normalize, binary_round, JsNumber.canonical.
  pose proof (canonical_mantissa_pos n H) as Hp.
  pose proof (canonical_digits n H) as Hd.
  assert (Hf : fexp JsNumber.prec JsNumber.emax (Zpos (digits2_pos n) + 0)
               = Zpos (digits2_pos n) - JsNumber.prec).
  { unfold fexp, emin, JsNumber.prec, JsNumber.emax. lia. }
  rewrite Hf. unfold shl_align.
  destruct (Zpos (digits2_pos n) - JsNumber.prec - 0) as [|d|d] eqn:Ed; try lia.
  - assert (Hz : JsNumber.prec - Zpos (digits2_pos n) = 0) by lia.
    rewrite Hz in *. rewrite Z.pow_0_r, Z.mul_1_r in *. rewrite Pos2Z.id.
    replace (Zpos (digits2_pos n) - JsNumber.prec) with 0 by lia.
    pose proof (round_exact false n 0 0) as R.
    rewrite Z.pow_0_r, Z.mul_1_r in R. apply R; [lia | | lia].
    simpl in Hd. exact Hd.
  - assert (Hz : JsNumber.prec - Zpos (digits2_pos n) = Zpos d) by lia.
    rewrite Hz in *.
    pose proof (round_exact false (Z.to_pos (Zpos n * 2 ^ Zpos d)) 0
                  (Zpos (digits2_pos n) - JsNumber.prec)) as R.
    rewrite Z.pow_0_r, Z.mul_1_r, Z.sub_0_r, Z2Pos.id in R by assumption.
    rewrite <- R; [| lia | assumption | unfold JsNumber.prec in *; lia].
    now rewrite iter_xO.
Qed.

Lemma mul_canonical (a b : positive) :
  Zpos (a * b) < 2 ^ JsNumber.prec ->
  JsNumber.mul (JsNumber.canonical a) (JsNumber.canonical b) = JsNumber.canonical (a * b).
Proof.
  intros Hab.
  pose proof (digits2_le _ _ Hab) as Dab.
  pose proof (digits2_bounds a) as [A1 A2].
  pose proof (digits2_bounds b) as [B1 B2].
  pose proof (digits2_bounds (a * b)) as [C1 C2].
  set (da := Zpos (digits2_pos a)) in *.
  set (db := Zpos (digits2_pos b)) in *.
  set (dab := Zpos (digits2_pos (a * b))) in *.
  assert (Hda : 1 <= da) by (subst da; lia).
  assert (Hdb : 1 <= db) by (subst db; lia).
  assert (Hlow : da + db - 1 <= dab).
  { destruct (Z_lt_le_dec dab (da + db - 1)) as [Hlt|]; [|assumption].
    assert (2 ^ dab <= 2 ^ ((da - 1) + (db - 1))) by (apply Z.pow_le_mono_r; lia).
    rewrite Z.pow_add_r in H by lia.
    assert (2 ^ (da - 1) * 2 ^ (db - 1) <= Zpos a * Zpos b) by (apply Z.mul_le_mono_nonneg; lia).
    rewrite Pos2Z.inj_mul in *. lia. }
  assert (Hhigh : dab <= da + db).
  { apply digits2_le. rewrite Pos2Z.inj_mul, Z.pow_add_r by lia.
    apply Z.mul_lt_mono_nonneg; lia. }
  assert (Da : da <= JsNumber.prec) by (unfold JsNumber.prec in *; lia).
  assert (Db : db <= JsNumber.prec) by (unfold JsNumber.prec in *; lia).
  pose proof (canonical_mantissa_pos a Da) as Pa.
  pose proof (canonical_mantissa_pos b Db) as Pb.
  pose proof (canonical_mantissa_pos (a * b) Dab) as Pab.
  pose proof (canonical_digits (a * b) Dab) as Hd.
  fold da in Pa. fold db in Pb. fold dab in Pab, Hd.
  unfold JsNumber.mul, JsNumber.canonical, SFmul. fold da db dab.
  cbn [xorb].
  pose proof (round_exact false (Z.to_pos (Zpos (a * b) * 2 ^ (JsNumber.prec - dab)))
                (JsNumber.prec + dab - da - db) (dab - JsNumber.prec)) as R.
  rewrite <- R; [| unfold JsNumber.prec in *; lia | assumption | unfold JsNumber.prec in *; lia].
  f_equal; [| lia].
  rewrite Pos2Z.inj_mul, !Z2Pos.id by assumption.
  rewrite Pos2Z.inj_mul.
  replace (Zpos a * Zpos b * 2 ^ (JsNumber.prec - dab) * 2 ^ (JsNumber.prec + dab - da - db))
    with (Zpos a * Zpos b * (2 ^ (JsNumber.prec - dab) * 2 ^ (JsNumber.prec + dab - da - db))) by ring.
  rewrite <- Z.pow_add_r by (unfold JsNumber.prec in *; lia).
  replace (Zpos a * 2 ^ (JsNumber.prec - da) * (Zpos b * 2 ^ (JsNumber.prec - db)))
    with (Zpos a * Zpos b * (2 ^ (JsNumber.prec - da) * 2 ^ (JsNumber.prec - db))) by ring.
  rewrite <- Z.pow_add_r by (unfold JsNumber.prec in *; lia).
  f_equal. f_equal. lia.
Qed.

Lemma div_eucl_exact (a b : Z) :
  0 < b -> Z.div_eucl (b * a) b = (a, 0).
Proof.
  intros Hb.
  pose proof (Z.div_mul a b ltac:(lia)) as Hq.
  pose proof (Z.mod_mul a b ltac:(lia)) as Hr.
  rewrite (Z.mul_comm a b) in Hq, Hr.
  unfold Z.div, Z.modulo in Hq, Hr.
  destruct (Z.div_eucl (b * a) b) as [q r]. now subst.
Qed.

Lemma new_location_exact (m : Z) : new_location m 0 = loc_Exact.
Proof. unfold new_location. destruct (Z.even m); reflexivity. Qed.

Lemma div_canonical (q b : positive) :
  Zpos (q * b) < 2 ^ JsNumber.prec ->
  JsNumber.div (JsNumber.canonical (q * b)) (JsNumber.canonical b) = JsNumber.canonical q.
Proof.
  intros Hqb.
  pose proof (digits2_le _ _ Hqb) as Dqb.
  pose proof (digits2_bounds q) as [A1 A2].
  pose proof (digits2_bounds b) as [B1 B2].
  pose proof (digits2_bounds (q * b)) as [C1 C2].
  assert (Hq : Zpos q < 2 ^ JsNumber.prec) by (rewrite Pos2Z.inj_mul in Hqb; nia).
  assert (Hb : Zpos b < 2 ^ JsNumber.prec) by (rewrite Pos2Z.inj_mul in Hqb; nia).
  pose proof (digits2_le _ _ Hq) as Dq.
  pose proof (digits2_le _ _ Hb) as Db.
  pose proof (canonical_mantissa_pos q Dq) as Pq.
  pose proof (canonical_mantissa_pos b Db) as Pb.
  pose proof (canonical_mantissa_pos (q * b) Dqb) as Pqb.
  pose proof (canonical_digits q Dq) as Hdq.
  pose proof (canonical_digits b Db) as Hdb.
  pose proof (canonical_digits (q * b) Dqb) as Hdqb.
  set (dq := Zpos (digits2_pos q)) in *.
  set (db := Zpos (digits2_pos b)) in *.
  set (dqb := Zpos (digits2_pos (q * b))) in *.
  assert (Hdq1 : 1 <= dq) by (subst dq; lia).
  assert (Hdb1 : 1 <= db) by (subst db; lia).
  assert (Hhigh : dqb <= dq + db).
  { apply digits2_le. rewrite Pos2Z.inj_mul, Z.pow_add_r by lia.
    apply Z.mul_lt_mono_nonneg; lia. }
  assert (Hlow : db <= dqb).
  { destruct (Z_lt_le_dec dqb db) as [Hlt|]; [|assumption].
    assert (2 ^ dqb <= 2 ^ (db - 1)) by (apply Z.pow_le_mono_r; lia).
    rewrite Pos2Z.inj_mul in *. nia. }
  unfold JsNumber.div, JsNumber.canonical, SFdiv. fold dq db dqb. cbn [xorb].
  assert (Hcore : SFdiv_core_binary JsNumber.prec JsNumber.emax
            (Zpos (Z.to_pos (Zpos (q * b) * 2 ^ (JsNumber.prec - dqb)))) (dqb - JsNumber.prec)
            (Zpos (Z.to_pos (Zpos b * 2 ^ (JsNumber.prec - db)))) (db - JsNumber.prec)
          = (Zpos q * 2 ^ (JsNumber.prec - dqb + db), dqb - db - JsNumber.prec, loc_Exact)).
  { unfold SFdiv_core_binary, Zdigits2. rewrite Hdqb, Hdb.
    assert (He : Z.min (fexp JsNumber.prec JsNumber.emax
                   (JsNumber.prec + (dqb - JsNumber.prec) - (JsNumber.prec + (db - JsNumber.prec))))
                   (dqb - JsNumber.prec - (db - JsNumber.prec)) = dqb - db - JsNumber.prec).
    { unfold fexp, emin, JsNumber.prec, JsNumber.emax in *. lia. }
    rewrite He.
    replace (dqb - JsNumber.prec - (db - JsNumber.prec) - (dqb - db - JsNumber.prec))
      with 53 by (unfold JsNumber.prec; lia).
    rewrite Z.shiftl_mul_pow2 by lia.
    rewrite !Z2Pos.id by assumption.
    replace (Zpos (q * b) * 2 ^ (JsNumber.prec - dqb) * 2 ^ 53)
      with (Zpos b * 2 ^ (JsNumber.prec - db) * (Zpos q * 2 ^ (JsNumber.prec - dqb + db))).
    - rewrite div_eucl_exact by assumption. now rewrite new_location_exact.
    - rewrite Pos2Z.inj_mul.
      replace (Zpos b * 2 ^ (JsNumber.prec - db) * (Zpos q * 2 ^ (JsNumber.prec - dqb + db)))
        with (Zpos q * Zpos b * (2 ^ (JsNumber.prec - db) * 2 ^ (JsNumber.prec - dqb + db))) by ring.
      rewrite <- Z.pow_add_r by (unfold JsNumber.prec in *; lia).
      replace (Zpos q * Zpos b * 2 ^ (JsNumber.prec - dqb) * 2 ^ 53)
        with (Zpos q * Zpos b * (2 ^ (JsNumber.prec - dqb) * 2 ^ 53)) by ring.
      rewrite <- Z.pow_add_r by (unfold JsNumber.prec in *; lia).
      f_equal. f_equal. unfold JsNumber.prec. lia. }
  rewrite Hcore.
  pose proof (round_exact false (Z.to_pos (Zpos q * 2 ^ (JsNumber.prec - dq)))
                (dq - dqb + db) (dq - JsNumber.prec)) as R.
  rewrite <- R; [| lia | assumption | unfold JsNumber.prec in *; lia].
  f_equal; [| lia].
  rewrite Z2Pos.id by assumption.
  rewrite <- Z.mul_assoc, <- Z.pow_add_r by (unfold JsNumber.prec in *; lia).
  f_equal. f_equal. lia.
Qed.

Lemma floor_canonical (n : positive) :
  Zpos (digits2_pos n) <= JsNumber.prec ->
  JsNumber.floor (JsNumber.canonical n) = JsNumber.canonical n.
Proof.
  intros H. pose proof (canonical_mantissa_pos n H) as Hp.
  unfold JsNumber.floor, JsNumber.canonical at 1.
  destruct (Z.leb_spec 0 (Zpos (digits2_pos n) - JsNumber.prec)) as [Hle|Hlt].
  - reflexivity.
  - cbn [cond_Zopp]. rewrite Z2Pos.id by assumption.
    replace (- (Zpos (digits2_pos n) - JsNumber.prec)) with (JsNumber.prec - Zpos (digits2_pos n)) by lia.
    rewrite Z.div_mul by (apply Z.pow_nonzero; lia).
    now apply of_Z_pos.
Qed.

Lemma of_Z_canonical (n : positive) :
  Zpos n < 2 ^ JsNumber.prec -> JsNumber.of_Z (Zpos n) = JsNumber.canonical n.
Proof. intros H. apply of_Z_pos. now apply digits2_le. Qed.

Lemma of_Z_mul (a b : Z) :
  0 <= a < 2 ^ JsNumber.prec -> 0 <= b < 2 ^ JsNumber.prec -> a * b < 2 ^ JsNumber.prec ->
  JsNumber.mul (JsNumber.of_Z a) (JsNumber.of_Z b) = JsNumber.of_Z (a * b).
Proof.
  intros Ha Hb Hab.
  destruct a as [|a|a]; [|  |lia]; destruct b as [|b|b]; try lia.
  - reflexivity.
  - rewrite (of_Z_canonical b) by lia. reflexivity.
  - rewrite (of_Z_canonical a) by lia. reflexivity.
  - change (Zpos a * Zpos b) with (Zpos (a * b)) in *.
    rewrite !of_Z_canonical by lia. now apply mul_canonical.
Qed.

Lemma of_Z_div (q b : Z) :
  0 <= q -> 0 < b < 2 ^ JsNumber.prec -> q * b < 2 ^ JsNumber.prec ->
  JsNumber.div (JsNumber.of_Z (q * b)) (JsNumber.of_Z b) = JsNumber.of_Z q.
Proof.
  intros Hq Hb Hqb.
  destruct b as [|b|b]; try lia. destruct q as [|q|q]; try lia.
  - rewrite (of_Z_canonical b) by lia. reflexivity.
  - change (Zpos q * Zpos b) with (Zpos (q * b)) in *.
    assert (Zpos q < 2 ^ JsNumber.prec) by (rewrite Pos2Z.inj_mul in Hqb; nia).
    rewrite !of_Z_canonical by lia. now apply div_canonical.
Qed.

Lemma floor_of_Z (n : Z) :
  0 <= n < 2 ^ JsNumber.prec -> JsNumber.floor (JsNumber.of_Z n) = JsNumber.of_Z n.
Proof.
  intros Hn. destruct n as [|n|n]; try lia.
  - reflexivity.
  - rewrite of_Z_canonical by lia. apply floor_canonical. apply digits2_le. lia.
Qed.

(** A percentage of a pool that is a whole multiple of 100 MIST. *)
Lemma share_of_Z (k p : Z) :
  0 <= k -> 0 <= p -> 100 * k * p < 2 ^ JsNumber.prec -> 100 * k < 2 ^ JsNumber.prec ->
  p < 2 ^ JsNumber.prec ->
  share (JsNumber.of_Z (100 * k)) p = JsNumber.of_Z (k * p).
Proof.
  intros Hk Hp Hkp Hk' Hp'. unfold share.
  rewrite of_Z_mul by lia.
  replace (100 * k * p) with ((k * p) * 100) by ring.
  rewrite of_Z_div; [| nia | unfold JsNumber.prec; simpl; lia | lia].
  apply floor_of_Z. nia.
Qed.

Lemma shares_of_Z (k : Z) (pcts : list Z) :
  0 <= k -> 10000 * k < 2 ^ 53 -> Forall (fun p => 0 <= p <= 100) pcts ->
  map (share (JsNumber.of_Z (100 * k))) pcts
  = map JsNumber.of_Z (map (fun p => k * p) pcts).
Proof.
  intros Hk Hb Hall. rewrite map_map. apply map_ext_in. intros p Hin.
  rewrite Forall_forall in Hall. specialize (Hall p Hin).
  change (2 ^ 53) with (2 ^ JsNumber.prec) in Hb.
  apply share_of_Z; try lia; try nia.
  unfold JsNumber.prec. simpl. lia.
Qed.

(** An integer number of SUI gives a pool that is a whole multiple of 100
    MIST. *)
Lemma totalRewardAmount_integer (ri : RewardInfo) (n : Z) :
  suiAmount ri = JsNumber.of_Z n -> 0 <= n -> n * 1000000000 < 2 ^ 53 ->
  totalRewardAmount ri = JsNumber.of_Z (100 * (n * 10000000)).
Proof.
  intros Hs Hn Hb. unfold totalRewardAmount. rewrite Hs.
  change (2 ^ 53) with (2 ^ JsNumber.prec) in Hb.
  rewrite of_Z_mul; [f_equal; ring | lia | unfold JsNumber.prec; simpl; lia | lia].
Qed.

(** Beyond that bound the amounts are rounded: of a pool of 200000001 SUI
    the three shares of the top-3 rule add up to 16 MIST less than the
    pool, and of a pool of 1104520348 SUI to 64 MIST more. *)
Lemma share_rounding :
  let short := JsNumber.mul (JsNumber.of_Z 200000001) (JsNumber.of_Z 1000000000) in
  let long := JsNumber.mul (JsNumber.of_Z 1104520348) (JsNumber.of_Z 1000000000) in
  (short = JsNumber.of_Z 200000001000000000
   /\ map (share short) [50; 30; 20]
      = map JsNumber.of_Z
          [100000000499999984; 60000000300000000; 40000000200000000]
   /\ sum_Z [100000000499999984; 60000000300000000; 40000000200000000]
      = 200000001000000000 - 16)
  /\ (long = JsNumber.of_Z 1104520348000000000
      /\ map (share long) [50; 30; 20]
         = map JsNumber.of_Z
             [552260174000000064; 331356104400000000; 220904069600000000]
      /\ sum_Z [552260174000000064; 331356104400000000; 220904069600000000]
         = 1104520348000000000 + 64).
Proof. vm_compute. repeat split; reflexivity. Qed.

(** The winners and percentages for a list of percentages. *)
Lemma payout_of_percentages (ri : RewardInfo) (lb : list Player) (pcts : list Z) :
  winners_with_percentages ri lb = combine (firstn (List.length pcts) lb) pcts ->
  payout ri lb
  = (map address (firstn (List.length pcts) lb),
     map (share (totalRewardAmount ri)) (firstn (List.length lb) pcts)).
Proof.
  intros H. unfold payout. rewrite H. f_equal.
  - rewrite <- (map_map fst address), map_fst_combine.
    rewrite firstn_firstn, Nat.min_id. reflexivity.
  - rewrite <- (map_map snd (share (totalRewardAmount ri))).
    rewrite map_snd_combine, length_firstn, firstn_min_length. reflexivity.
Qed.

Lemma in_firstn {A} (x : A) n l : In x (firstn n l) -> In x l.
Proof.
  revert n. induction l as [|a t IH]; intros [|n]; simpl; try tauto.
  intros [H|H]; eauto.
Qed.

Lemma sum_Z_scaled c l : sum_Z (map (fun p => c * p) l) = c * sum_Z l.
Proof. unfold sum_Z. induction l as [|p t IH]; simpl; [lia|rewrite IH; lia]. Qed.

Lemma sum_Z_firstn_le n l :
  Forall (fun p => 0 <= p) l -> 0 <= sum_Z (firstn n l) <= sum_Z l.
Proof.
  unfold sum_Z. intros H. revert n.
  induction H as [|p t Hp Ht IH]; intros [|n]; simpl; try lia.
  - specialize (IH 0%nat). simpl in IH. lia.
  - specialize (IH n). lia.
Qed.

Lemma total_percentage_sum l : total_percentage l = sum_Z l.
Proof.
  unfold total_percentage, sum_Z.
  assert (H : forall acc, fold_left (fun sum p => sum + p) l acc
                          = acc + fold_right Z.add 0 l).
  { induction l as [|p t IH]; intros acc; simpl; [lia|]. rewrite IH. lia. }
  now rewrite H.
Qed.

(** What [distributeSUIRewards] asks of the ledger. *)
Lemma distributeSUIRewards_call env ri lb r f :
  let '(_, f', res) := distributeSUIRewards env ri lb r f in
  match fst (payout ri lb) with
  | [] => ledgerLog f' = ledgerLog f /\ res = SuiNoWinners
  | _ :: _ =>
      ledgerLog f'
      = ledgerLog f
        ++ [DistributeRewards (fst (payout ri lb)) (snd (payout ri lb))
              (hostAddress r) (roomCode r) (paymentTransactionDigest ri)]
  end.
Proof.
  unfold distributeSUIRewards, payout. simpl.
  destruct (map (fun wp => address (fst wp)) (winners_with_percentages ri lb))
    as [|w ws]; [now split|].
  destruct (distributeRewardsToWinners env _ _); reflexivity.
Qed.

(** X7.  Under the top-3 rule the ledger is asked to pay the first three
    players of the leaderboard the amounts computed for 50, 30 and 20
    percent of the pool, each as [Math.floor((pool * percentage) / 100)] in
    binary64 arithmetic; with an empty leaderboard the ledger is not called
    at all.  When the pool is a whole multiple [100 * k] of 100 MIST with
    [10000 * k] below [2 ^ 53], the amounts are exactly [50 * k], [30 * k]
    and [20 * k] MIST, so that three or more ranked players receive the
    whole pool and fewer players only their shares. *)
Theorem X7_top3_split (env : Env) (ri : RewardInfo) (lb : list Player)
    (r : QuizRoom) (f : Fx) :
  distribution ri = "top3" ->
  payout ri lb
  = (map address (firstn 3 lb),
     map (share (totalRewardAmount ri)) (firstn (List.length lb) [50; 30; 20]))
  /\ (forall k : Z,
        0 <= k -> 10000 * k < 2 ^ 53 ->
        totalRewardAmount ri = JsNumber.of_Z (100 * k) ->
        snd (payout ri lb)
        = map JsNumber.of_Z
            (map (fun p => k * p) (firstn (List.length lb) [50; 30; 20]))
        /\ ((3 <= List.length lb)%nat ->
            sum_Z (map (fun p => k * p) (firstn (List.length lb) [50; 30; 20]))
            = 100 * k))
  /\ (let '(_, f', res) := distributeSUIRewards env ri lb r f in
      match lb with
      | [] => ledgerLog f' = ledgerLog f /\ res = SuiNoWinners
      | _ :: _ =>
          ledgerLog f'
          = ledgerLog f
            ++ [DistributeRewards (fst (payout ri lb)) (snd (payout ri lb))
                  (hostAddress r) (roomCode r) (paymentTransactionDigest ri)]
      end).
Proof.
  intros Hd.
  assert (Hp : payout ri lb
               = (map address (firstn 3 lb),
                  map (share (totalRewardAmount ri))
                    (firstn (List.length lb) [50; 30; 20]))).
  { apply (payout_of_percentages ri lb [50; 30; 20]).
    unfold winners_with_percentages. now rewrite Hd. }
  split; [exact Hp|]. split.
  - intros k Hk Hb Ht. rewrite Hp. cbn [snd]. rewrite Ht. split.
    + apply shares_of_Z; try assumption.
      apply Forall_forall. intros p Hin. apply in_firstn in Hin.
      destruct Hin as [<-|[<-|[<-|[]]]]; lia.
    + intros Hlen. rewrite firstn_all2 by (simpl; lia).
      unfold sum_Z. cbn [map fold_right]. lia.
  - pose proof (distributeSUIRewards_call env ri lb r f) as H.
    destruct (distributeSUIRewards env ri lb r f) as [[r' f'] res].
    rewrite Hp in H. rewrite Hp. destruct lb as [|p t]; exact H.
Qed.

(** Half a SUI under the top-3 rule with one ranked player: 250000000 MIST
    are paid. *)
Lemma X7_top3_split_witness :
  let ri := {| ri_type := "sui";
               suiAmount := S754_finite false 4503599627370496 (-53);
               distribution := "top3";
               ri_manualPercentages := None; paymentCollected := true;
               paymentTransactionDigest := None |} in
  (distribution ri = "top3"
   /\ 0 <= 5000000 /\ 10000 * 5000000 < 2 ^ 53
   /\ totalRewardAmount ri = JsNumber.of_Z (100 * 5000000))
  /\ snd (payout ri [Fixtures.alice]) = map JsNumber.of_Z [250000000].
Proof.
  cbv zeta.
  assert (H1 : 0 <= 5000000) by (vm_compute; discriminate).
  assert (H2 : 10000 * 5000000 < 2 ^ 53) by (vm_compute; reflexivity).
  pose proof (X7_top3_split Fixtures.env
                {| ri_type := "sui";
                   suiAmount := S754_finite false 4503599627370496 (-53);
                   distribution := "top3";
                   ri_manualPercentages := None; paymentCollected := true;
                   paymentTransactionDigest := None |}
                [Fixtures.alice] Fixtures.room_5_15 empty_fx eq_refl) as H.
  destruct H as (_ & H & _).
  destruct (H 5000000 H1 H2 eq_refl) as [H3 _].
  split; [repeat split; assumption|exact H3].
Defined.

Lemma sum_Z_bounds l :
  Forall (fun p => 0 <= p) l -> Forall (fun p => 0 <= p <= sum_Z l) l.
Proof.
  induction 1 as [|p t Hp Ht IH]; simpl; constructor.
  - assert (0 <= sum_Z t).
    { clear IH. induction Ht; simpl; [lia|]. unfold sum_Z in *. simpl. lia. }
    lia.
  - eapply Forall_impl; [|exact IH]. simpl. intros a Ha. lia.
Qed.

Lemma percentages_at_most_100 (pcts : list Z) :
  Forall (fun p => 0 <= p) pcts -> sum_Z pcts = 100 ->
  Forall (fun p => 0 <= p <= 100) pcts.
Proof.
  intros Hpos Hsum. pose proof (sum_Z_bounds pcts Hpos) as H.
  now rewrite Hsum in H.
Qed.

(** X8.  Under the manual rule the i-th ranked player is paid the amount
    computed for the i-th percentage of the pool, as
    [Math.floor((pool * percentage) / 100)] in binary64 arithmetic, for as
    many players as there are percentages and players.  When the pool is a
    whole multiple [100 * k] of 100 MIST with [10000 * k] below [2 ^ 53],
    no percentage is negative and they total 100, the i-th amount is
    exactly [k] times the i-th percentage, the amounts are not negative and
    never add up to more than the pool, and they add up to exactly the pool
    when there is a ranked player for every percentage. *)
Theorem X8_manual_split (ri : RewardInfo) (lb : list Player) (pcts : list Z) :
  distribution ri = "manual" ->
  ri_manualPercentages ri = Some pcts ->
  payout ri lb
  = (map address (firstn (List.length pcts) lb),
     map (share (totalRewardAmount ri)) (firstn (List.length lb) pcts))
  /\ (forall k : Z,
        0 <= k -> 10000 * k < 2 ^ 53 ->
        totalRewardAmount ri = JsNumber.of_Z (100 * k) ->
        Forall (fun p => 0 <= p) pcts -> total_percentage pcts = 100 ->
        let paid := map (fun p => k * p) (firstn (List.length lb) pcts) in
        snd (payout ri lb) = map JsNumber.of_Z paid
        /\ Forall (fun a => 0 <= a) paid
        /\ sum_Z paid <= 100 * k
        /\ ((List.length pcts <= List.length lb)%nat -> sum_Z paid = 100 * k)).
Proof.
  intros Hd Hm.
  assert (Hp : payout ri lb
               = (map address (firstn (List.length pcts) lb),
                  map (share (totalRewardAmount ri))
                    (firstn (List.length lb) pcts))).
  { apply payout_of_percentages. unfold winners_with_percentages.
    now rewrite Hd, Hm. }
  split; [exact Hp|]. intros k Hk Hb Ht Hpos Htot. cbv zeta.
  rewrite Hp. cbn [snd]. rewrite Ht.
  rewrite total_percentage_sum in Htot.
  pose proof (percentages_at_most_100 pcts Hpos Htot) as Hle100.
  pose proof (sum_Z_firstn_le (List.length lb) pcts Hpos) as Hle.
  rewrite sum_Z_scaled. split; [|split; [|split]].
  - apply shares_of_Z; try assumption.
    apply Forall_forall. intros p Hin. apply in_firstn in Hin.
    rewrite Forall_forall in Hle100. now apply Hle100.
  - apply Forall_forall. intros a Ha. apply in_map_iff in Ha as (p & <- & Hin).
    apply in_firstn in Hin. rewrite Forall_forall in Hpos.
    specialize (Hpos p Hin). nia.
  - nia.
  - intros Hlen. rewrite firstn_all2 by exact Hlen. lia.
Qed.

(** Two SUI split 70 to 30 with one ranked player: 1400000000 MIST are
    paid. *)
Lemma X8_manual_split_witness :
  let ri := {| ri_type := "sui"; suiAmount := JsNumber.of_Z 2;
               distribution := "manual";
               ri_manualPercentages := Some [70; 30]; paymentCollected := true;
               paymentTransactionDigest := None |} in
  (distribution ri = "manual" /\ ri_manualPercentages ri = Some [70; 30]
   /\ 0 <= 20000000 /\ 10000 * 20000000 < 2 ^ 53
   /\ totalRewardAmount ri = JsNumber.of_Z (100 * 20000000)
   /\ Forall (fun p => 0 <= p) [70; 30] /\ total_percentage [70; 30] = 100)
  /\ snd (payout ri [Fixtures.alice]) = map JsNumber.of_Z [1400000000].
Proof.
  cbv zeta.
  assert (H1 : 0 <= 20000000) by (vm_compute; discriminate).
  assert (H2 : 10000 * 20000000 < 2 ^ 53) by (vm_compute; reflexivity).
  assert (H3 : Forall (fun p => 0 <= p) [70; 30]) by (repeat constructor; lia).
  pose proof (X8_manual_split
                {| ri_type := "sui"; suiAmount := JsNumber.of_Z 2;
                   distribution := "manual";
                   ri_manualPercentages := Some [70; 30];
                   paymentCollected := true;
                   paymentTransactionDigest := None |}
                [Fixtures.alice] [70; 30] eq_refl eq_refl) as H.
  destruct H as (_ & H).
  destruct (H 20000000 H1 H2 eq_refl H3 eq_refl) as [H4 _].
  split; [repeat split; assumption|exact H4].
Defined.

(** ** The dispatch pass *)

Lemma award_badges_ledger env r i lb f :
  exists calls,
    ledgerLog (fst (award_badges env r i lb f)) = ledgerLog f ++ calls
    /\ List.length (filter is_mint calls) = List.length lb
    /\ filter is_distribution calls = [].
Proof.
  revert i f. induction lb as [|p t IH]; intros i f; cbn [award_badges].
  - exists []. now rewrite app_nil_r.
  - destruct (award_badge env r i p f) as [f1 b] eqn:Eb.
    destruct (IH (S i) f1) as (calls & H1 & H2 & H3).
    destruct (award_badges env r (S i) t f1) as [f2 bs]. simpl in *.
    unfold award_badge in Eb. injection Eb as <- _. simpl in H1.
    eexists. split; [rewrite H1, <- !app_assoc; reflexivity|].
    simpl. rewrite H2, H3. auto.
Qed.

Lemma distributeSUIRewards_outcome env ri lb r f :
  let '(r', f', res) := distributeSUIRewards env ri lb r f in
  userBadges f' = userBadges f
  /\ filter is_mint (ledgerLog f') = filter is_mint (ledgerLog f)
  /\ match res with
     | SuiDistributed _ _ _ _ => r' = set_rewardsDistributed true r
     | SuiFailed _ => r' = r
     | SuiNoWinners => r' = r
     end.
Proof.
  unfold distributeSUIRewards.
  destruct (map _ (winners_with_percentages ri lb)) as [|w ws]; [auto|].
  destruct (distributeRewardsToWinners env _ _); simpl;
    rewrite filter_app; simpl; rewrite app_nil_r; auto.
Qed.

(** What [distributeSUIRewards] makes of the ledger's reply. *)
Lemma distributeSUIRewards_reply env ri lb r f :
  let '(r', f', res) := distributeSUIRewards env ri lb r f in
  match fst (payout ri lb) with
  | [] => r' = r /\ f' = f /\ res = SuiNoWinners
  | _ :: _ =>
      let call :=
        DistributeRewards (fst (payout ri lb)) (snd (payout ri lb))
          (hostAddress r) (roomCode r) (paymentTransactionDigest ri) in
      f' = call_ledger call f
      /\ match distributeRewardsToWinners env (ledgerLog f) call with
         | LedgerOk digest =>
             r' = set_rewardsDistributed true r
             /\ res = SuiDistributed digest (fst (payout ri lb))
                      (snd (payout ri lb)) (totalRewardAmount ri)
         | LedgerError e => r' = r /\ res = SuiFailed e
         end
  end.
Proof.
  unfold distributeSUIRewards, payout. cbn [fst snd].
  destruct (map (fun wp => address (fst wp)) (winners_with_percentages ri lb))
    as [|w ws]; [auto|].
  cbv zeta.
  destruct (distributeRewardsToWinners env _ _); auto.
Qed.

(** X9.  The dispatch pass follows the ledger's reply.  With a reward pool
    above zero and at least one winner, the ledger is asked once, for the
    winners and amounts of the payout: when it replies with a transaction
    digest, [rewardsDistributed] is set and the results record the digest,
    the winners, the amounts and the pool; when it replies with an error,
    the room is left as it was and the results record that error.  Without
    a winner the results say so, and without reward information or with a
    pool that is not above zero they hold no SUI entry; in these cases the
    ledger is not asked and the room is left as it was.  In every case each
    ranked player still gets a badge and a mint request. *)
Theorem X9_dispatch_outcome (env : Env) (lb : list Player) (r : QuizRoom) (f : Fx) :
  let '(r', f', res) := distributeRewardsAndBadges env lb r f in
  let unpaid (sui : option SuiRewards) :=
    r' = r /\ suiRewards res = sui
    /\ filter is_distribution (ledgerLog f')
       = filter is_distribution (ledgerLog f) in
  List.length (badges res) = List.length lb
  /\ List.length (filter is_mint (ledgerLog f'))
     = (List.length (filter is_mint (ledgerLog f)) + List.length lb)%nat
  /\ match rewardInfo (quizData r) with
     | Some ri =>
         if JsNumber.gtb (suiAmount ri) (JsNumber.of_Z 0) then
           match fst (payout ri lb) with
           | [] => unpaid (Some SuiNoWinners)
           | _ :: _ =>
               let call :=
                 DistributeRewards (fst (payout ri lb)) (snd (payout ri lb))
                   (hostAddress r) (roomCode r) (paymentTransactionDigest ri) in
               filter is_distribution (ledgerLog f')
               = filter is_distribution (ledgerLog f) ++ [call]
               /\ match distributeRewardsToWinners env (ledgerLog f) call with
                  | LedgerOk digest =>
                      r' = set_rewardsDistributed true r
                      /\ suiRewards res
                         = Some (SuiDistributed digest (fst (payout ri lb))
                                   (snd (payout ri lb)) (totalRewardAmount ri))
                  | LedgerError e =>
                      r' = r /\ suiRewards res = Some (SuiFailed e)
                  end
           end
         else unpaid None
     | None => unpaid None
     end.
Proof.
  unfold distributeRewardsAndBadges.
  assert (Hb : forall r1 f1 sui,
    filter is_mint (ledgerLog f1) = filter is_mint (ledgerLog f) ->
    let '(f2, bs) := award_badges env r1 0 lb f1 in
    List.length (badges {| suiRewards := sui; badges := bs |}) = List.length lb
    /\ List.length (filter is_mint (ledgerLog f2))
       = (List.length (filter is_mint (ledgerLog f)) + List.length lb)%nat
    /\ filter is_distribution (ledgerLog f2) = filter is_distribution (ledgerLog f1)).
  { intros r1 f1 sui Hm.
    pose proof (award_badges_totalPossible env r1 0 lb f1) as [Hl _].
    destruct (award_badges_ledger env r1 0 lb f1) as (calls & H1 & H2 & H3).
    destruct (award_badges env r1 0 lb f1) as [f2 bs]. simpl in *.
    rewrite H1, !filter_app, length_app, Hm, H2, H3, app_nil_r. auto. }
  destruct (rewardInfo (quizData r)) as [ri|] eqn:Hri.
  - destruct (JsNumber.gtb (suiAmount ri) (JsNumber.of_Z 0)) eqn:Hs.
    + pose proof (distributeSUIRewards_outcome env ri lb r f) as Ho.
      pose proof (distributeSUIRewards_reply env ri lb r f) as Hy.
      destruct (distributeSUIRewards env ri lb r f) as [[r1 f1] res].
      destruct Ho as (_ & Hm & _).
      specialize (Hb r1 f1 (Some res) Hm).
      destruct (award_badges env r1 0 lb f1) as [f2 bs].
      destruct Hb as (Hl & Hc & Hd). cbv zeta. cbn [suiRewards].
      split; [exact Hl|]. split; [exact Hc|].
      destruct (fst (payout ri lb)) as [|w ws].
      * destruct Hy as (-> & -> & ->). rewrite Hd. auto.
      * cbv zeta in Hy. destruct Hy as (-> & Hy). split.
        -- rewrite Hd. unfold call_ledger. cbn [ledgerLog].
           rewrite filter_app. reflexivity.
        -- destruct (distributeRewardsToWinners env (ledgerLog f) _);
             destruct Hy as (-> & ->); auto.
    + specialize (Hb r f None eq_refl).
      destruct (award_badges env r 0 lb f) as [f2 bs].
      destruct Hb as (Hl & Hc & Hd). cbv zeta. cbn [suiRewards]. auto.
  - specialize (Hb r f None eq_refl).
    destruct (award_badges env r 0 lb f) as [f2 bs].
    destruct Hb as (Hl & Hc & Hd). cbv zeta. cbn [suiRewards]. auto.
Qed.

Lemma position_percentages n :
  map position_percentage (seq 1 n)
  = firstn n [50; 30; 20] ++ repeat 0 (n - 3).
Proof.
  destruct n as [|[|[|n]]]; try reflexivity.
  simpl. do 3 f_equal. rewrite Nat.sub_0_r.
  assert (H : forall m k, (4 <= k)%nat ->
                map position_percentage (seq k m) = repeat 0 m).
  { induction m as [|m IH]; intros k Hk; simpl; auto.
    rewrite IH by lia. f_equal. unfold position_percentage.
    destruct k as [|[|[|[|k]]]]; try lia; reflexivity. }
  rewrite firstn_nil. now apply H.
Qed.

Lemma award_badges_entries env r lb : forall i f,
  let bs := snd (award_badges env r i lb f) in
  map (fun b => b_position (br_badge b)) bs = seq (i + 1) (List.length lb)
  /\ map (fun b => rewardPercentage (br_badge b)) bs
     = map position_percentage (seq (i + 1) (List.length lb))
  /\ map br_address bs = map address lb
  /\ map (fun b => b_score (br_badge b)) bs = map score lb.
Proof.
  induction lb as [|p t IH]; intros i f; cbn [award_badges].
  - simpl. auto.
  - destruct (award_badge env r i p f) as [f1 b] eqn:Eb.
    specialize (IH (S i) f1).
    destruct (award_badges env r (S i) t f1) as [f2 bs].
    cbn [snd] in *. destruct IH as (H1 & H2 & H3 & H4).
    unfold award_badge in Eb. injection Eb as _ <-.
    cbn [map List.length seq br_badge br_address].
    rewrite H1, H2, H3, H4.
    unfold make_userBadge. destruct (badge_tier _ _) as [[bt rar] col].
    cbn [b_position rewardPercentage b_score].
    replace (S i + 1)%nat with (S (i + 1)) by lia. auto.
Qed.

(** X10.  The badges of a dispatch pass follow the leaderboard: one badge
    per ranked player, in ranking order, carrying the player's address and
    score and the positions 1, 2, 3, ...; the reward percentages written
    on the badges are always 50, 30, 20 and then 0, whatever distribution
    rule and percentages the room was created with. *)
Theorem X10_badges_follow_the_leaderboard
    (env : Env) (lb : list Player) (r : QuizRoom) (f : Fx) :
  let bs := badges (snd (distributeRewardsAndBadges env lb r f)) in
  map br_address bs = map address lb
  /\ map (fun b => b_score (br_badge b)) bs = map score lb
  /\ map (fun b => b_position (br_badge b)) bs = seq 1 (List.length lb)
  /\ map (fun b => rewardPercentage (br_badge b)) bs
     = firstn (List.length lb) [50; 30; 20] ++ repeat 0 (List.length lb - 3).
Proof.
  cbv zeta. unfold distributeRewardsAndBadges.
  destruct (match rewardInfo (quizData r) with
            | Some ri => _
            | None => _
            end) as [[r1 f1] sui].
  pose proof (award_badges_entries env r1 lb 0 f1) as H.
  destruct (award_badges env r1 0 lb f1) as [f2 bs]. simpl in *.
  destruct H as (H1 & H2 & H3 & H4).
  rewrite H2, position_percentages. auto.
Qed.

Lemma badges_of_set addr a l f :
  badges_of addr (with_userBadges (JsMap.set a l (userBadges f)) f)
  = if String.eqb addr a then l else badges_of addr f.
Proof.
  unfold badges_of. simpl. destruct (String.eqb addr a) eqn:E.
  - apply String.eqb_eq in E. subst. now rewrite JsMapFacts.get_set_same.
  - apply String.eqb_neq in E. now rewrite JsMapFacts.get_set_other.
Qed.

Lemma award_badges_store env r lb addr : forall i f,
  let '(f', bs) := award_badges env r i lb f in
  badges_of addr f'
  = badges_of addr f
    ++ map br_badge (filter (fun b => String.eqb addr (br_address b)) bs).
Proof.
  induction lb as [|p t IH]; intros i f; cbn [award_badges].
  - simpl. now rewrite app_nil_r.
  - destruct (award_badge env r i p f) as [f1 b] eqn:Eb.
    specialize (IH (S i) f1).
    destruct (award_badges env r (S i) t f1) as [f2 bs].
    rewrite IH. unfold award_badge in Eb. injection Eb as <- <-.
    cbn [filter br_address].
    change (badges_of addr (call_ledger _ (call_ledger _ ?x)))
      with (badges_of addr x).
    rewrite badges_of_set. fold (badges_of (address p) f).
    destruct (String.eqb addr (address p)) eqn:E; simpl.
    + apply String.eqb_eq in E. subst. now rewrite <- app_assoc.
    + reflexivity.
Qed.

(** X11.  The badge store only grows.  After a dispatch pass the badges
    stored for any address are those stored before, in the same order,
    followed by the badges the pass awarded to that address; nothing is
    removed or replaced. *)
Theorem X11_badge_store_only_grows
    (env : Env) (lb : list Player) (r : QuizRoom) (f : Fx) (addr : string) :
  let '(_, f', res) := distributeRewardsAndBadges env lb r f in
  badges_of addr f'
  = badges_of addr f
    ++ map br_badge
         (filter (fun b => String.eqb addr (br_address b)) (badges res)).
Proof.
  unfold distributeRewardsAndBadges.
  assert (H0 : forall r1 f1, userBadges f1 = userBadges f ->
    let '(f2, bs) := award_badges env r1 0 lb f1 in
    badges_of addr f2
    = badges_of addr f
      ++ map br_badge (filter (fun b => String.eqb addr (br_address b)) bs)).
  { intros r1 f1 Hu. pose proof (award_badges_store env r1 lb addr 0 f1) as H.
    destruct (award_badges env r1 0 lb f1) as [f2 bs].
    rewrite H. unfold badges_of. now rewrite Hu. }
  destruct (rewardInfo (quizData r)) as [ri|].
  - destruct (JsNumber.gtb (suiAmount ri) (JsNumber.of_Z 0)).
    + pose proof (distributeSUIRewards_outcome env ri lb r f) as Ho.
      destruct (distributeSUIRewards env ri lb r f) as [[r1 f1] res].
      destruct Ho as (Hu & _). specialize (H0 r1 f1 Hu).
      now destruct (award_badges env r1 0 lb f1) as [f2 bs].
    + specialize (H0 r f eq_refl).
      now destruct (award_badges env r 0 lb f) as [f2 bs].
  - specialize (H0 r f eq_refl).
    now destruct (award_badges env r 0 lb f) as [f2 bs].
Qed.

(** ** Ties *)

(** X12.  Players with equal scores are ranked in the order in which they
    joined: for every score, the leaderboard's players with that score are
    the room's non-host players with that score, in the order of the player
    map. *)
Theorem X12_ties_keep_joining_order (r : QuizRoom) (k : Z) :
  filter (fun p => score p =? k)
    (map rp_player (leaderboard (calculateLeaderboard r)))
  = filter (fun p => score p =? k) (non_host_players r).
Proof. rewrite calculateLeaderboard_players. apply ranking_stable. Qed.

(** ** The creation form *)

Lemma existsb_negative l :
  existsb (fun p => p <? 0) l = false <-> Forall (fun p => 0 <= p) l.
Proof.
  induction l as [|p t IH]; simpl.
  - split; auto.
  - rewrite orb_false_iff, IH, Z.ltb_ge. split.
    + intros [H1 H2]. now constructor.
    + intros H. inversion H. auto.
Qed.

Ltac form_alert a :=
  split; [split|split; split];
  [ let H := fresh in intros H; now elim (H a)
  | idtac
  | discriminate
  | let H := fresh in intros [H _]; now elim (H a)
  | discriminate
  | let H := fresh in intros [H _]; now elim (H a) ].

Ltac form_passes :=
  split; [split|split; split];
  [ intros _
  | intros _ a; discriminate
  | first [discriminate
          | intros _; split; [intros a; discriminate|reflexivity]]
  | first [intros [_ ?]; discriminate | intros _; reflexivity]
  | first [discriminate
          | intros _; split; [intros a; discriminate|reflexivity]]
  | first [intros [_ ?]; discriminate | intros _; reflexivity] ].

Lemma manual_percentages_checked l :
  (total_percentage l =? 100) = true ->
  existsb (fun p => p <? 0) l = false ->
  total_percentage l = 100 /\ Forall (fun p => 0 <= p <= 100) l.
Proof.
  intros E100 En. apply Z.eqb_eq in E100.
  apply existsb_negative, sum_Z_bounds in En.
  rewrite <- total_percentage_sum, E100 in En. auto.
Qed.

Lemma manual_percentages_negative l :
  existsb (fun p => p <? 0) l = true -> ~ Forall (fun p => 0 <= p <= 100) l.
Proof.
  intros En Hall.
  assert (Hn : existsb (fun p => p <? 0) l = false).
  { apply existsb_negative. eapply Forall_impl; [|exact Hall].
    simpl. intros a Ha. lia. }
  rewrite Hn in En. discriminate.
Qed.

(** X13.  The creation form lets a quiz through exactly when title and
    description are filled in, there is a question, a SUI reward has a
    positive amount, and manual percentages total 100 with none negative
    (so each lies between 0 and 100; zero is let through).  A form with a
    SUI reward that passes goes to the payment dialog, never straight to
    the creation request. *)
Theorem X13_form_validation (f : QuizForm) :
  ((forall a, createQuiz f <> Alert a) <->
     f_title f <> "" /\ f_description f <> "" /\ f_questions f <> []
     /\ (wants_sui f = true -> 0 < f_suiRewardAmount f)
     /\ (f_rewardDistribution f = "manual" ->
         total_percentage (f_manualPercentages f) = 100
         /\ Forall (fun p => 0 <= p <= 100) (f_manualPercentages f)))
  /\ (createQuiz f = ShowPaymentModal <->
      (forall a, createQuiz f <> Alert a) /\ wants_sui f = true)
  /\ (createQuiz f = ProceedWithQuizCreation <->
      (forall a, createQuiz f <> Alert a) /\ wants_sui f = false).
Proof.
  unfold createQuiz.
  destruct (String.eqb (f_title f) "") eqn:Et; simpl.
  { apply String.eqb_eq in Et. form_alert FillRequiredFields.
    intros (H & _). now elim H. }
  destruct (String.eqb (f_description f) "") eqn:Ed; simpl.
  { apply String.eqb_eq in Ed. form_alert FillRequiredFields.
    intros (_ & H & _). now elim H. }
  destruct (List.length (f_questions f) =? 0)%nat eqn:Eq; simpl.
  { apply Nat.eqb_eq, length_zero_iff_nil in Eq. form_alert FillRequiredFields.
    intros (_ & _ & H & _). now elim H. }
  apply String.eqb_neq in Et, Ed.
  assert (Hq : f_questions f <> []).
  { intros H. rewrite H in Eq. discriminate. }
  assert (Hsui : wants_sui f = true -> (f_suiRewardAmount f <=? 0) = false ->
                 (0 <? f_suiRewardAmount f) = true).
  { intros _ H. apply Z.leb_gt in H. now apply Z.ltb_lt. }
  destruct (wants_sui f) eqn:Ew; simpl.
  - destruct (f_suiRewardAmount f <=? 0) eqn:Es.
    { apply Z.leb_le in Es. form_alert InvalidSuiAmount.
      intros (_ & _ & _ & H & _). specialize (H eq_refl). lia. }
    rewrite (Hsui eq_refl eq_refl). apply Z.leb_gt in Es.
    destruct (String.eqb (f_rewardDistribution f) "manual") eqn:Em; simpl.
    + destruct (total_percentage (f_manualPercentages f) =? 100) eqn:E100; simpl.
      * destruct (existsb _ (f_manualPercentages f)) eqn:En.
        -- form_alert PercentagesMustBePositive.
           intros (_ & _ & _ & _ & H). apply String.eqb_eq in Em.
           destruct (H Em) as [_ Hall].
           now apply manual_percentages_negative in En.
        -- form_passes.
           pose proof (manual_percentages_checked _ E100 En). auto 6.
      * apply Z.eqb_neq in E100.
        form_alert (PercentagesMustTotal100
                      (total_percentage (f_manualPercentages f))).
        intros (_ & _ & _ & _ & H). apply String.eqb_eq in Em.
        destruct (H Em) as [H1 _]. contradiction.
    + apply String.eqb_neq in Em. form_passes.
      repeat (split; auto); contradiction.
  - clear Hsui.
    destruct (String.eqb (f_rewardDistribution f) "manual") eqn:Em; simpl.
    + destruct (total_percentage (f_manualPercentages f) =? 100) eqn:E100; simpl.
      * destruct (existsb _ (f_manualPercentages f)) eqn:En.
        -- form_alert PercentagesMustBePositive.
           intros (_ & _ & _ & _ & H). apply String.eqb_eq in Em.
           destruct (H Em) as [_ Hall].
           now apply manual_percentages_negative in En.
        -- form_passes.
           pose proof (manual_percentages_checked _ E100 En).
           repeat (split; auto). discriminate.
      * apply Z.eqb_neq in E100.
        form_alert (PercentagesMustTotal100
                      (total_percentage (f_manualPercentages f))).
        intros (_ & _ & _ & _ & H). apply String.eqb_eq in Em.
        destruct (H Em) as [H1 _]. contradiction.
    + apply String.eqb_neq in Em. form_passes.
      repeat (split; auto); try discriminate; contradiction.
Qed.

(** ** Room codes *)

Lemma charAt_room_code_chars i :
  (i < 36)%nat ->
  exists c, String.get i room_code_chars = Some c
            /\ charAt i room_code_chars = String c "".
Proof.
  intros H. unfold charAt.
  do 36 (destruct i as [|i]; [eexists; split; reflexivity|]). lia.
Qed.

(** X14.  A generated room code has six characters, and its k-th character
    is the character of the alphabet A-Z, 0-9 selected by the k-th draw. *)
Theorem X14_room_code_shape (draw : nat -> nat) :
  (forall i, (draw i < 36)%nat) ->
  String.length (generateRoomCode draw) = 6%nat
  /\ forall k, (k < 6)%nat ->
       String.get k (generateRoomCode draw)
       = String.get (draw k) room_code_chars.
Proof.
  intros Hd.
  destruct (charAt_room_code_chars _ (Hd 0%nat)) as (c0 & G0 & E0).
  destruct (charAt_room_code_chars _ (Hd 1%nat)) as (c1 & G1 & E1).
  destruct (charAt_room_code_chars _ (Hd 2%nat)) as (c2 & G2 & E2).
  destruct (charAt_room_code_chars _ (Hd 3%nat)) as (c3 & G3 & E3).
  destruct (charAt_room_code_chars _ (Hd 4%nat)) as (c4 & G4 & E4).
  destruct (charAt_room_code_chars _ (Hd 5%nat)) as (c5 & G5 & E5).
  unfold generateRoomCode. cbn [seq fold_left].
  rewrite E0, E1, E2, E3, E4, E5. cbn [String.append].
  split; [reflexivity|].
  intros k Hk.
  do 6 (destruct k as [|k]; [cbn [String.get]; congruence|]). lia.
Qed.

Lemma X14_room_code_shape_witness :
  (forall i : nat, ((fun _ => 0%nat) i < 36)%nat)
  /\ String.length (generateRoomCode (fun _ => 0%nat)) = 6%nat.
Proof.
  assert (Hd : forall i : nat, ((fun _ => 0%nat) i < 36)%nat) by (intros; lia).
  split; [exact Hd|].
  pose proof (X14_room_code_shape (fun _ => 0%nat) Hd) as H.
  destruct H as [H _]. exact H.
Defined.

(** ** Answers to questions that do not exist *)



(** ** The badge module *)

(** X16.  Minting a badge on chain goes through exactly when [score * 100]
    fits a [u64], [total_possible] is not zero and the score reaches the
    badge type's required percentage of [total_possible] (nothing compares
    the score with [total_possible] itself); the minted badge is unsealed,
    names the winner, score and total it was minted with, and the event
    carries the same values. *)
Theorem X16_mint_needs_the_required_score
    (badge_type : BadgeType) (quiz_id quiz_title winner : string)
    (sc total_possible completion_time : Z) (media_id : string)
    (sui_reward_amount position reward_percentage : Z) (ctx : TxContext) :
  0 <= sc <= u64_max ->
  0 <= total_possible <= u64_max ->
  0 <= required_score_percentage badge_type <= u64_max ->
  let outcome :=
    mint_winner_badge badge_type quiz_id quiz_title winner sc total_possible
      completion_time media_id sui_reward_amount position reward_percentage
      ctx in
  ((exists badge ev, outcome = Executed (badge, ev))
   <-> sc * 100 <= u64_max
       /\ total_possible <> 0
       /\ required_score_percentage badge_type * total_possible <= sc * 100)
  /\ (outcome = AssertFailed 0
      <-> sc * 100 <= u64_max
          /\ total_possible <> 0
          /\ sc * 100 < required_score_percentage badge_type * total_possible)
  /\ (forall badge ev, outcome = Executed (badge, ev) ->
        nft_is_sealed badge = false
        /\ nft_winner badge = winner
        /\ nft_score badge = sc
        /\ nft_total_possible badge = total_possible
        /\ nft_badge_type badge = badge_type
        /\ ev = BadgeMinted (nft_id badge) (bt_name badge_type) quiz_id winner
                  sc total_possible (nft_earned_at badge)).
Proof.
  intros Hs Ht Hr. cbv zeta. unfold mint_winner_badge.
  destruct (u64_max <? sc * 100) eqn:E1.
  { apply Z.ltb_lt in E1. split; [|split].
    - split; [intros (b & e & H); discriminate|lia].
    - split; [discriminate|lia].
    - discriminate. }
  apply Z.ltb_ge in E1.
  destruct (total_possible =? 0) eqn:E2.
  { apply Z.eqb_eq in E2. split; [|split].
    - split; [intros (b & e & H); discriminate|lia].
    - split; [discriminate|lia].
    - discriminate. }
  apply Z.eqb_neq in E2.
  assert (Hpos : 0 < total_possible) by lia.
  pose proof (Z.mul_div_le (sc * 100) total_possible Hpos) as Hle.
  destruct (_ <? required_score_percentage badge_type) eqn:E3.
  - apply Z.ltb_lt in E3.
    assert (Hlt : sc * 100 < required_score_percentage badge_type * total_possible).
    { apply Z.nle_gt. intros Hc.
      assert (required_score_percentage badge_type <= sc * 100 / total_possible).
      { apply Z.div_le_lower_bound; lia. }
      lia. }
    split; [|split].
    + split; [intros (b & e & H); discriminate|lia].
    + split; auto.
    + discriminate.
  - apply Z.ltb_ge in E3.
    assert (Hge : required_score_percentage badge_type * total_possible <= sc * 100).
    { apply Z.le_trans with (total_possible * (sc * 100 / total_possible)); [|exact Hle].
      rewrite (Z.mul_comm total_possible). apply Z.mul_le_mono_nonneg_r; lia. }
    split; [|split].
    + split; [auto|]. intros _. eauto.
    + split; [discriminate|lia].
    + intros b e [= <- <-]. simpl. auto 7.
Qed.

Lemma X16_mint_needs_the_required_score_witness :
  let bt := {| bt_name := "Quiz Expert"; bt_description := "";
               bt_rarity := {| rarity_level := 2; rarity_color := "#00FF00" |};
               required_score_percentage := 80 |} in
  let ctx := {| tx_sender := "0xhost"; epoch_timestamp_ms := 1000;
                tx_fresh_id := "0xb1" |} in
  (0 <= 20 <= u64_max /\ 0 <= 30 <= u64_max
   /\ 0 <= required_score_percentage bt <= u64_max)
  /\ mint_winner_badge bt "quiz" "Quiz" "0xa" 20 30 0 "" 0 4 0 ctx
     = AssertFailed 0.
Proof.
  cbv zeta.
  assert (H1 : 0 <= 20 <= u64_max) by (unfold u64_max; lia).
  assert (H2 : 0 <= 30 <= u64_max) by (unfold u64_max; lia).
  assert (H3 : 0 <= 80 <= u64_max) by (unfold u64_max; lia).
  split; [split; [exact H1|split; [exact H2|exact H3]]|].
  pose proof (X16_mint_needs_the_required_score
                {| bt_name := "Quiz Expert"; bt_description := "";
                   bt_rarity := {| rarity_level := 2; rarity_color := "#00FF00" |};
                   required_score_percentage := 80 |}
                "quiz" "Quiz" "0xa" 20 30 0 "" 0 4 0
                {| tx_sender := "0xhost"; epoch_timestamp_ms := 1000;
                   tx_fresh_id := "0xb1" |} H1 H2 H3) as H.
  destruct H as (_ & H & _). apply H. unfold u64_max. simpl. lia.
Defined.

(** X17.  A badge is sealed at most once.  Sealing an unsealed badge
    succeeds for whatever address is passed as the quiz creator (the
    transaction sender is not looked at), records that address and the
    time, and leaves winner, score, quiz and reward fields alone; every
    later attempt aborts with code 1, so the first seal stands. *)
Theorem X17_badge_sealed_once
    (badge : BadgeNFT) (quiz_creator : string) (ctx : TxContext) :
  (nft_is_sealed badge = true ->
   seal_badge badge quiz_creator ctx = AssertFailed 1)
  /\ (nft_is_sealed badge = false ->
      exists sealed,
        seal_badge badge quiz_creator ctx
        = Executed (sealed,
                    BadgeSealed (nft_id badge) (nft_quiz_id badge)
                      (nft_winner badge) quiz_creator (epoch_timestamp_ms ctx))
        /\ nft_is_sealed sealed = true
        /\ nft_sealed_by sealed = quiz_creator
        /\ nft_sealed_at sealed = epoch_timestamp_ms ctx
        /\ (nft_id sealed, nft_winner sealed, nft_score sealed,
            nft_total_possible sealed, nft_quiz_id sealed,
            nft_badge_type sealed, nft_position sealed,
            nft_sui_reward_amount sealed, nft_reward_percentage sealed)
           = (nft_id badge, nft_winner badge, nft_score badge,
              nft_total_possible badge, nft_quiz_id badge,
              nft_badge_type badge, nft_position badge,
              nft_sui_reward_amount badge, nft_reward_percentage badge)
        /\ forall other ctx',
             seal_badge sealed other ctx' = AssertFailed 1).
Proof.
  unfold seal_badge. split; intros H; rewrite H; [reflexivity|].
  eexists. split; [reflexivity|]. simpl. repeat split.
Qed.

(** The rarity level sent to the chain for a badge is 5, 4 and 3 for
    positions 1, 2 and 3, and for every other position 2 when the score is
    at least 80 and 1 otherwise: every rarity name the server assigns is
    one the conversion knows. *)
Lemma rarity_levels_of_badges (position : nat) (sc : Z) :
  let '(_, rarity_name, _) := badge_tier position sc in
  getRarityLevel rarity_name
  = match position with
    | 1%nat => 5
    | 2%nat => 4
    | 3%nat => 3
    | _ => if 80 <=? sc then 2 else 1
    end
  /\ In rarity_name ["common"; "uncommon"; "rare"; "epic"; "legendary"].
Proof.
  unfold badge_tier.
  destruct position as [|[|[|[|n]]]]; simpl;
    try (split; [reflexivity|simpl; tauto]);
    destruct (80 <=? sc); split; try reflexivity; simpl; tauto.
Qed.

(** ** The percentage slots *)

Lemma remove_index_spec {A : Type} (index : nat) (l : list A) :
  remove_index index l = firstn index l ++ skipn (S index) l.
Proof.
  revert index. induction l as [|x t IH]; intros [|i]; simpl; auto.
  - f_equal. rewrite IH. reflexivity.
Qed.

Lemma remove_index_length {A : Type} (index : nat) (l : list A) :
  List.length (remove_index index l)
  = if (index <? List.length l)%nat then (List.length l - 1)%nat
    else List.length l.
Proof.
  revert index. induction l as [|x t IH]; intros [|i]; simpl; auto.
  - lia.
  - rewrite IH. change (S i <? S (List.length t))%nat with (i <? List.length t)%nat.
    destruct (i <? List.length t)%nat eqn:E; auto.
    apply Nat.ltb_lt in E. lia.
Qed.

Lemma edit_slots_nonempty (e : SlotEdit) (l : list Z) :
  l <> [] -> edit_slots l e <> [].
Proof.
  intros Hl. destruct e as [|i]; simpl.
  - unfold addPercentageSlot. destruct l; discriminate.
  - unfold removePercentageSlot.
    destruct (1 <? List.length l)%nat eqn:E; auto.
    apply Nat.ltb_lt in E. intros H.
    apply (f_equal (@List.length Z)) in H.
    rewrite remove_index_length in H. simpl in H.
    destruct (i <? List.length l)%nat; lia.
Qed.

(** X19.  The form never runs out of percentage slots: starting from a
    non-empty list, no sequence of additions and removals empties it.  A
    removal with two or more slots deletes exactly the slot at the index
    and keeps the others in order (an index beyond the list deletes
    nothing); with a single slot it does nothing. *)
Theorem X19_slots_never_run_out (edits : list SlotEdit) (l : list Z) :
  l <> [] ->
  fold_left edit_slots edits l <> []
  /\ (forall index,
        removePercentageSlot index l
        = if (1 <? List.length l)%nat
          then firstn index l ++ skipn (S index) l
          else l)
  /\ (forall index, (List.length l <= index)%nat ->
        removePercentageSlot index l = l).
Proof.
  intros Hl. split; [|split].
  - revert l Hl. induction edits as [|e t IH]; intros l Hl; simpl; auto.
    apply IH. now apply edit_slots_nonempty.
  - intros index. unfold removePercentageSlot.
    destruct (1 <? List.length l)%nat; auto. apply remove_index_spec.
  - intros index Hi. unfold removePercentageSlot.
    destruct (1 <? List.length l)%nat; auto.
    rewrite remove_index_spec, firstn_all2, skipn_all2 by lia.
    apply app_nil_r.
Qed.

Lemma X19_slots_never_run_out_witness :
  initial_percentages <> []
  /\ fold_left edit_slots
       [RemoveSlot 0; RemoveSlot 0; RemoveSlot 0; RemoveSlot 0]
       initial_percentages <> [].
Proof.
  assert (Hl : initial_percentages <> []) by discriminate.
  split; [exact Hl|].
  pose proof (X19_slots_never_run_out
                [RemoveSlot 0; RemoveSlot 0; RemoveSlot 0; RemoveSlot 0]
                initial_percentages Hl) as H.
  destruct H as [H _]. exact H.
Defined.

(** ** Listing and fetching rooms *)

Lemma get_in_keyed (m : JsMap.t QuizRoom) (r : QuizRoom) :
  NoDup (JsMap.keys m) ->
  Forall (fun kr => roomCode (snd kr) = fst kr) m ->
  In r (JsMap.values m) -> JsMap.get (roomCode r) m = Some r.
Proof.
  unfold JsMap.keys, JsMap.values.
  induction m as [|[k v] m IH]; simpl; [tauto|].
  intros Hnd Hall Hin. inversion Hnd as [|? ? Hk Hnd']; subst.
  inversion Hall as [|? ? Hkv Hall']; subst. simpl in Hkv.
  destruct Hin as [->|Hin].
  - now rewrite Hkv, String.eqb_refl.
  - destruct (String.eqb (roomCode r) k) eqn:E; [|auto].
    apply String.eqb_eq in E. elim Hk.
    apply in_map_iff in Hin as ([k' v'] & Hv & Hin). simpl in Hv. subst v'.
    apply in_map_iff. exists (k', r). split; [|exact Hin].
    rewrite Forall_forall in Hall'. specialize (Hall' _ Hin). simpl in *.
    congruence.
Qed.

Lemma keys_are_codes (m : JsMap.t QuizRoom) :
  Forall (fun kr => roomCode (snd kr) = fst kr) m ->
  map roomCode (JsMap.values m) = JsMap.keys m.
Proof.
  unfold JsMap.keys, JsMap.values.
  induction 1 as [|[k v] m Hk _ IH]; simpl; auto. simpl in Hk.
  now rewrite Hk, IH.
Qed.

(** X20.  The room list and the room lookup agree at every moment: the
    list shows each room code once, a summary is in the list exactly when
    fetching its code returns it (the two routes give the same values and
    name two of the fields differently, [title] / [quizTitle] and
    [status] / [gameState]), and no listed room shows more players than
    its capacity. *)
Theorem X20_list_and_lookup_agree (env : Env) (inputs : list Input) :
  let s := run env inputs initial_server in
  NoDup (map rs_roomCode (http_list_rooms s))
  /\ (forall summary,
        In summary (http_list_rooms s)
        <-> http_get_room (rs_roomCode summary) s = Some summary)
  /\ Forall (fun summary =>
               Z.of_nat (rs_currentPlayers summary)
               <= Z.max 0 (rs_maxPlayers summary))
       (http_list_rooms s).
Proof.
  cbv zeta. set (s := run env inputs initial_server).
  assert (Hw : well_keyed s) by apply reachable_well_keyed.
  assert (Hc : rooms_within_capacity s).
  { apply run_invariant.
    - intros i s0. apply step_within_capacity.
    - constructor. }
  unfold http_list_rooms, http_get_room. split; [|split].
  - rewrite map_map. simpl.
    change (map (fun x => roomCode x) (JsMap.values (quizRooms s)))
      with (map roomCode (JsMap.values (quizRooms s))).
    rewrite keys_are_codes by apply Hw. apply Hw.
  - intros summary. split.
    + intros Hin. apply in_map_iff in Hin as (r & <- & Hin). simpl.
      rewrite (well_keyed_find_get _ s Hw).
      rewrite get_in_keyed; auto; apply Hw.
    + destruct (find_room (rs_roomCode summary) s) as [r|] eqn:Hf;
        [|discriminate].
      intros [= <-]. apply in_map. now apply find_room_in in Hf.
  - apply Forall_map. eapply Forall_impl; [|exact Hc].
    intros r Hr. exact Hr.
Qed.

(** ** Room codes in use *)

(** X21.  Creating a room does not check whether its code is in use.  The
    new room is always stored: it is waiting, has no players and belongs
    to the caller.  When the code was taken, the room stored under it is
    replaced, players included, and the number of rooms stays the same;
    rooms with other codes are not affected. *)
Theorem X21_create_replaces_a_room_with_the_same_code
    (env : Env) (uuid code : string) (qd : QuizData) (host : string)
    (paymentCompleted : bool) (txDigest : option string) (s : Server) :
  well_keyed s ->
  let s' := fst (http_create_room env uuid code qd host paymentCompleted
                   txDigest s) in
  well_keyed s'
  /\ (exists room,
        find_room code s' = Some room
        /\ gameState room = waiting
        /\ players room = []
        /\ hostAddress room = host
        /\ room_id room = uuid)
  /\ JsMap.size (quizRooms s')
     = (if JsMap.has code (quizRooms s) then JsMap.size (quizRooms s)
        else S (JsMap.size (quizRooms s)))
  /\ (forall other, other <> code -> find_room other s' = find_room other s)
  /\ fx s' = fx s.
Proof.
  intros Hw. cbv zeta. unfold http_create_room. cbn [fst].
  match goal with
  | |- context [JsMap.set code ?r (quizRooms s)] => set (room := r)
  end.
  match goal with
  | |- well_keyed ?x /\ _ => set (s' := x)
  end.
  assert (Hw' : well_keyed s').
  { destruct Hw as [Hn Hk]. split; simpl.
    - now apply NoDup_keys_set.
    - apply Forall_set; auto. }
  split; [exact Hw'|]. split; [|split; [|split]].
  - exists room. rewrite (well_keyed_find_get _ _ Hw'). simpl.
    rewrite JsMapFacts.get_set_same. auto.
  - simpl. unfold JsMap.has.
    destruct (JsMap.get code (quizRooms s)) as [old|] eqn:Hg.
    + now apply JsMapFacts.size_set_present with (v0 := old).
    + now apply JsMapFacts.size_set_absent.
  - intros other Hne.
    rewrite (well_keyed_find_get _ _ Hw'), (well_keyed_find_get _ _ Hw). simpl.
    now apply JsMapFacts.get_set_other.
  - reflexivity.
Qed.

Lemma X21_create_replaces_a_room_with_the_same_code_witness :
  well_keyed Fixtures.lobby
  /\ JsMap.size (quizRooms
       (fst (http_create_room Fixtures.env "uuid-2" "ABC123"
               (Fixtures.quiz Fixtures.three_questions "top3" None 2)
               "0xother" false None Fixtures.lobby)))
     = 1%nat.
Proof.
  assert (Hw : well_keyed Fixtures.lobby) by apply reachable_well_keyed.
  split; [exact Hw|].
  pose proof (X21_create_replaces_a_room_with_the_same_code Fixtures.env
                "uuid-2" "ABC123"
                (Fixtures.quiz Fixtures.three_questions "top3" None 2)
                "0xother" false None Fixtures.lobby Hw) as H.
  destruct H as (_ & _ & H & _).
  assert (Hh : JsMap.has "ABC123" (quizRooms Fixtures.lobby) = true)
    by (vm_compute; reflexivity).
  assert (Hs : JsMap.size (quizRooms Fixtures.lobby) = 1%nat)
    by (vm_compute; reflexivity).
  rewrite Hh, Hs in H. exact H.
Defined.

(** ** A quiz left to its timer *)

Lemma ticks_add env a : forall b r f,
  ticks env (a + b) r f
  = let '(r1, f1) := ticks env a r f in ticks env b r1 f1.
Proof.
  induction a as [|a IH]; intros b r f; simpl; auto.
  destruct (timer_tick env r f) as [r1 f1]. apply IH.
Qed.

Lemma ticks_not_playing env j : forall r f,
  gameState r <> playing -> ticks env j r f = (r, f).
Proof.
  induction j as [|j IH]; intros r f Hg; simpl; auto.
  rewrite timer_tick_not_playing by exact Hg. now apply IH.
Qed.

Lemma ticks_countdown_ledger env j : forall r f,
  gameState r = playing -> timerInterval r = Some io_server ->
  Z.of_nat j < timeRemaining r ->
  ledgerLog (snd (ticks env j r f)) = ledgerLog f.
Proof.
  induction j as [|j IH]; intros r f Hg Ht Hr; auto.
  cbn [ticks]. rewrite timer_tick_counts by (auto; lia).
  rewrite IH; auto. simpl. lia.
Qed.

Lemma distributeSUIRewards_ledger env ri lb r f :
  exists calls,
    ledgerLog (snd (fst (distributeSUIRewards env ri lb r f)))
    = ledgerLog f ++ calls
    /\ (List.length calls <= 1)%nat
    /\ filter is_mint calls = [].
Proof.
  unfold distributeSUIRewards.
  destruct (map _ (winners_with_percentages ri lb)) as [|w ws].
  - exists []. simpl. rewrite app_nil_r. auto.
  - destruct (distributeRewardsToWinners env _ _); simpl;
      eexists; (split; [reflexivity|]); simpl; auto.
Qed.

Lemma dispatch_ledger env lb r f :
  let f' := snd (fst (distributeRewardsAndBadges env lb r f)) in
  List.length (filter is_mint (ledgerLog f'))
  = (List.length (filter is_mint (ledgerLog f)) + List.length lb)%nat
  /\ (List.length (filter is_distribution (ledgerLog f'))
      <= S (List.length (filter is_distribution (ledgerLog f))))%nat.
Proof.
  cbv zeta. unfold distributeRewardsAndBadges.
  assert (Hb : forall r1 f1 sui calls,
    ledgerLog f1 = ledgerLog f ++ calls ->
    (List.length calls <= 1)%nat -> filter is_mint calls = [] ->
    let f2 := snd (fst (let '(f2, bs) := award_badges env r1 0 lb f1 in
                        (r1, f2, {| suiRewards := sui; badges := bs |}))) in
    List.length (filter is_mint (ledgerLog f2))
    = (List.length (filter is_mint (ledgerLog f)) + List.length lb)%nat
    /\ (List.length (filter is_distribution (ledgerLog f2))
        <= S (List.length (filter is_distribution (ledgerLog f))))%nat).
  { intros r1 f1 sui calls Hl Hc Hm.
    destruct (award_badges_ledger env r1 0 lb f1) as (cs & H1 & H2 & H3).
    destruct (award_badges env r1 0 lb f1) as [f2 bs]. simpl in *.
    rewrite H1, Hl, !filter_app, !length_app, Hm, H2, H3. simpl.
    pose proof (filter_length_le is_distribution calls). lia. }
  destruct (rewardInfo (quizData r)) as [ri|].
  - destruct (JsNumber.gtb (suiAmount ri) (JsNumber.of_Z 0)).
    + destruct (distributeSUIRewards_ledger env ri lb r f) as (calls & H1 & H2 & H3).
      destruct (distributeSUIRewards env ri lb r f) as [[r1 f1] res].
      simpl in H1. now apply (Hb r1 f1 (Some res) calls).
    + apply (Hb r f None []); auto. now rewrite app_nil_r.
  - apply (Hb r f None []); auto. now rewrite app_nil_r.
Qed.

Lemma finishQuiz_ledger env r f :
  let f' := snd (finishQuiz env r f) in
  List.length (filter is_mint (ledgerLog f'))
  = (List.length (filter is_mint (ledgerLog f))
     + List.length (non_host_players r))%nat
  /\ (List.length (filter is_distribution (ledgerLog f'))
      <= S (List.length (filter is_distribution (ledgerLog f))))%nat.
Proof.
  cbv zeta. unfold finishQuiz.
  set (r1 := clearTimer _). set (f1 := emit _ _ f).
  pose proof (dispatch_ledger env (ranking r1) r1 f1) as H.
  destruct (distributeRewardsAndBadges env (ranking r1) r1 f1) as [[r2 f2] res].
  simpl in *.
  assert (Hl : List.length (ranking r1) = List.length (non_host_players r)).
  { rewrite (ranking_ext r r1) by reflexivity.
    apply Permutation_length, ranking_perm. }
  rewrite Hl in H. exact H.
Qed.

(** The ledger in the tick that takes the clock to 0. *)
Lemma timer_tick_expires_ledger env r f :
  gameState r = playing -> timerInterval r = Some io_server ->
  timeRemaining r = 1 ->
  let f' := snd (timer_tick env r f) in
  if (S (currentQuestion r) <? List.length (questions (quizData r)))%nat then
    ledgerLog f' = ledgerLog f
  else
    List.length (filter is_mint (ledgerLog f'))
    = (List.length (filter is_mint (ledgerLog f))
       + List.length (non_host_players r))%nat
    /\ (List.length (filter is_distribution (ledgerLog f'))
        <= S (List.length (filter is_distribution (ledgerLog f))))%nat.
Proof.
  intros Hg Ht Hr. cbv zeta.
  unfold timer_tick, timer_callback. rewrite Ht, Hg, Hr. simpl.
  unfold handleTimeUp. simpl.
  destruct (S (currentQuestion r) <? List.length (questions (quizData r)))%nat eqn:E.
  - apply Nat.ltb_lt in E.
    destruct (Z.of_nat (currentQuestion r)
              <? Z.of_nat (List.length (questions (quizData r))) - 1) eqn:Ez;
      [|apply Z.ltb_ge in Ez; lia].
    unfold nextQuestion. simpl.
    destruct (List.length (questions (quizData r)) <=? currentQuestion r + 1)%nat eqn:El;
      [apply Nat.leb_le in El; lia|].
    reflexivity.
  - apply Nat.ltb_ge in E.
    destruct (Z.of_nat (currentQuestion r)
              <? Z.of_nat (List.length (questions (quizData r))) - 1) eqn:Ez;
      [apply Z.ltb_lt in Ez; lia|].
    exact (finishQuiz_ledger env (set_timeRemaining 0 r)
             (emit (ToRoom (room_id r)) (TimerUpdate 0 (currentQuestion r)) f)).
Qed.

(** One whole question on the clock: [S k] ticks from [S k] seconds. *)
Lemma ticks_question env r f k :
  gameState r = playing -> timerInterval r = Some io_server ->
  timeRemaining r = Z.of_nat (S k) ->
  let r' := fst (ticks env (S k) r f) in
  let f' := snd (ticks env (S k) r f) in
  same_room r r'
  /\ if (S (currentQuestion r) <? List.length (questions (quizData r)))%nat then
       gameState r' = playing
       /\ currentQuestion r' = S (currentQuestion r)
       /\ timeRemaining r' = js_or (timePerQuestion (quizData r)) 30
       /\ timerInterval r' = Some io_server
       /\ ledgerLog f' = ledgerLog f
     else
       gameState r' = finished
       /\ currentQuestion r' = currentQuestion r
       /\ timeRemaining r' = 0
       /\ timerInterval r' = None
       /\ List.length (filter is_mint (ledgerLog f'))
          = (List.length (filter is_mint (ledgerLog f))
             + List.length (non_host_players r))%nat
       /\ (List.length (filter is_distribution (ledgerLog f'))
           <= S (List.length (filter is_distribution (ledgerLog f))))%nat.
Proof.
  intros Hg Ht Hr. cbv zeta. rewrite ticks_S.
  assert (Hlt : Z.of_nat k < timeRemaining r) by lia.
  pose proof (ticks_countdown env k r f Hg Ht Hlt) as H.
  pose proof (ticks_countdown_ledger env k r f Hg Ht Hlt) as Hl.
  destruct (ticks env k r f) as [r1 f1]. simpl in Hl.
  destruct H as (H1 & H2 & H3 & H4 & Hs & _).
  assert (H41 : timeRemaining r1 = 1) by lia.
  pose proof (timer_tick_expires env r1 f1 H1 H2 H41) as He.
  pose proof (timer_tick_expires_ledger env r1 f1 H1 H2 H41) as Hel.
  pose proof (timer_tick_same env r1 f1) as Hs'.
  destruct (timer_tick env r1 f1) as [r' f']. simpl in *.
  assert (Hnh : non_host_players r1 = non_host_players r).
  { unfold non_host_players. destruct Hs as (_ & _ & -> & ->). reflexivity. }
  destruct Hs as (Hs1 & Hs2 & Hs3 & Hs4).
  rewrite H3, Hs2, Hl, Hnh in *.
  split.
  - apply (same_room_trans _ r1); [now repeat split|exact Hs'].
  - destruct (S (currentQuestion r) <? List.length (questions (quizData r)))%nat;
      tauto.
Qed.

Lemma quiz_runs env T (HT : (0 < T)%nat) m : forall r f,
  gameState r = playing -> timerInterval r = Some io_server ->
  timeRemaining r = Z.of_nat T ->
  js_or (timePerQuestion (quizData r)) 30 = Z.of_nat T ->
  (currentQuestion r + S m)%nat = List.length (questions (quizData r)) ->
  (forall j, (j < S m * T)%nat ->
     let r' := fst (ticks env j r f) in
     gameState r' = playing
     /\ currentQuestion r' = (currentQuestion r + j / T)%nat
     /\ timeRemaining r' = Z.of_nat (T - j mod T)
     /\ ledgerLog (snd (ticks env j r f)) = ledgerLog f)
  /\ (let r' := fst (ticks env (S m * T) r f) in
      let f' := snd (ticks env (S m * T) r f) in
      gameState r' = finished
      /\ timerInterval r' = None
      /\ currentQuestion r' = (currentQuestion r + m)%nat
      /\ timeRemaining r' = 0
      /\ same_room r r'
      /\ List.length (filter is_mint (ledgerLog f'))
         = (List.length (filter is_mint (ledgerLog f))
            + List.length (non_host_players r))%nat
      /\ (List.length (filter is_distribution (ledgerLog f'))
          <= S (List.length (filter is_distribution (ledgerLog f))))%nat).
Proof.
  destruct T as [|k]; [lia|].
  induction m as [|m IH]; intros r f Hg Ht Hr Hq Hn; cbv zeta.
  - pose proof (ticks_question env r f k Hg Ht Hr) as Hk. cbv zeta in Hk.
    assert (E : (S (currentQuestion r) <? List.length (questions (quizData r)))%nat
                = false) by (apply Nat.ltb_ge; lia).
    rewrite E in Hk. split.
    + intros j Hj. assert (Hj' : (j < S k)%nat) by lia.
      assert (Hlt : Z.of_nat j < timeRemaining r) by lia.
      pose proof (ticks_countdown env j r f Hg Ht Hlt) as H.
      pose proof (ticks_countdown_ledger env j r f Hg Ht Hlt) as Hl.
      destruct (ticks env j r f) as [r' f']. cbn [fst snd] in *.
      destruct H as (H1 & _ & H3 & H4 & _).
      rewrite Nat.div_small, Nat.mod_small by lia.
      repeat split; auto; lia.
    + replace (1 * S k)%nat with (S k) by lia.
      destruct Hk as (Hs & H1 & H2 & H3 & H4 & H5 & H6).
      repeat split; auto; try apply Hs. lia.
  - pose proof (ticks_question env r f k Hg Ht Hr) as Hk. cbv zeta in Hk.
    assert (E : (S (currentQuestion r) <? List.length (questions (quizData r)))%nat
                = true) by (apply Nat.ltb_lt; lia).
    rewrite E in Hk. destruct Hk as (Hs & H1 & H2 & H3 & H4 & H5).
    destruct (ticks env (S k) r f) as [r1 f1] eqn:Et. cbn [fst snd] in *.
    assert (Hqd : quizData r1 = quizData r) by apply Hs.
    assert (Hnh : non_host_players r1 = non_host_players r).
    { unfold non_host_players. destruct Hs as (_ & _ & -> & ->). reflexivity. }
    assert (Hr1 : timeRemaining r1 = Z.of_nat (S k)) by congruence.
    assert (Hq1 : js_or (timePerQuestion (quizData r1)) 30 = Z.of_nat (S k))
      by (rewrite Hqd; exact Hq).
    assert (Hn1 : (currentQuestion r1 + S m)%nat
                  = List.length (questions (quizData r1)))
      by (rewrite Hqd, H2; lia).
    destruct (IH r1 f1 H1 H4 Hr1 Hq1 Hn1) as [IH1 IH2]. split.
    + intros j Hj. destruct (Nat.lt_ge_cases j (S k)) as [Hj'|Hj'].
      * assert (Hlt : Z.of_nat j < timeRemaining r) by lia.
        pose proof (ticks_countdown env j r f Hg Ht Hlt) as H.
        pose proof (ticks_countdown_ledger env j r f Hg Ht Hlt) as Hl.
        destruct (ticks env j r f) as [r' f']. cbn [fst snd] in *.
        destruct H as (G1 & _ & G3 & G4 & _).
        rewrite Nat.div_small, Nat.mod_small by lia.
        repeat split; auto; lia.
      * replace j with (S k + (j - S k))%nat by lia.
        rewrite ticks_add, Et.
        assert (Hj2 : (j - S k < S m * S k)%nat) by lia.
        specialize (IH1 (j - S k)%nat Hj2). cbv zeta in IH1.
        destruct IH1 as (G1 & G2 & G3 & G4).
        replace (S k + (j - S k))%nat with ((j - S k) + 1 * S k)%nat by lia.
        rewrite Nat.div_add, Nat.Div0.mod_add by lia.
        repeat split; auto; try lia. congruence.
    + replace (S (S m) * S k)%nat with (S k + S m * S k)%nat by lia.
      rewrite ticks_add, Et. cbv zeta in IH2.
      destruct IH2 as (G1 & G2 & G3 & G4 & G5 & G6 & G7).
      rewrite Hnh, H5 in *.
      repeat split; auto; try lia;
        try (apply (same_room_trans _ r1); [exact Hs|exact G5]).
Qed.

(** X22.  Left to its timer, a started quiz runs to the end on schedule.
    With n questions and T seconds per question ([timePerQuestion || 30],
    positive), the room is playing question j / T with T - j mod T seconds
    on the clock after j ticks, for every j below n * T, and the ledger is
    not touched; tick n * T finishes the quiz at the last question with
    the timer cancelled, the players kept, one mint request per non-host
    player and at most one reward distribution; later ticks change
    nothing. *)
Theorem X22_quiz_runs_on_schedule
    (env : Env) (r : QuizRoom) (f : Fx) (n T : nat) :
  List.length (questions (quizData r)) = n ->
  (0 < n)%nat ->
  js_or (timePerQuestion (quizData r)) 30 = Z.of_nat T ->
  (0 < T)%nat ->
  let r0 := startQuiz env io_server r in
  (forall j, (j < n * T)%nat ->
     let r' := fst (ticks env j r0 f) in
     gameState r' = playing
     /\ currentQuestion r' = (j / T)%nat
     /\ timeRemaining r' = Z.of_nat (T - j mod T)
     /\ ledgerLog (snd (ticks env j r0 f)) = ledgerLog f)
  /\ (forall j, (n * T <= j)%nat ->
     let r' := fst (ticks env j r0 f) in
     let f' := snd (ticks env j r0 f) in
     gameState r' = finished
     /\ timerInterval r' = None
     /\ currentQuestion r' = (n - 1)%nat
     /\ timeRemaining r' = 0
     /\ players r' = players r
     /\ List.length (filter is_mint (ledgerLog f'))
        = (List.length (filter is_mint (ledgerLog f))
           + List.length (non_host_players r))%nat
     /\ (List.length (filter is_distribution (ledgerLog f'))
         <= S (List.length (filter is_distribution (ledgerLog f))))%nat).
Proof.
  intros Hn Hpos Hq HT. cbv zeta.
  destruct n as [|m]; [lia|].
  set (r0 := startQuiz env io_server r).
  assert (Hg : gameState r0 = playing) by reflexivity.
  assert (Ht : timerInterval r0 = Some io_server) by reflexivity.
  assert (Hr : timeRemaining r0 = Z.of_nat T) by exact Hq.
  assert (Hq0 : js_or (timePerQuestion (quizData r0)) 30 = Z.of_nat T) by exact Hq.
  assert (Hn0 : (currentQuestion r0 + S m)%nat
                = List.length (questions (quizData r0))).
  { change (quizData r0) with (quizData r). rewrite Hn. reflexivity. }
  destruct (quiz_runs env T HT m r0 f Hg Ht Hr Hq0 Hn0) as [H1 H2].
  split.
  - intros j Hj. exact (H1 j Hj).
  - intros j Hj. cbv zeta in H2.
    replace j with (S m * T + (j - S m * T))%nat by lia.
    rewrite ticks_add.
    destruct (ticks env (S m * T) r0 f) as [r1 f1]. simpl in H2.
    destruct H2 as (G1 & G2 & G3 & G4 & G5 & G6 & G7).
    rewrite ticks_not_playing by (rewrite G1; discriminate). simpl.
    repeat split; auto.
    + rewrite G3. change (currentQuestion r0) with 0%nat. lia.
    + destruct G5 as (_ & _ & _ & ->). reflexivity.
Qed.

Lemma X22_quiz_runs_on_schedule_witness :
  let r := Fixtures.room_of "ABC123" Fixtures.lobby in
  (List.length (questions (quizData r)) = 3%nat
   /\ (0 < 3)%nat
   /\ js_or (timePerQuestion (quizData r)) 30 = Z.of_nat 30
   /\ (0 < 30)%nat)
  /\ gameState (fst (ticks Fixtures.env 90 (startQuiz Fixtures.env io_server r)
                       empty_fx)) = finished.
Proof.
  cbv zeta.
  assert (Hn : List.length (questions (quizData
                 (Fixtures.room_of "ABC123" Fixtures.lobby))) = 3%nat)
    by (vm_compute; reflexivity).
  assert (Hq : js_or (timePerQuestion (quizData
                 (Fixtures.room_of "ABC123" Fixtures.lobby))) 30 = Z.of_nat 30)
    by (vm_compute; reflexivity).
  assert (H3 : (0 < 3)%nat) by lia.
  assert (H2 : (0 < 30)%nat) by lia.
  split; [split; [exact Hn|split; [exact H3|split; [exact Hq|exact H2]]]|].
  pose proof (X22_quiz_runs_on_schedule Fixtures.env
                (Fixtures.room_of "ABC123" Fixtures.lobby) empty_fx 3 30
                Hn H3 Hq H2) as H.
  destruct H as [_ H]. specialize (H 90%nat (Nat.le_refl 90)).
  destruct H as [H _]. exact H.
Defined.

(** ** The quiz module on chain *)

Lemma total_of_sum amounts : forall acc total,
  MoveQuiz.total_of amounts acc = Some total -> total = acc + sum_Z amounts.
Proof.
  induction amounts as [|a t IH]; simpl; intros acc total H.
  - injection H as <-. unfold sum_Z. simpl. lia.
  - destruct (u64_max <? acc + a); [discriminate|].
    apply IH in H. unfold sum_Z in *. simpl. lia.
Qed.

Lemma sum_Z_nonneg l : Forall MoveQuiz.is_u64 l -> 0 <= sum_Z l.
Proof.
  unfold sum_Z, MoveQuiz.is_u64.
  induction 1 as [|a t Ha _ IH]; simpl; lia.
Qed.

Lemma total_of_fits amounts : forall acc,
  Forall MoveQuiz.is_u64 amounts -> 0 <= acc <= u64_max ->
  MoveQuiz.total_of amounts acc
  = if acc + sum_Z amounts <=? u64_max then Some (acc + sum_Z amounts)
    else None.
Proof.
  induction amounts as [|a t IH]; intros acc Hall Hacc.
  - unfold sum_Z. simpl. rewrite Z.add_0_r.
    destruct (acc <=? u64_max) eqn:E; auto. apply Z.leb_gt in E. lia.
  - inversion Hall as [|? ? Ha Ht]; subst. pose proof (sum_Z_nonneg t Ht) as Hs.
    unfold MoveQuiz.is_u64 in Ha.
    assert (Hsum : sum_Z (a :: t) = a + sum_Z t) by reflexivity.
    rewrite Hsum. simpl.
    destruct (u64_max <? acc + a) eqn:E.
    + apply Z.ltb_lt in E.
      destruct (acc + (a + sum_Z t) <=? u64_max) eqn:E2; auto.
      apply Z.leb_le in E2. lia.
    + apply Z.ltb_ge in E. rewrite IH by (auto; lia).
      now rewrite Z.add_assoc.
Qed.

(** X23.  On chain the rewards of a quiz are distributed at most once.
    A distribution goes through exactly when the sender is the quiz's
    creator, no distribution has gone through before, the payment was
    collected, there is one amount per winner and the amounts add up to no
    more than the reward pool.  It takes the total out of the pool and
    sets the flag; from then on every further distribution aborts (code 2,
    or code 1 for another sender). *)
Theorem X23_rewards_distributed_once_on_chain
    (quiz : MoveQuiz.QuizNFT) (winners : list string) (amounts : list Z)
    (ctx : TxContext) :
  Forall MoveQuiz.is_u64 amounts ->
  MoveQuiz.is_u64 (MoveQuiz.reward_pool_amount quiz) ->
  ((exists quiz1 events,
      MoveQuiz.distribute_rewards quiz winners amounts ctx
      = Executed (quiz1, events))
   <-> MoveQuiz.creator quiz = tx_sender ctx
       /\ MoveQuiz.is_rewards_distributed quiz = false
       /\ MoveQuiz.is_payment_collected quiz = true
       /\ List.length winners = List.length amounts
       /\ sum_Z amounts <= MoveQuiz.reward_pool_amount quiz)
  /\ (forall quiz1 events,
        MoveQuiz.distribute_rewards quiz winners amounts ctx
        = Executed (quiz1, events) ->
        MoveQuiz.reward_pool_amount quiz1
        = MoveQuiz.reward_pool_amount quiz - sum_Z amounts
        /\ MoveQuiz.is_rewards_distributed quiz1 = true
        /\ MoveQuiz.creator quiz1 = MoveQuiz.creator quiz
        /\ events = [MoveQuiz.RewardsDistributed (MoveQuiz.id quiz)
                       (sum_Z amounts) (Z.of_nat (List.length winners))
                       (epoch_timestamp_ms ctx)]
        /\ forall winners' amounts' ctx',
             MoveQuiz.distribute_rewards quiz1 winners' amounts' ctx'
             = AssertFailed
                 (if String.eqb (MoveQuiz.creator quiz) (tx_sender ctx')
                  then 2 else 1)).
Proof.
  intros Hall Hpool. unfold MoveQuiz.is_u64 in Hpool.
  pose proof (sum_Z_nonneg amounts Hall) as Hnn.
  pose proof (total_of_fits amounts 0 Hall) as Ht. rewrite Z.add_0_l in Ht.
  assert (H0 : 0 <= 0 <= u64_max) by (unfold u64_max; lia).
  specialize (Ht H0). unfold MoveQuiz.distribute_rewards.
  destruct (String.eqb (MoveQuiz.creator quiz) (tx_sender ctx)) eqn:Ec; simpl.
  2:{ apply String.eqb_neq in Ec. split.
      - split; [intros (q & e & H); discriminate|]. intros (H & _). contradiction.
      - discriminate. }
  apply String.eqb_eq in Ec.
  destruct (MoveQuiz.is_rewards_distributed quiz) eqn:Ed.
  { split.
    - split; [intros (q & e & H); discriminate|]. intros (_ & H & _). discriminate.
    - discriminate. }
  destruct (MoveQuiz.is_payment_collected quiz) eqn:Ep; simpl.
  2:{ split.
      - split; [intros (q & e & H); discriminate|].
        intros (_ & _ & H & _). discriminate.
      - discriminate. }
  destruct (List.length winners =? List.length amounts)%nat eqn:El; simpl.
  2:{ apply Nat.eqb_neq in El. split.
      - split; [intros (q & e & H); discriminate|].
        intros (_ & _ & _ & H & _). contradiction.
      - discriminate. }
  apply Nat.eqb_eq in El. rewrite Ht.
  destruct (sum_Z amounts <=? u64_max) eqn:Ef.
  2:{ apply Z.leb_gt in Ef. split.
      - split; [intros (q & e & H); discriminate|]. intros (_ & _ & _ & _ & H). lia.
      - discriminate. }
  destruct (MoveQuiz.reward_pool_amount quiz <? sum_Z amounts) eqn:E5.
  { apply Z.ltb_lt in E5. split.
    - split; [intros (q & e & H); discriminate|]. intros (_ & _ & _ & _ & H). lia.
    - discriminate. }
  apply Z.ltb_ge in E5. split.
  - split; [intros _; auto|]. intros _. eauto.
  - intros quiz1 events [= <- <-]. simpl. repeat split.
    intros winners' amounts' ctx'.
    destruct (String.eqb (MoveQuiz.creator quiz) (tx_sender ctx')); reflexivity.
Qed.

Lemma X23_rewards_distributed_once_on_chain_witness :
  (Forall MoveQuiz.is_u64 [50; 30; 20]
   /\ MoveQuiz.is_u64 (MoveQuiz.reward_pool_amount ChainFixtures.paid_quiz))
  /\ exists quiz1 events,
       MoveQuiz.distribute_rewards ChainFixtures.paid_quiz
         ["0xa"; "0xb"; "0xc"] [50; 30; 20] ChainFixtures.creator_ctx
       = Executed (quiz1, events).
Proof.
  assert (Ha : Forall MoveQuiz.is_u64 [50; 30; 20]).
  { repeat constructor; unfold u64_max; lia. }
  assert (Hp : MoveQuiz.is_u64 (MoveQuiz.reward_pool_amount ChainFixtures.paid_quiz)).
  { split; simpl; unfold u64_max; lia. }
  split; [split; [exact Ha|exact Hp]|].
  pose proof (X23_rewards_distributed_once_on_chain ChainFixtures.paid_quiz
                ["0xa"; "0xb"; "0xc"] [50; 30; 20] ChainFixtures.creator_ctx
                Ha Hp) as H.
  destruct H as [[_ H] _]. apply H.
  split; [reflexivity|split; [reflexivity|split; [reflexivity|
    split; [reflexivity|vm_compute; discriminate]]]].
Defined.

Lemma paid_out_app e1 e2 :
  MoveQuiz.paid_out (e1 ++ e2) = MoveQuiz.paid_out e1 + MoveQuiz.paid_out e2.
Proof.
  unfold MoveQuiz.paid_out. induction e1 as [|e t IH]; simpl; [lia|].
  rewrite IH. lia.
Qed.

Lemma quiz_call_conserves tx quiz quiz1 events :
  MoveQuiz.well_typed tx ->
  0 <= MoveQuiz.reward_pool_amount quiz ->
  MoveQuiz.call tx quiz = Executed (quiz1, events) ->
  0 <= MoveQuiz.reward_pool_amount quiz1 <= MoveQuiz.reward_pool_amount quiz
  /\ MoveQuiz.paid_out events + MoveQuiz.reward_pool_amount quiz1
     = MoveQuiz.reward_pool_amount quiz
  /\ MoveQuiz.creator quiz1 = MoveQuiz.creator quiz
  /\ (MoveQuiz.is_rewards_distributed quiz = true ->
      MoveQuiz.is_rewards_distributed quiz1 = true).
Proof.
  intros Hty Hpool. destruct tx as [winners amounts ctx|ctx]; simpl in *.
  - unfold MoveQuiz.distribute_rewards.
    destruct (negb _); [discriminate|].
    destruct (MoveQuiz.is_rewards_distributed quiz); [discriminate|].
    destruct (negb _); [discriminate|].
    destruct (negb _); [discriminate|].
    destruct (MoveQuiz.total_of amounts 0) as [total|] eqn:Et; [|discriminate].
    apply total_of_sum in Et. pose proof (sum_Z_nonneg amounts Hty) as Hnn.
    destruct (_ <? total) eqn:E5; [discriminate|]. apply Z.ltb_ge in E5.
    intros [= <- <-]. unfold MoveQuiz.paid_out. simpl. repeat split; auto; lia.
  - unfold MoveQuiz.refund_remaining_rewards.
    destruct (negb _); [discriminate|].
    destruct (negb _); [discriminate|].
    destruct (0 <? MoveQuiz.reward_pool_amount quiz) eqn:E0.
    + intros [= <- <-]. unfold MoveQuiz.paid_out. simpl. repeat split; auto; lia.
    + intros [= <- <-]. unfold MoveQuiz.paid_out. simpl. repeat split; auto; lia.
Qed.

(** X24.  The reward pool of a quiz is conserved on chain.  A quiz is
    created with a pool equal to the payment, which must cover the
    announced reward; whatever distributions and refunds are attempted
    afterwards, by whomever, the amounts announced as paid out and the
    pool that remains add up to the payment, the pool never goes below
    zero, and the creator stays the same. *)
Theorem X24_reward_pool_is_conserved
    (title description : string) (qs : list MoveQuiz.Question)
    (time_per_question : Z) (media_id : string)
    (reward_type : MoveQuiz.RewardType) (sui_reward_amount : Z)
    (reward_distribution : MoveQuiz.RewardDistribution)
    (manual_percentages : list Z) (payment : Z) (ctx : TxContext)
    (quiz : MoveQuiz.QuizNFT) (events : list MoveQuiz.Event)
    (txs : list MoveQuiz.Tx) :
  0 <= payment ->
  Forall MoveQuiz.well_typed txs ->
  MoveQuiz.create_quiz title description qs time_per_question media_id
    reward_type sui_reward_amount reward_distribution manual_percentages
    payment ctx = Executed (quiz, events) ->
  let '(quiz', events') := MoveQuiz.execute txs (quiz, events) in
  sui_reward_amount <= payment
  /\ MoveQuiz.paid_out events' + MoveQuiz.reward_pool_amount quiz' = payment
  /\ 0 <= MoveQuiz.reward_pool_amount quiz' <= payment
  /\ MoveQuiz.creator quiz' = tx_sender ctx.
Proof.
  intros Hpay Htxs Hc. unfold MoveQuiz.create_quiz in Hc.
  destruct (payment <? sui_reward_amount) eqn:E; [discriminate|].
  apply Z.ltb_ge in E. injection Hc as <- <-.
  match goal with
  | |- context [MoveQuiz.execute txs (?q, ?e)] => set (q0 := q); set (e0 := e)
  end.
  assert (Hinv : forall st,
    (MoveQuiz.paid_out (snd st) + MoveQuiz.reward_pool_amount (fst st) = payment
     /\ 0 <= MoveQuiz.reward_pool_amount (fst st) <= payment
     /\ MoveQuiz.creator (fst st) = tx_sender ctx) ->
    let st' := MoveQuiz.execute txs st in
    MoveQuiz.paid_out (snd st') + MoveQuiz.reward_pool_amount (fst st') = payment
    /\ 0 <= MoveQuiz.reward_pool_amount (fst st') <= payment
    /\ MoveQuiz.creator (fst st') = tx_sender ctx).
  { clear q0 e0. unfold MoveQuiz.execute.
    induction Htxs as [|tx rest Hty _ IH]; intros st Hst; simpl; auto.
    apply IH. unfold MoveQuiz.apply.
    destruct (MoveQuiz.call tx (fst st)) as [[q1 ev]| |] eqn:Ecall; auto.
    destruct Hst as (H1 & H2 & H3).
    destruct (quiz_call_conserves tx (fst st) q1 ev Hty (proj1 H2) Ecall)
      as (G1 & G2 & G3 & _).
    simpl. rewrite paid_out_app. repeat split; try lia. congruence. }
  specialize (Hinv (q0, e0)). cbv zeta in Hinv.
  destruct (MoveQuiz.execute txs (q0, e0)) as [quiz' events']. simpl in Hinv.
  split; [exact E|]. apply Hinv. unfold MoveQuiz.paid_out. simpl.
  repeat split; lia.
Qed.

Lemma X24_reward_pool_is_conserved_witness :
  let txs :=
    [MoveQuiz.Distribute ["0xa"; "0xb"] [50; 30] ChainFixtures.creator_ctx;
     MoveQuiz.Distribute ["0xa"] [20] ChainFixtures.creator_ctx;
     MoveQuiz.Refund ChainFixtures.creator_ctx] in
  Forall MoveQuiz.well_typed txs
  /\ exists quiz events,
       MoveQuiz.create_quiz "Quiz" "A quiz" [] 30 ""
         {| MoveQuiz.reward_type_code := 1 |} 100
         {| MoveQuiz.distribution_type := 0; MoveQuiz.percentages := [] |}
         [] 100 ChainFixtures.creator_ctx = Executed (quiz, events)
       /\ MoveQuiz.paid_out (snd (MoveQuiz.execute txs (quiz, events)))
          + MoveQuiz.reward_pool_amount
              (fst (MoveQuiz.execute txs (quiz, events)))
          = 100.
Proof.
  cbv zeta.
  assert (Ht : Forall MoveQuiz.well_typed
                 [MoveQuiz.Distribute ["0xa"; "0xb"] [50; 30]
                    ChainFixtures.creator_ctx;
                  MoveQuiz.Distribute ["0xa"] [20] ChainFixtures.creator_ctx;
                  MoveQuiz.Refund ChainFixtures.creator_ctx]).
  { repeat constructor; unfold u64_max; lia. }
  split; [exact Ht|].
  assert (Hp : 0 <= 100) by lia.
  do 2 eexists. split; [reflexivity|].
  match goal with
  | |- context [MoveQuiz.execute ?txs (?q, ?e)] =>
      pose proof (X24_reward_pool_is_conserved "Quiz" "A quiz" [] 30 ""
                    {| MoveQuiz.reward_type_code := 1 |} 100
                    {| MoveQuiz.distribution_type := 0;
                       MoveQuiz.percentages := [] |}
                    [] 100 ChainFixtures.creator_ctx q e txs Hp Ht eq_refl) as H
  end.
  destruct (MoveQuiz.execute _ _) as [quiz' events'].
  destruct H as (_ & H & _). exact H.
Defined.

Lemma score_answers_sums qs : forall answers sc total sc' total',
  Forall (fun q => MoveQuiz.is_u64 (MoveQuiz.points q)) qs ->
  MoveQuiz.score_answers qs answers sc total = Executed (sc', total') ->
  let answered := combine qs answers in
  total' = total + sum_Z (map (fun qa => MoveQuiz.points (fst qa)) answered)
  /\ sc' = sc + sum_Z (map (fun qa => MoveQuiz.points (fst qa))
                         (filter (fun qa =>
                                    (snd qa =? 0)
                                    && negb (List.length
                                               (MoveQuiz.options (fst qa)) =? 0)%nat)
                            answered))
  /\ (total <= u64_max -> total' <= u64_max)
  /\ sc' - sc <= total' - total
  /\ sc <= sc'.
Proof.
  induction qs as [|q qs IH]; intros answers sc total sc' total' Hall H;
    cbv zeta.
  - simpl in H. injection H as <- <-. unfold sum_Z. simpl. lia.
  - destruct answers as [|a answers].
    + simpl in H. injection H as <- <-. unfold sum_Z. simpl. lia.
    + inversion Hall as [|? ? Hq Hqs]; subst. unfold MoveQuiz.is_u64 in Hq.
      cbn [MoveQuiz.score_answers] in H.
      destruct (u64_max <? total + MoveQuiz.points q) eqn:E1; [discriminate|].
      apply Z.ltb_ge in E1.
      destruct (255 <? _) eqn:E2; [discriminate|].
      cbn [combine map filter fst snd].
      assert (Hc : (a <? Z.of_nat (List.length (MoveQuiz.options q))) && (a =? 0)
                   = (a =? 0) && negb (List.length (MoveQuiz.options q) =? 0)%nat).
      { destruct (a =? 0) eqn:Ea.
        - apply Z.eqb_eq in Ea. subst a. rewrite andb_true_r. simpl.
          destruct (MoveQuiz.options q); reflexivity.
        - now rewrite andb_false_r. }
      rewrite Hc in H.
      destruct ((a =? 0) && _) eqn:Ecorrect.
      * destruct (u64_max <? sc + MoveQuiz.points q); [discriminate|].
        apply IH in H; auto. cbv zeta in H.
        destruct H as (H1 & H2 & H3 & H4 & H5).
        cbn [map fst]. unfold sum_Z in *. simpl. repeat split; lia.
      * apply IH in H; auto. cbv zeta in H.
        destruct H as (H1 & H2 & H3 & H4 & H5).
        unfold sum_Z in *. simpl. repeat split; lia.
Qed.

(** X25.  Scoring on chain looks at the answer index only.  When
    [submit_quiz_answers] goes through, the total is the sum of the points
    of the questions that have an answer (as many as there are answers,
    at most all), and the score is the sum of the points of those among
    them that were answered with option 0; the stored hash of the correct
    answer is not consulted.  The score never exceeds the total. *)
Theorem X25_option_zero_scores_on_chain
    (quiz : MoveQuiz.QuizNFT) (answers : list Z) (ctx : TxContext)
    (events : list MoveQuiz.Event) :
  Forall (fun q => MoveQuiz.is_u64 (MoveQuiz.points q)) (MoveQuiz.questions quiz) ->
  MoveQuiz.submit_quiz_answers quiz answers ctx = Executed events ->
  let answered := combine (MoveQuiz.questions quiz) answers in
  let total := sum_Z (map (fun qa => MoveQuiz.points (fst qa)) answered) in
  let sc :=
    sum_Z (map (fun qa => MoveQuiz.points (fst qa))
             (filter (fun qa =>
                        (snd qa =? 0)
                        && negb (List.length (MoveQuiz.options (fst qa)) =? 0)%nat)
                answered)) in
  events = [MoveQuiz.QuizCompleted (MoveQuiz.id quiz) (tx_sender ctx) sc total
              (epoch_timestamp_ms ctx)]
  /\ 0 <= sc <= total
  /\ total <= u64_max.
Proof.
  intros Hall H. cbv zeta. unfold MoveQuiz.submit_quiz_answers in H.
  destruct (MoveQuiz.score_answers (MoveQuiz.questions quiz) answers 0 0)
    as [[sc' total']| |] eqn:E; try discriminate.
  injection H as <-.
  apply score_answers_sums in E; auto. cbv zeta in E.
  destruct E as (H1 & H2 & H3 & H4 & H5).
  rewrite Z.add_0_l in H1, H2. subst sc' total'.
  assert (0 <= u64_max) by (unfold u64_max; lia).
  repeat split; auto; lia.
Qed.

Lemma X25_option_zero_scores_on_chain_witness :
  (Forall (fun q => MoveQuiz.is_u64 (MoveQuiz.points q))
     (MoveQuiz.questions ChainFixtures.paid_quiz)
   /\ MoveQuiz.submit_quiz_answers ChainFixtures.paid_quiz [0; 3]
        ChainFixtures.alice_ctx
      = Executed [MoveQuiz.QuizCompleted "0xq1" "0xa" 10 15 2000])
  /\ sum_Z (map (fun qa => MoveQuiz.points (fst qa))
              (combine (MoveQuiz.questions ChainFixtures.paid_quiz) [0; 3]))
     <= u64_max.
Proof.
  assert (Hq : Forall (fun q => MoveQuiz.is_u64 (MoveQuiz.points q))
                 (MoveQuiz.questions ChainFixtures.paid_quiz)).
  { repeat constructor; simpl; unfold u64_max; lia. }
  assert (He : MoveQuiz.submit_quiz_answers ChainFixtures.paid_quiz [0; 3]
                 ChainFixtures.alice_ctx
               = Executed [MoveQuiz.QuizCompleted "0xq1" "0xa" 10 15 2000])
    by (vm_compute; reflexivity).
  split; [split; [exact Hq|exact He]|].
  pose proof (X25_option_zero_scores_on_chain ChainFixtures.paid_quiz [0; 3]
                ChainFixtures.alice_ctx _ Hq He) as H.
  cbv zeta in H. destruct H as (_ & _ & H). exact H.
Defined.

(** ** The quiz room module on chain *)

Lemma existsb_is_sender ctx ps :
  existsb (MoveQuizRoom.is_sender ctx) ps = true
  <-> In (tx_sender ctx) (map MoveQuizRoom.address ps).
Proof.
  rewrite existsb_exists, in_map_iff. unfold MoveQuizRoom.is_sender.
  split; intros (p & H1 & H2); exists p.
  - apply String.eqb_eq in H2. auto.
  - split; [exact H2|]. now apply String.eqb_eq.
Qed.

Lemma remove_sender_spec ctx ps rest :
  MoveQuizRoom.remove_sender ctx ps = Some rest ->
  exists before p after,
    ps = before ++ p :: after /\ rest = before ++ after
    /\ MoveQuizRoom.address p = tx_sender ctx
    /\ ~ In (tx_sender ctx) (map MoveQuizRoom.address before).
Proof.
  revert rest. induction ps as [|p t IH]; simpl; intros rest H; [discriminate|].
  unfold MoveQuizRoom.is_sender in H at 1.
  destruct (String.eqb (MoveQuizRoom.address p) (tx_sender ctx)) eqn:E.
  - injection H as <-. apply String.eqb_eq in E.
    exists [], p, t. simpl. auto.
  - apply String.eqb_neq in E.
    destruct (MoveQuizRoom.remove_sender ctx t) as [r|]; [|discriminate].
    injection H as <-. destruct (IH r eq_refl) as (b & q & a & -> & -> & Hq & Hn).
    exists (p :: b), q, a. simpl. repeat split; auto.
    intros [H|H]; [congruence|contradiction].
Qed.

Lemma remove_sender_none ctx ps :
  MoveQuizRoom.remove_sender ctx ps = None
  <-> ~ In (tx_sender ctx) (map MoveQuizRoom.address ps).
Proof.
  rewrite <- existsb_is_sender.
  induction ps as [|p t IH]; simpl.
  - split; [discriminate|reflexivity].
  - destruct (MoveQuizRoom.is_sender ctx p); simpl.
    + split; [discriminate|]. intros H. now elim H.
    + destruct (MoveQuizRoom.remove_sender ctx t); simpl.
      * split; [discriminate|]. intros H. apply IH in H. discriminate.
      * split; [|reflexivity]. intros _. now apply IH.
Qed.

Lemma record_answer_spec ctx answer ps ps' :
  MoveQuizRoom.record_answer ctx answer ps = Some ps' ->
  exists before p after,
    ps = before ++ p :: after
    /\ ps' = before ++ MoveQuizRoom.push_answer answer p :: after
    /\ MoveQuizRoom.address p = tx_sender ctx
    /\ ~ In (tx_sender ctx) (map MoveQuizRoom.address before).
Proof.
  revert ps'. induction ps as [|p t IH]; simpl; intros ps' H; [discriminate|].
  unfold MoveQuizRoom.is_sender in H at 1.
  destruct (String.eqb (MoveQuizRoom.address p) (tx_sender ctx)) eqn:E.
  - injection H as <-. apply String.eqb_eq in E.
    exists [], p, t. simpl. auto.
  - apply String.eqb_neq in E.
    destruct (MoveQuizRoom.record_answer ctx answer t) as [r|]; [|discriminate].
    injection H as <-. destruct (IH r eq_refl) as (b & q & a & -> & -> & Hq & Hn).
    exists (p :: b), q, a. simpl. repeat split; auto.
    intros [H|H]; [congruence|contradiction].
Qed.

Lemma record_answer_none ctx answer ps :
  MoveQuizRoom.record_answer ctx answer ps = None
  <-> ~ In (tx_sender ctx) (map MoveQuizRoom.address ps).
Proof.
  rewrite <- existsb_is_sender.
  induction ps as [|p t IH]; simpl.
  - split; [discriminate|reflexivity].
  - destruct (MoveQuizRoom.is_sender ctx p); simpl.
    + split; [discriminate|]. intros H. now elim H.
    + destruct (MoveQuizRoom.record_answer ctx answer t); simpl.
      * split; [discriminate|]. intros H. apply IH in H. discriminate.
      * split; [|reflexivity]. intros _. now apply IH.
Qed.

Lemma finish_quiz_room room ctx :
  let room1 := fst (MoveQuizRoom.finish_quiz room ctx) in
  MoveQuizRoom.players room1 = MoveQuizRoom.players room
  /\ MoveQuizRoom.current_players room1 = MoveQuizRoom.current_players room
  /\ MoveQuizRoom.max_players room1 = MoveQuizRoom.max_players room
  /\ MoveQuizRoom.host room1 = MoveQuizRoom.host room
  /\ MoveQuizRoom.current_question room1 = MoveQuizRoom.current_question room
  /\ MoveQuizRoom.status (MoveQuizRoom.game_state room1) = 2.
Proof.
  cbv zeta. unfold MoveQuizRoom.finish_quiz.
  destruct (MoveQuizRoom.number_positions _); simpl; auto 7.
Qed.

Lemma room_call_consistent tx room room1 events :
  MoveQuizRoom.consistent room ->
  MoveQuizRoom.call tx room = Executed (room1, events) ->
  MoveQuizRoom.consistent room1
  /\ MoveQuizRoom.host room1 = MoveQuizRoom.host room
  /\ MoveQuizRoom.max_players room1 = MoveQuizRoom.max_players room
  /\ MoveQuizRoom.status (MoveQuizRoom.game_state room)
     <= MoveQuizRoom.status (MoveQuizRoom.game_state room1).
Proof.
  intros (Hn & Hd & Hm & Hs & Hst & Hlb).
  destruct tx as [nick ctx|ctx|ctx|qi answer ctx|ctx|ctx]; simpl.
  - (* join *)
    unfold MoveQuizRoom.join_quiz_room.
    destruct (_ <? MoveQuizRoom.max_players room) eqn:E0; [|discriminate].
    apply Z.ltb_lt in E0. simpl.
    destruct (_ =? 0) eqn:E1; [|discriminate]. apply Z.eqb_eq in E1. simpl.
    destruct (existsb _ _) eqn:E2; [discriminate|].
    destruct (u64_max <? _); [discriminate|].
    intros [= <- <-]. unfold MoveQuizRoom.consistent. simpl.
    assert (Hnew : ~ In (tx_sender ctx)
                     (map MoveQuizRoom.address (MoveQuizRoom.players room))).
    { intros H. apply existsb_is_sender in H. congruence. }
    repeat split; auto; try lia.
    + rewrite length_app. simpl. lia.
    + rewrite map_app. simpl.
      apply NoDup_app; [exact Hd|repeat constructor; intros []|].
      intros a Ha [<-|[]]. contradiction.
    + apply Forall_app. split; auto.
  - (* leave *)
    unfold MoveQuizRoom.leave_quiz_room.
    destruct (MoveQuizRoom.remove_sender ctx _) as [rest|] eqn:Er; [|discriminate].
    destruct (_ <? 1) eqn:E1; [discriminate|]. apply Z.ltb_ge in E1.
    intros [= <- <-]. unfold MoveQuizRoom.consistent. simpl.
    apply remove_sender_spec in Er as (b & p & a & Hps & -> & _).
    rewrite Hps in *. rewrite length_app in Hn. simpl in Hn.
    rewrite map_app in Hd. simpl in Hd. apply NoDup_remove_1 in Hd.
    apply Forall_app in Hs as [Hs1 Hs2]. inversion Hs2; subst.
    repeat split; auto; try lia.
    + rewrite length_app. lia.
    + now rewrite map_app.
    + apply Forall_app. auto.
  - (* start *)
    unfold MoveQuizRoom.start_quiz.
    destruct (negb _); [discriminate|].
    destruct (negb _); [discriminate|].
    destruct (_ =? 0) eqn:E1; [|discriminate]. apply Z.eqb_eq in E1. simpl.
    intros [= <- <-]. unfold MoveQuizRoom.consistent. simpl.
    repeat split; auto; try lia; try (intros; apply Hlb; lia).
  - (* submit *)
    unfold MoveQuizRoom.submit_answer.
    destruct (negb _); [discriminate|].
    destruct (negb _); [discriminate|].
    destruct (MoveQuizRoom.record_answer ctx answer _) as [ps|] eqn:Er;
      [|discriminate].
    intros [= <- <-]. unfold MoveQuizRoom.consistent. simpl.
    apply record_answer_spec in Er as (b & p & a & Hps & -> & _).
    rewrite Hps in *. rewrite length_app in *. rewrite map_app in *. simpl in *.
    apply Forall_app in Hs as [Hs1 Hs2]. inversion Hs2; subst.
    repeat split; auto; try lia.
    apply Forall_app. split; auto.
  - (* next *)
    unfold MoveQuizRoom.next_question.
    destruct (negb _); [discriminate|].
    destruct (_ =? 1) eqn:E1; [|discriminate]. apply Z.eqb_eq in E1. simpl.
    destruct (u64_max <? _); [discriminate|].
    match goal with
    | |- context [MoveQuizRoom.finish_quiz ?r ctx] => set (r1 := r)
    end.
    destruct (_ <=? _).
    + pose proof (finish_quiz_room r1 ctx) as (F1 & F2 & F3 & F4 & F5 & F6).
      destruct (MoveQuizRoom.finish_quiz r1 ctx) as [r2 ev].
      intros [= <- <-]. simpl in *.
      unfold MoveQuizRoom.consistent. rewrite F1, F2, F3, F4, F6.
      repeat split; auto; try lia; try (intros H; now elim H).
    + intros [= <- <-]. unfold MoveQuizRoom.consistent. simpl.
      repeat split; auto; try lia; try (intros; apply Hlb; lia).
  - (* finish *)
    pose proof (finish_quiz_room room ctx) as (F1 & F2 & F3 & F4 & F5 & F6).
    destruct (MoveQuizRoom.finish_quiz room ctx) as [r2 ev].
    intros [= <- <-]. simpl in *.
    unfold MoveQuizRoom.consistent. rewrite F1, F2, F3, F4, F6.
    repeat split; auto; try lia; try (intros H; now elim H).
Qed.

Lemma room_apply_consistent st tx :
  MoveQuizRoom.consistent (fst st) ->
  MoveQuizRoom.consistent (fst (MoveQuizRoom.apply st tx))
  /\ MoveQuizRoom.host (fst (MoveQuizRoom.apply st tx))
     = MoveQuizRoom.host (fst st)
  /\ MoveQuizRoom.max_players (fst (MoveQuizRoom.apply st tx))
     = MoveQuizRoom.max_players (fst st)
  /\ MoveQuizRoom.status (MoveQuizRoom.game_state (fst st))
     <= MoveQuizRoom.status
          (MoveQuizRoom.game_state (fst (MoveQuizRoom.apply st tx))).
Proof.
  intros Hst. unfold MoveQuizRoom.apply.
  destruct (MoveQuizRoom.call tx (fst st)) as [[r1 ev]| |] eqn:Ecall;
    try (split; [exact Hst|split; [reflexivity|split; [reflexivity|lia]]]).
  exact (room_call_consistent tx (fst st) r1 ev Hst Ecall).
Qed.

Lemma room_execute_consistent l : forall st,
  MoveQuizRoom.consistent (fst st) ->
  MoveQuizRoom.consistent (fst (MoveQuizRoom.execute l st))
  /\ MoveQuizRoom.host (fst (MoveQuizRoom.execute l st))
     = MoveQuizRoom.host (fst st)
  /\ MoveQuizRoom.max_players (fst (MoveQuizRoom.execute l st))
     = MoveQuizRoom.max_players (fst st)
  /\ MoveQuizRoom.status (MoveQuizRoom.game_state (fst st))
     <= MoveQuizRoom.status
          (MoveQuizRoom.game_state (fst (MoveQuizRoom.execute l st))).
Proof.
  unfold MoveQuizRoom.execute.
  induction l as [|tx rest IH]; intros st Hst; simpl.
  - split; [exact Hst|split; [reflexivity|split; [reflexivity|lia]]].
  - destruct (room_apply_consistent st tx Hst) as (G1 & G2 & G3 & G4).
    destruct (IH (MoveQuizRoom.apply st tx) G1) as (I1 & I2 & I3 & I4).
    split; [exact I1|split; [congruence|split; [congruence|lia]]].
Qed.

Lemma created_room_consistent q capacity ctx :
  MoveQuizRoom.consistent (fst (MoveQuizRoom.create_quiz_room q capacity ctx)).
Proof.
  unfold MoveQuizRoom.consistent. simpl.
  split; [reflexivity|split; [constructor|split; [lia|split; [constructor|
    split; [auto|reflexivity]]]]].
Qed.

(** X26.  A room on chain stays consistent whatever transactions are sent
    to it, by whomever: the player counter is the number of players, no
    address is in the room twice, the counter never exceeds the capacity,
    and every player's score is 0, because no entry function ever changes
    a score.  The status only moves forward (waiting, in progress,
    finished), host and capacity never change, and the leaderboard stays
    empty until the room is finished. *)
Theorem X26_room_on_chain_stays_consistent
    (q : MoveQuiz.QuizNFT) (capacity : Z) (ctx : TxContext)
    (txs more : list MoveQuizRoom.Tx) :
  let created := MoveQuizRoom.create_quiz_room q capacity ctx in
  let room := fst (MoveQuizRoom.execute txs created) in
  let later := fst (MoveQuizRoom.execute (txs ++ more) created) in
  MoveQuizRoom.consistent room
  /\ MoveQuizRoom.host room = tx_sender ctx
  /\ MoveQuizRoom.max_players room = capacity
  /\ MoveQuizRoom.status (MoveQuizRoom.game_state room)
     <= MoveQuizRoom.status (MoveQuizRoom.game_state later).
Proof.
  cbv zeta.
  set (created := MoveQuizRoom.create_quiz_room q capacity ctx).
  pose proof (created_room_consistent q capacity ctx) as H0.
  fold created in H0.
  destruct (room_execute_consistent txs created H0) as (A1 & A2 & A3 & _).
  split; [exact A1|split; [exact A2|split; [exact A3|]]].
  unfold MoveQuizRoom.execute. rewrite fold_left_app.
  fold (MoveQuizRoom.execute txs created).
  fold (MoveQuizRoom.execute more (MoveQuizRoom.execute txs created)).
  apply (room_execute_consistent more (MoveQuizRoom.execute txs created) A1).
Qed.

(** ** The sorting loops of [finish_quiz] *)

Lemma sort_step_cons j k x l :
  MoveQuizRoom.sort_step (S j) (S k) (x :: l)
  = x :: MoveQuizRoom.sort_step j k l.
Proof.
  unfold MoveQuizRoom.sort_step. simpl.
  destruct (nth_error l j) as [ej|]; auto.
  destruct (nth_error l k) as [ek|]; auto.
  destruct (_ <? _); reflexivity.
Qed.

Lemma sort_steps_cons j ks : forall x l,
  fold_left (fun l k => MoveQuizRoom.sort_step (S j) k l) (map S ks) (x :: l)
  = x :: fold_left (fun l k => MoveQuizRoom.sort_step j k l) ks l.
Proof.
  induction ks as [|k ks IH]; intros x l; simpl; auto.
  rewrite sort_step_cons. apply IH.
Qed.

Lemma remove_index_middle {A : Type} (p : list A) y t :
  remove_index (List.length p) (p ++ y :: t) = p ++ t.
Proof. induction p as [|x p IH]; simpl; auto. now rewrite IH. Qed.

Lemma nth_error_middle {A : Type} (p : list A) y t :
  nth_error (p ++ y :: t) (List.length p) = Some y.
Proof. induction p as [|x p IH]; simpl; auto. Qed.

Lemma sort_step_head h passed y t :
  MoveQuizRoom.sort_step 0 (S (List.length passed)) (h :: passed ++ y :: t)
  = if MoveQuizRoom.entry_score h <? MoveQuizRoom.entry_score y
    then y :: h :: passed ++ t
    else h :: passed ++ y :: t.
Proof.
  unfold MoveQuizRoom.sort_step. simpl. rewrite nth_error_middle.
  destruct (_ <? _); auto. now rewrite remove_index_middle.
Qed.

Lemma sort_inner_head rest : forall h passed,
  fold_left (fun l k => MoveQuizRoom.sort_step 0 k l)
    (seq (S (List.length passed)) (List.length rest)) (h :: passed ++ rest)
  = MoveQuizRoom.select h passed rest.
Proof.
  induction rest as [|y t IH]; intros h passed; simpl.
  - now rewrite app_nil_r.
  - rewrite sort_step_head. destruct (_ <? _).
    + apply (IH y (h :: passed)).
    + specialize (IH h (passed ++ [y])).
      rewrite length_app, Nat.add_1_r, <- app_assoc in IH. exact IH.
Qed.

Lemma sort_inner_at pre : forall h rest,
  MoveQuizRoom.sort_inner (pre ++ h :: rest) (List.length pre)
  = pre ++ MoveQuizRoom.select h [] rest.
Proof.
  unfold MoveQuizRoom.sort_inner. intros h rest.
  replace (List.length (pre ++ h :: rest) - (List.length pre + 1))%nat
    with (List.length rest) by (rewrite length_app; simpl; lia).
  induction pre as [|x pre IH].
  - simpl. apply (sort_inner_head rest h []).
  - simpl. rewrite <- seq_shift, sort_steps_cons. now rewrite IH.
Qed.

Lemma select_length rest : forall h passed,
  List.length (MoveQuizRoom.select h passed rest)
  = S (List.length passed + List.length rest).
Proof.
  induction rest as [|y t IH]; intros h passed; simpl.
  - lia.
  - destruct (_ <? _); rewrite IH; simpl; try rewrite length_app; simpl; lia.
Qed.

Lemma sort_outer n : forall pre suffix,
  List.length suffix = n ->
  fold_left MoveQuizRoom.sort_inner (seq (List.length pre) n) (pre ++ suffix)
  = pre ++ MoveQuizRoom.selection_sort n suffix.
Proof.
  induction n as [|n IH]; intros pre suffix Hn.
  - destruct suffix; [reflexivity|discriminate].
  - destruct suffix as [|h t]; [discriminate|]. injection Hn as Hn.
    simpl. rewrite sort_inner_at.
    pose proof (select_length t h []) as Hl.
    destruct (MoveQuizRoom.select h [] t) as [|m others]; [discriminate|].
    simpl in Hl. injection Hl as Hl.
    specialize (IH (pre ++ [m]) others).
    rewrite length_app, Nat.add_1_r, <- !app_assoc in IH. simpl in IH.
    apply IH. lia.
Qed.

Lemma sort_leaderboard_selection lb :
  MoveQuizRoom.sort_leaderboard lb
  = MoveQuizRoom.selection_sort (List.length lb) lb.
Proof. apply (sort_outer (List.length lb) [] lb eq_refl). Qed.

Lemma filter_below c l :
  Forall (fun e => MoveQuizRoom.entry_score e < c) l ->
  filter (fun e => MoveQuizRoom.entry_score e =? c) l = [].
Proof.
  induction 1 as [|e t He _ IH]; simpl; auto.
  destruct (_ =? c) eqn:E; auto. apply Z.eqb_eq in E. lia.
Qed.

Lemma select_spec rest : forall h passed,
  Forall (fun e => MoveQuizRoom.entry_score e <= MoveQuizRoom.entry_score h)
    passed ->
  exists m others,
    MoveQuizRoom.select h passed rest = m :: others
    /\ Forall (fun e => MoveQuizRoom.entry_score e <= MoveQuizRoom.entry_score m)
         others
    /\ Permutation (m :: others) (h :: passed ++ rest)
    /\ forall c,
         filter (fun e => MoveQuizRoom.entry_score e =? c) (m :: others)
         = filter (fun e => MoveQuizRoom.entry_score e =? c)
             (h :: passed ++ rest).
Proof.
  induction rest as [|y t IH]; intros h passed Hp; cbn [MoveQuizRoom.select].
  - exists h, passed. rewrite app_nil_r. auto.
  - destruct (MoveQuizRoom.entry_score h <? MoveQuizRoom.entry_score y) eqn:E.
    + apply Z.ltb_lt in E.
      assert (Hp' : Forall (fun e => MoveQuizRoom.entry_score e
                                     <= MoveQuizRoom.entry_score y)
                      (h :: passed)).
      { constructor; [lia|]. eapply Forall_impl; [|exact Hp].
        simpl. intros a Ha. lia. }
      destruct (IH y (h :: passed) Hp') as (m & others & H1 & H2 & H3 & H4).
      exists m, others. split; [exact H1|]. split; [exact H2|]. split.
      * rewrite H3. apply (Permutation_middle (h :: passed) t y).
      * intros c. rewrite H4.
        change (h :: passed ++ y :: t) with ((h :: passed) ++ [y] ++ t).
        change (y :: (h :: passed) ++ t) with ([y] ++ (h :: passed) ++ t).
        rewrite !filter_app.
        assert (Hy : filter (fun e => MoveQuizRoom.entry_score e =? c) [y]
                     = if MoveQuizRoom.entry_score y =? c then [y] else [])
          by reflexivity.
        rewrite Hy.
        destruct (MoveQuizRoom.entry_score y =? c) eqn:Ec.
        -- apply Z.eqb_eq in Ec.
           rewrite (filter_below c (h :: passed)); [reflexivity|].
           constructor; [lia|]. eapply Forall_impl; [|exact Hp].
           simpl. intros a Ha. lia.
        -- reflexivity.
    + apply Z.ltb_ge in E.
      assert (Hp' : Forall (fun e => MoveQuizRoom.entry_score e
                                     <= MoveQuizRoom.entry_score h)
                      (passed ++ [y])).
      { apply Forall_app. split; auto. }
      destruct (IH h (passed ++ [y]) Hp') as (m & others & H1 & H2 & H3 & H4).
      rewrite <- app_assoc in H3, H4. simpl in H3, H4.
      exists m, others. auto.
Qed.

Lemma selection_sort_spec n : forall l,
  List.length l = n ->
  Permutation (MoveQuizRoom.selection_sort n l) l
  /\ MoveQuizRoom.descending_entries (MoveQuizRoom.selection_sort n l)
  /\ forall c,
       filter (fun e => MoveQuizRoom.entry_score e =? c)
         (MoveQuizRoom.selection_sort n l)
       = filter (fun e => MoveQuizRoom.entry_score e =? c) l.
Proof.
  unfold MoveQuizRoom.descending_entries.
  induction n as [|n IH]; intros l Hn.
  - destruct l; [|discriminate]. simpl. repeat split; auto. constructor.
  - destruct l as [|h t]; [discriminate|]. injection Hn as Hn.
    cbn [MoveQuizRoom.selection_sort].
    destruct (select_spec t h [] (Forall_nil _)) as (m & others & H1 & H2 & H3 & H4).
    rewrite H1. cbn [app] in H3, H4.
    assert (Hl : List.length others = n).
    { apply Permutation_length in H3. simpl in H3. lia. }
    destruct (IH others Hl) as (I1 & I2 & I3).
    split; [|split].
    + rewrite <- H3. now constructor.
    + constructor; auto.
      rewrite Forall_forall in *. intros e He. apply H2.
      now apply (Permutation_in _ I1).
    + intros c. rewrite <- H4. cbn [filter]. rewrite I3. reflexivity.
Qed.

(** X27.  The sorting loops of [finish_quiz] sort.  Whatever the scores,
    the vector they leave holds the same entries in descending order of
    score, and entries with equal scores keep the order they had. *)
Theorem X27_chain_leaderboard_is_sorted
    (lb : list MoveQuizRoom.LeaderboardEntry) :
  Permutation (MoveQuizRoom.sort_leaderboard lb) lb
  /\ MoveQuizRoom.descending_entries (MoveQuizRoom.sort_leaderboard lb)
  /\ forall c,
       filter (fun e => MoveQuizRoom.entry_score e =? c)
         (MoveQuizRoom.sort_leaderboard lb)
       = filter (fun e => MoveQuizRoom.entry_score e =? c) lb.
Proof.
  rewrite sort_leaderboard_selection. now apply selection_sort_spec.
Qed.

(** ** Finishing a room on chain *)

Lemma filter_all {A : Type} (f : A -> bool) l :
  Forall (fun x => f x = true) l -> filter f l = l.
Proof. induction 1 as [|x t Hx _ IH]; simpl; auto. now rewrite Hx, IH. Qed.

(** With all scores equal the sorting loops change nothing. *)
Lemma sort_leaderboard_equal_scores c lb :
  Forall (fun e => MoveQuizRoom.entry_score e = c) lb ->
  MoveQuizRoom.sort_leaderboard lb = lb.
Proof.
  intros Hall. rewrite sort_leaderboard_selection.
  destruct (selection_sort_spec (List.length lb) lb eq_refl) as (Hp & _ & Hf).
  specialize (Hf c).
  rewrite (filter_all _ lb) in Hf.
  - etransitivity; [|exact Hf]. symmetry. apply filter_all.
    rewrite Forall_forall in *. intros e He. apply Z.eqb_eq, Hall.
    now apply (Permutation_in _ Hp).
  - eapply Forall_impl; [|exact Hall]. simpl. intros e He. now apply Z.eqb_eq.
Qed.

Lemma sort_leaderboard_length lb :
  List.length (MoveQuizRoom.sort_leaderboard lb) = List.length lb.
Proof.
  rewrite sort_leaderboard_selection.
  destruct (selection_sort_spec (List.length lb) lb eq_refl) as (Hp & _).
  now apply Permutation_length.
Qed.

Lemma numbered_players ps : forall i,
  Forall (fun p => MoveQuizRoom.score p = 0) ps ->
  map (fun e => (MoveQuizRoom.player_address e, MoveQuizRoom.entry_score e,
                 MoveQuizRoom.position e))
    (mapi_from (fun e i => MoveQuizRoom.set_position (Z.of_nat i + 1) e) i
       (map MoveQuizRoom.entry_of ps))
  = mapi_from (fun p i => (MoveQuizRoom.address p, 0, Z.of_nat i + 1)) i ps.
Proof.
  induction ps as [|p t IH]; intros i Hall; simpl; auto.
  inversion Hall as [|? ? Hp Ht]; subst. rewrite Hp, IH; auto.
Qed.

(** X28.  Finishing a room on chain ranks the players in joining order.
    As long as a consistent room has not been finished, finishing it (any
    sender may, in any state) lists the players in the order in which they
    joined, each with score 0, numbered from 1, and announces the first
    player as the winner with score 0 (the zero address for an empty
    room).  Nothing prevents a second finish, which appends the players to
    the leaderboard once more. *)
Theorem X28_finish_on_chain_ranks_by_joining_order
    (room : MoveQuizRoom.QuizRoom) (ctx : TxContext) :
  MoveQuizRoom.consistent room ->
  MoveQuizRoom.status (MoveQuizRoom.game_state room) <> 2 ->
  let room1 := fst (MoveQuizRoom.finish_quiz room ctx) in
  map (fun e => (MoveQuizRoom.player_address e, MoveQuizRoom.entry_score e,
                 MoveQuizRoom.position e))
    (MoveQuizRoom.leaderboard (MoveQuizRoom.game_state room1))
  = mapi (fun p i => (MoveQuizRoom.address p, 0, Z.of_nat i + 1))
      (MoveQuizRoom.players room)
  /\ snd (MoveQuizRoom.finish_quiz room ctx)
     = [MoveQuizRoom.QuizCompleted (MoveQuizRoom.id room)
          (match MoveQuizRoom.players room with
           | first :: _ => MoveQuizRoom.address first
           | [] => "0x0"
           end)
          0 (MoveQuizRoom.current_players room) (epoch_timestamp_ms ctx)]
  /\ MoveQuizRoom.status (MoveQuizRoom.game_state room1) = 2
  /\ forall ctx',
       List.length
         (MoveQuizRoom.leaderboard
            (MoveQuizRoom.game_state
               (fst (MoveQuizRoom.finish_quiz room1 ctx'))))
       = (2 * List.length (MoveQuizRoom.players room))%nat.
Proof.
  intros (Hn & Hd & Hm & Hs & Hst & Hlb) Hne. cbv zeta.
  specialize (Hlb Hne).
  assert (Hsort : MoveQuizRoom.sort_leaderboard
                    (map MoveQuizRoom.entry_of (MoveQuizRoom.players room))
                  = map MoveQuizRoom.entry_of (MoveQuizRoom.players room)).
  { apply (sort_leaderboard_equal_scores 0).
    apply Forall_map. eapply Forall_impl; [|exact Hs]. simpl. auto. }
  unfold MoveQuizRoom.finish_quiz. rewrite Hlb. cbn [app]. rewrite Hsort.
  unfold MoveQuizRoom.number_positions, mapi.
  split; [|split; [|split]].
  - destruct (mapi_from _ 0 _) eqn:E; cbn [fst MoveQuizRoom.game_state
      MoveQuizRoom.with_progress MoveQuizRoom.leaderboard];
      rewrite <- E; now apply numbered_players.
  - destruct (MoveQuizRoom.players room) as [|p t] eqn:Ep; [reflexivity|].
    inversion Hs as [|? ? Hp Ht]; subst. cbn. now rewrite Hp.
  - destruct (mapi_from _ 0 _); reflexivity.
  - intros ctx'.
    destruct (mapi_from _ 0 (map MoveQuizRoom.entry_of _)) as [|w ws] eqn:E;
      cbn [fst MoveQuizRoom.game_state MoveQuizRoom.with_progress
           MoveQuizRoom.leaderboard MoveQuizRoom.players];
      rewrite <- E;
      match goal with
      | |- context [let '(_, _) := ?m in _] => destruct m
      end;
      cbn [fst MoveQuizRoom.game_state MoveQuizRoom.with_progress
           MoveQuizRoom.leaderboard];
      unfold MoveQuizRoom.number_positions, mapi;
      rewrite mapi_from_length, sort_leaderboard_length, length_app,
        mapi_from_length, !length_map; lia.
Qed.

Lemma X28_finish_on_chain_ranks_by_joining_order_witness :
  (MoveQuizRoom.consistent ChainFixtures.two_players
   /\ MoveQuizRoom.status (MoveQuizRoom.game_state ChainFixtures.two_players)
      <> 2)
  /\ snd (MoveQuizRoom.finish_quiz ChainFixtures.two_players
            ChainFixtures.bob_ctx)
     = [MoveQuizRoom.QuizCompleted (MoveQuizRoom.id ChainFixtures.two_players)
          (match MoveQuizRoom.players ChainFixtures.two_players with
           | first :: _ => MoveQuizRoom.address first
           | [] => "0x0"
           end)
          0 (MoveQuizRoom.current_players ChainFixtures.two_players)
          (epoch_timestamp_ms ChainFixtures.bob_ctx)].
Proof.
  assert (Hc : MoveQuizRoom.consistent ChainFixtures.two_players).
  { apply room_execute_consistent, created_room_consistent. }
  assert (Hs : MoveQuizRoom.status
                 (MoveQuizRoom.game_state ChainFixtures.two_players) <> 2)
    by (vm_compute; discriminate).
  split; [split; [exact Hc|exact Hs]|].
  pose proof (X28_finish_on_chain_ranks_by_joining_order
                ChainFixtures.two_players ChainFixtures.bob_ctx Hc Hs) as H.
  cbv zeta in H. destruct H as (_ & H & _). exact H.
Defined.

(** ** Answers on chain *)

(** X29.  On chain an answer is accepted exactly when the room is in
    progress, the question index is the current one and the sender is a
    player of the room.  It is appended to the sender's answers and changes
    nothing else: no score, no other player, not the current question.
    There is no limit of one answer per question: the same submission is
    accepted again right away. *)
Theorem X29_answers_on_chain
    (room : MoveQuizRoom.QuizRoom) (question_index answer : Z)
    (ctx : TxContext) :
  ((exists room1 events,
      MoveQuizRoom.submit_answer room question_index answer ctx
      = Executed (room1, events))
   <-> MoveQuizRoom.status (MoveQuizRoom.game_state room) = 1
       /\ question_index = MoveQuizRoom.current_question room
       /\ In (tx_sender ctx)
            (map MoveQuizRoom.address (MoveQuizRoom.players room)))
  /\ (forall room1 events,
        MoveQuizRoom.submit_answer room question_index answer ctx
        = Executed (room1, events) ->
        (exists before p after,
            MoveQuizRoom.players room = before ++ p :: after
            /\ MoveQuizRoom.players room1
               = before ++ MoveQuizRoom.push_answer answer p :: after
            /\ MoveQuizRoom.address p = tx_sender ctx
            /\ ~ In (tx_sender ctx) (map MoveQuizRoom.address before))
        /\ map MoveQuizRoom.score (MoveQuizRoom.players room1)
           = map MoveQuizRoom.score (MoveQuizRoom.players room)
        /\ MoveQuizRoom.current_question room1
           = MoveQuizRoom.current_question room
        /\ MoveQuizRoom.game_state room1 = MoveQuizRoom.game_state room
        /\ events = [MoveQuizRoom.QuestionAnswered (MoveQuizRoom.id room)
                       (tx_sender ctx) question_index answer
                       (epoch_timestamp_ms ctx)]
        /\ exists room2 events2,
             MoveQuizRoom.submit_answer room1 question_index answer ctx
             = Executed (room2, events2)).
Proof.
  unfold MoveQuizRoom.submit_answer.
  destruct (MoveQuizRoom.status (MoveQuizRoom.game_state room) =? 1) eqn:E1;
    simpl.
  2:{ apply Z.eqb_neq in E1. split.
      - split; [intros (r & e & H); discriminate|]. intros (H & _). contradiction.
      - discriminate. }
  apply Z.eqb_eq in E1.
  destruct (question_index =? MoveQuizRoom.current_question room) eqn:E2; simpl.
  2:{ apply Z.eqb_neq in E2. split.
      - split; [intros (r & e & H); discriminate|].
        intros (_ & H & _). contradiction.
      - discriminate. }
  apply Z.eqb_eq in E2.
  destruct (MoveQuizRoom.record_answer ctx answer (MoveQuizRoom.players room))
    as [ps|] eqn:Er.
  - pose proof (record_answer_spec _ _ _ _ Er) as (b & p & a & Hps & Hps' & Hp & Hb).
    split.
    + split; [intros _|intros _; eauto].
      split; [exact E1|split; [exact E2|]].
      rewrite Hps, map_app. apply in_or_app. right. left. exact Hp.
    + intros room1 events [= <- <-]. simpl.
      split; [exists b, p, a; auto|].
      split; [subst ps; rewrite Hps, !map_app; reflexivity|].
      split; [reflexivity|]. split; [reflexivity|]. split; [reflexivity|].
      rewrite E1, E2, !Z.eqb_refl. simpl.
      destruct (MoveQuizRoom.record_answer ctx answer ps) as [ps2|] eqn:Er2;
        [do 2 eexists; reflexivity|].
      apply record_answer_none in Er2. exfalso. apply Er2.
      subst ps. rewrite map_app. apply in_or_app. right. left. exact Hp.
  - apply record_answer_none in Er. split.
    + split; [intros (r & e & H); discriminate|].
      intros (_ & _ & H). contradiction.
    + discriminate.
Qed.

(** ** Guards on chain *)

(** X30.  The entry functions of a consistent room on chain never fail on
    arithmetic, and they go through exactly under their guards: a join
    when the room is not full, still waiting and the sender is not yet a
    player; a leave when the sender is a player; a start when the sender
    is the host, there is at least one player and the room is still
    waiting. *)
Theorem X30_room_guards_on_chain
    (room : MoveQuizRoom.QuizRoom) (nick : string) (ctx : TxContext) :
  MoveQuizRoom.consistent room ->
  MoveQuizRoom.max_players room <= u64_max ->
  ((exists room1 events,
      MoveQuizRoom.join_quiz_room room nick ctx = Executed (room1, events))
   <-> MoveQuizRoom.current_players room < MoveQuizRoom.max_players room
       /\ MoveQuizRoom.status (MoveQuizRoom.game_state room) = 0
       /\ ~ In (tx_sender ctx)
              (map MoveQuizRoom.address (MoveQuizRoom.players room)))
  /\ ((exists room1 events,
         MoveQuizRoom.leave_quiz_room room ctx = Executed (room1, events))
      <-> In (tx_sender ctx)
            (map MoveQuizRoom.address (MoveQuizRoom.players room)))
  /\ ((exists room1 events,
         MoveQuizRoom.start_quiz room ctx = Executed (room1, events))
      <-> MoveQuizRoom.host room = tx_sender ctx
          /\ 0 < MoveQuizRoom.current_players room
          /\ MoveQuizRoom.status (MoveQuizRoom.game_state room) = 0)
  /\ MoveQuizRoom.join_quiz_room room nick ctx <> ArithmeticAbort
  /\ MoveQuizRoom.leave_quiz_room room ctx <> ArithmeticAbort
  /\ MoveQuizRoom.start_quiz room ctx <> ArithmeticAbort.
Proof.
  intros (Hn & Hd & Hm & Hs & Hst & Hlb) Hmax.
  assert (Hjoin :
    MoveQuizRoom.join_quiz_room room nick ctx <> ArithmeticAbort
    /\ ((exists room1 events,
           MoveQuizRoom.join_quiz_room room nick ctx = Executed (room1, events))
        <-> MoveQuizRoom.current_players room < MoveQuizRoom.max_players room
            /\ MoveQuizRoom.status (MoveQuizRoom.game_state room) = 0
            /\ ~ In (tx_sender ctx)
                   (map MoveQuizRoom.address (MoveQuizRoom.players room)))).
  { unfold MoveQuizRoom.join_quiz_room.
    destruct (_ <? MoveQuizRoom.max_players room) eqn:E0; simpl.
    2:{ apply Z.ltb_ge in E0. split; [discriminate|].
        split; [intros (r & e & H); discriminate|]. intros (H & _). lia. }
    apply Z.ltb_lt in E0.
    destruct (_ =? 0) eqn:E1; simpl.
    2:{ apply Z.eqb_neq in E1. split; [discriminate|].
        split; [intros (r & e & H); discriminate|].
        intros (_ & H & _). contradiction. }
    apply Z.eqb_eq in E1.
    destruct (existsb _ _) eqn:E2.
    { apply existsb_is_sender in E2. split; [discriminate|].
      split; [intros (r & e & H); discriminate|].
      intros (_ & _ & H). contradiction. }
    destruct (u64_max <? _) eqn:E3; [apply Z.ltb_lt in E3; lia|].
    split; [discriminate|]. split; [intros _|intros _; eauto].
    split; [exact E0|split; [exact E1|]].
    intros H. apply existsb_is_sender in H. congruence. }
  assert (Hleave :
    MoveQuizRoom.leave_quiz_room room ctx <> ArithmeticAbort
    /\ ((exists room1 events,
           MoveQuizRoom.leave_quiz_room room ctx = Executed (room1, events))
        <-> In (tx_sender ctx)
              (map MoveQuizRoom.address (MoveQuizRoom.players room)))).
  { unfold MoveQuizRoom.leave_quiz_room.
    destruct (MoveQuizRoom.remove_sender ctx _) as [rest|] eqn:Er.
    - pose proof (remove_sender_spec _ _ _ Er) as (b & p & a & Hps & _ & Hp & _).
      assert (Hin : In (tx_sender ctx)
                      (map MoveQuizRoom.address (MoveQuizRoom.players room))).
      { rewrite Hps, map_app. apply in_or_app. right. left. exact Hp. }
      rewrite Hps, length_app in Hn. simpl in Hn.
      destruct (_ <? 1) eqn:E1; [apply Z.ltb_lt in E1; lia|].
      split; [discriminate|]. split; [auto|]. intros _. eauto.
    - apply remove_sender_none in Er. split; [discriminate|].
      split; [intros (r & e & H); discriminate|]. intros H. contradiction. }
  assert (Hstart :
    MoveQuizRoom.start_quiz room ctx <> ArithmeticAbort
    /\ ((exists room1 events,
           MoveQuizRoom.start_quiz room ctx = Executed (room1, events))
        <-> MoveQuizRoom.host room = tx_sender ctx
            /\ 0 < MoveQuizRoom.current_players room
            /\ MoveQuizRoom.status (MoveQuizRoom.game_state room) = 0)).
  { unfold MoveQuizRoom.start_quiz.
    destruct (String.eqb (MoveQuizRoom.host room) (tx_sender ctx)) eqn:E0; simpl.
    2:{ apply String.eqb_neq in E0. split; [discriminate|].
        split; [intros (r & e & H); discriminate|]. intros (H & _). contradiction. }
    apply String.eqb_eq in E0.
    destruct (0 <? MoveQuizRoom.current_players room) eqn:E1; simpl.
    2:{ apply Z.ltb_ge in E1. split; [discriminate|].
        split; [intros (r & e & H); discriminate|]. intros (_ & H & _). lia. }
    apply Z.ltb_lt in E1.
    destruct (_ =? 0) eqn:E2; simpl.
    2:{ apply Z.eqb_neq in E2. split; [discriminate|].
        split; [intros (r & e & H); discriminate|].
        intros (_ & _ & H). contradiction. }
    apply Z.eqb_eq in E2. split; [discriminate|].
    split; [auto|]. intros _. eauto. }
  tauto.
Qed.

Lemma X30_room_guards_on_chain_witness :
  (MoveQuizRoom.consistent ChainFixtures.two_players
   /\ MoveQuizRoom.max_players ChainFixtures.two_players <= u64_max)
  /\ MoveQuizRoom.join_quiz_room ChainFixtures.two_players "alice"
       ChainFixtures.alice_ctx <> ArithmeticAbort.
Proof.
  assert (Hc : MoveQuizRoom.consistent ChainFixtures.two_players).
  { apply room_execute_consistent, created_room_consistent. }
  assert (Hm : MoveQuizRoom.max_players ChainFixtures.two_players <= u64_max)
    by (vm_compute; discriminate).
  split; [split; [exact Hc|exact Hm]|].
  pose proof (X30_room_guards_on_chain ChainFixtures.two_players "alice"
                ChainFixtures.alice_ctx Hc Hm) as H.
  destruct H as (_ & _ & _ & H & _). exact H.
Defined.

(** ** Joining a second room *)

Lemma find_room_put_found_other code other room' f s :
  other <> code -> roomCode room' = code ->
  find_room other (put_found_room code room' f s) = find_room other s.
Proof.
  intros Hne Hc. unfold find_room, put_found_room, JsMap.find_value, JsMap.values.
  simpl. induction (quizRooms s) as [|[k1 v1] m IH]; simpl; auto.
  destruct (has_code code v1) eqn:E; simpl.
  - unfold has_code in *. apply String.eqb_eq in E.
    assert (H1 : String.eqb (roomCode room') other = false)
      by (apply String.eqb_neq; congruence).
    assert (H2 : String.eqb (roomCode v1) other = false)
      by (apply String.eqb_neq; congruence).
    now rewrite H1, H2.
  - destruct (has_code other v1); auto.
Qed.

(** X18.  Joining a second room does not take a connection out of the
    first.  After a successful join to a room with another code the
    connection is registered for the new room only, but it is still a
    player of the room it was in, with its score; and since leaving and
    disconnecting act on the registered room, neither of them removes it
    from the first room afterwards. *)
Theorem X18_second_join_leaves_a_player_behind
    (env : Env) (sid first code nick addr : string) (s : Server)
    (room : QuizRoom) :
  well_keyed s ->
  first <> code ->
  find_room code s = Some room ->
  gameState room = waiting ->
  Z.of_nat (JsMap.size (players room)) < capacity room ->
  let s' := on_join_room env sid code nick addr s in
  JsMap.get sid (socketPlayers s')
  = Some {| sp_roomId := code; sp_nickname := nick; sp_address := addr |}
  /\ (exists p, player_of code sid s' = Some p /\ score p = 0)
  /\ player_of first sid s' = player_of first sid s
  /\ player_of first sid (on_leave_room sid s') = player_of first sid s
  /\ player_of first sid (on_disconnect sid s') = player_of first sid s.
Proof.
  intros Hw Hne Hf Hg Hcap. cbv zeta.
  pose proof (find_room_has_code _ _ _ Hf) as Hcode.
  unfold on_join_room. rewrite Hf, Hg. cbn [GameState_eqb negb].
  unfold capacity in Hcap.
  destruct (_ <=? _) eqn:Hfull; [apply Z.leb_le in Hfull; lia|].
  set (room1 := addPlayer env sid nick addr room).
  match goal with
  | |- context [put_found_room code room1 ?f s] => set (f4 := f)
  end.
  set (s1 := put_found_room code room1 f4 s).
  assert (Hw1 : well_keyed s1).
  { apply (well_keyed_put_found code room); auto. }
  assert (Hg1 : JsMap.get code (quizRooms s1) = Some room1).
  { rewrite <- (well_keyed_find_get code s1 Hw1).
    apply (find_room_put_found code s room); auto. }
  assert (Hfirst : JsMap.get first (quizRooms s1) = JsMap.get first (quizRooms s)).
  { rewrite <- (well_keyed_find_get first s1 Hw1),
            <- (well_keyed_find_get first s Hw).
    apply find_room_put_found_other; auto. }
  assert (Hreg : JsMap.get sid
                   (JsMap.set sid {| sp_roomId := code; sp_nickname := nick;
                                     sp_address := addr |} (socketPlayers s))
                 = Some {| sp_roomId := code; sp_nickname := nick;
                           sp_address := addr |})
    by apply JsMapFacts.get_set_same.
  split; [exact Hreg|]. split; [|split; [|split]].
  - unfold player_of. cbn [quizRooms with_socketPlayers]. rewrite Hg1.
    unfold room1, addPlayer. cbn [players set_players].
    rewrite JsMapFacts.get_set_same. eexists. split; reflexivity.
  - unfold player_of. cbn [quizRooms with_socketPlayers]. now rewrite Hfirst.
  - unfold on_leave_room. cbn [socketPlayers with_socketPlayers].
    rewrite Hreg. cbn [sp_roomId quizRooms with_socketPlayers]. rewrite Hg1.
    unfold player_of. cbn [quizRooms with_socketPlayers put_room].
    rewrite JsMapFacts.get_set_other by exact Hne. now rewrite Hfirst.
  - unfold on_disconnect. cbn [socketPlayers with_socketPlayers].
    rewrite Hreg. cbn [sp_roomId sp_address quizRooms with_socketPlayers].
    rewrite Hg1. unfold player_of.
    destruct (String.eqb _ _);
      cbn [quizRooms with_socketPlayers put_room];
      rewrite JsMapFacts.get_set_other by exact Hne; now rewrite Hfirst.
Qed.

Lemma X18_second_join_leaves_a_player_behind_witness :
  let s :=
    step Fixtures.env
      (CreateRoom "uuid-2" "XYZ789"
         (Fixtures.quiz Fixtures.three_questions "top3" None 2)
         "0xother" false None) Fixtures.lobby in
  (well_keyed s
   /\ "ABC123" <> "XYZ789"
   /\ find_room "XYZ789" s = Some (Fixtures.room_of "XYZ789" s)
   /\ gameState (Fixtures.room_of "XYZ789" s) = waiting
   /\ Z.of_nat (JsMap.size (players (Fixtures.room_of "XYZ789" s)))
      < capacity (Fixtures.room_of "XYZ789" s))
  /\ player_of "ABC123" "s1"
       (on_disconnect "s1" (on_join_room Fixtures.env "s1" "XYZ789" "alice" "0xa" s))
     = player_of "ABC123" "s1" s.
Proof.
  cbv zeta.
  set (s := step Fixtures.env
              (CreateRoom "uuid-2" "XYZ789"
                 (Fixtures.quiz Fixtures.three_questions "top3" None 2)
                 "0xother" false None) Fixtures.lobby).
  assert (Hw : well_keyed s) by (apply step_well_keyed, reachable_well_keyed).
  assert (Hne : "ABC123" <> "XYZ789") by discriminate.
  assert (Hf : find_room "XYZ789" s = Some (Fixtures.room_of "XYZ789" s))
    by (vm_compute; reflexivity).
  assert (Hg : gameState (Fixtures.room_of "XYZ789" s) = waiting)
    by (vm_compute; reflexivity).
  assert (Hc : Z.of_nat (JsMap.size (players (Fixtures.room_of "XYZ789" s)))
               < capacity (Fixtures.room_of "XYZ789" s))
    by (vm_compute; reflexivity).
  split; [split; [exact Hw|split; [exact Hne|split; [exact Hf|
    split; [exact Hg|exact Hc]]]]|].
  pose proof (X18_second_join_leaves_a_player_behind Fixtures.env "s1"
                "ABC123" "XYZ789" "alice" "0xa" s _ Hw Hne Hf Hg Hc) as H.
  cbv zeta in H. destruct H as (_ & _ & _ & _ & H). exact H.
Defined.
